(** * The arangojs connection pool and request dispatcher

    A shallow embedding of [src/connection.ts] (class [Connection]): host
    list, task queue, host selection, failover and retry, leader redirect,
    request building and response interpretation, followed by the properties
    the specification states about them. *)

From Stdlib Require Import ZArith Bool Ascii String Lia.
From stdpp Require Import base option list strings pretty gmap.

Local Open Scope string_scope.
Local Open Scope list_scope.

(** ** JavaScript values used by the connection *)

(** A JavaScript number as far as the dispatcher computes with it: host
    indices, counters and list lengths are integers; [%] by zero and every
    operation on it is [NaN]. *)
Inductive number : Type :=
| Num (z : Z)
| NaN.

#[global] Instance number_eq_dec : EqDecision number.
Proof. solve_decision. Defined.

(** [a === b] on numbers: [NaN] equals nothing, itself included. *)
Definition js_strict_eq (a b : number) : bool :=
  match a, b with
  | Num x, Num y => (x =? y)%Z
  | _, _ => false
  end.

(** Truthiness of a number: [0] and [NaN] are falsy. *)
Definition js_truthy (a : number) : bool :=
  match a with
  | Num z => negb (z =? 0)%Z
  | NaN => false
  end.

Definition js_add (a b : number) : number :=
  match a, b with
  | Num x, Num y => Num (x + y)
  | _, _ => NaN
  end.

(** [a % b]: the remainder has the sign of the dividend; [% 0] is [NaN]. *)
Definition js_rem (a b : number) : number :=
  match a, b with
  | Num x, Num y => if (y =? 0)%Z then NaN else Num (Z.rem x y)
  | _, _ => NaN
  end.

(** [a < b]: any comparison with [NaN] is false. *)
Definition js_lt (a b : number) : bool :=
  match a, b with
  | Num x, Num y => (x <? y)%Z
  | _, _ => false
  end.

(** [a >= b]. *)
Definition js_ge (a b : number) : bool :=
  match a, b with
  | Num x, Num y => (y <=? x)%Z
  | _, _ => false
  end.

(** [a || b] on numbers. *)
Definition js_or (a b : number) : number := if js_truthy a then a else b.

(** [l.length]. *)
Definition js_length {A} (l : list A) : number := Num (Z.of_nat (List.length l)).

(** [l[i]]: [undefined] ([None]) outside [0 .. length - 1] and at [NaN]. *)
Definition js_at {A} (l : list A) (i : number) : option A :=
  match i with
  | Num z => if (0 <=? z)%Z then l !! Z.to_nat z else None
  | NaN => None
  end.

(** [l.indexOf(x)] on an array of strings: first position, or [-1]. *)
Fixpoint indexOf_from (i : Z) (l : list string) (x : string) : Z :=
  match l with
  | [] => -1
  | y :: l' => if String.eqb y x then i else indexOf_from (i + 1) l' x
  end.

Definition indexOf (l : list string) (x : string) : Z := indexOf_from 0 l x.

(** Truthiness of a string: only the empty string is falsy. *)
Definition truthy_string (s : string) : bool := negb (String.eqb s EmptyString).

(** The values a response body can hold once interpreted: a parsed JSON
    document, a decoded text, or the raw bytes of the transport. Numeric
    payloads are kept as integers; no branch of the connection looks at
    them. *)
#[warnings="-register-all"] Inductive value : Type :=
| JUndefined
| JNull
| JBool (b : bool)
| JNumber (z : Z)
| JString (s : string)
| JArray (items : list value)
| JObject (fields : list (string * value))
| JBuffer (bytes : string).

Definition truthy_value (v : value) : bool :=
  match v with
  | JUndefined | JNull => false
  | JBool b => b
  | JNumber z => negb (z =? 0)%Z
  | JString s => truthy_string s
  | JArray _ | JObject _ | JBuffer _ => true
  end.

(** [obj[key]] on a parsed object (the last binding of a repeated key is
    the one [JSON.parse] keeps, so fields are read from the end). *)
Fixpoint get_field (fields : list (string * value)) (key : string) : option value :=
  match fields with
  | [] => None
  | (k, v) :: rest =>
      match get_field rest key with
      | Some w => Some w
      | None => if String.eqb k key then Some v else None
      end
  end.

(** [v.hasOwnProperty(key)], the method being [Object.prototype]'s, for the
    keys the connection asks about. Strings, arrays and buffers own only
    index keys and [length]; numbers and booleans own nothing. *)
Definition hasOwnProperty (v : value) (key : string) : bool :=
  match v with
  | JObject fields => existsb (fun kv => String.eqb (fst kv) key) fields
  | _ => false
  end.

(** ** Data model *)

Inductive LoadBalancingStrategy : Type := NONE | ROUND_ROBIN | ONE_RANDOM.

#[global] Instance LoadBalancingStrategy_eq_dec : EqDecision LoadBalancingStrategy.
Proof. solve_decision. Defined.

(** [Headers]: an object with string values, keyed by header name. *)
Abbreviation Headers := (gmap string string).

(** [{ ...low, ...high }]: object spread, the later operand wins. *)
Definition spread (low high : Headers) : Headers := high ∪ low.

(** An error delivered to the transport callback.

    Modelled from the spec: [isSystemError] lives in [error.ts], which is not
    part of the sources at hand; the error value carries its verdict
    ("a system-level connection error") next to the [syscall] and [code]
    properties the connection reads itself. *)
Record JsError : Type := {
  err_system : bool;
  err_syscall : option string;
  err_code : option string;
  err_message : string
}.

Definition isSystemError (err : JsError) : bool := err_system err.

(** [err.syscall === "connect"], [err.code === "ECONNREFUSED"]: an absent
    property is [undefined] and equals no string. *)
Definition prop_is (p : option string) (s : string) : bool :=
  match p with
  | Some x => String.eqb x s
  | None => false
  end.

(** The [TypeError] raised by calling [this._hosts[host]] when that slot is
    [undefined]; it has neither [syscall] nor [code]. *)
Definition not_a_function : JsError :=
  {| err_system := false; err_syscall := None; err_code := None;
     err_message := "this._hosts[host] is not a function" |}.

(** What a transport hands over as a body: a [Buffer] (Node.js) or a string
    (browser). *)
Inductive RawBody : Type :=
| BufferBody (bytes : string)
| StringBody (text : string).

(** [ArangojsResponse], with the body either raw ([B := RawBody]) or
    interpreted ([B := value]). *)
Record Response (B : Type) : Type := {
  statusCode : option Z;
  res_headers : Headers;
  res_body : B;
  arangojsHostId : option number
}.
Arguments statusCode {B} _.
Arguments res_headers {B} _.
Arguments res_body {B} _.
Arguments arangojsHostId {B} _.

Definition with_body {A B} (res : Response A) (b : B) : Response B :=
  {| statusCode := statusCode res; res_headers := res_headers res;
     res_body := b; arangojsHostId := arangojsHostId res |}.

Definition with_hostId {B} (res : Response B) (h : number) : Response B :=
  {| statusCode := statusCode res; res_headers := res_headers res;
     res_body := res_body res; arangojsHostId := Some h |}.

(** The [body] of [RequestOptions], by the cases [request] distinguishes:
    falsy values are passed on untouched, objects go through
    [JSON.stringify], any other truthy value through [String]. *)
Inductive RequestBody : Type :=
| BodyFalsy
| BodyObject (json : string)
| BodyScalar (text : string).

Inductive TaskBody : Type :=
| Untouched (b : RequestBody)
| Serialized (s : string).

(** [qs?: string | Params]; a parameter bound to [undefined] is [None]. *)
Inductive QueryString : Type :=
| QsString (s : string)
| QsParams (params : list (string * option string)).

Record UrlInfo : Type := {
  basePath : option string;
  path : option string;
  qs : option QueryString
}.

Record Url : Type := { pathname : string; search : option string }.

Record RequestOptions : Type := {
  ro_host : option number;
  ro_method : option string;
  ro_body : RequestBody;
  ro_expectBinary : option bool;
  ro_isBinary : option bool;
  ro_allowDirtyRead : option bool;
  ro_headers : option Headers;
  ro_timeout : option Z;
  ro_urlInfo : UrlInfo
}.

Record TaskOptions : Type := {
  method : string;
  expectBinary : bool;
  timeout : Z;
  url : Url;
  headers : Headers;
  body : TaskBody
}.

(** [Task]. The [resolve] and [reject] members are the closures [request]
    builds; they are the functions [task_resolve] and the caller's
    rejection below, so a task carries only their free variable
    [expectBinary], inside [options]. *)
Record Task : Type := {
  host : option number;
  allowDirtyRead : bool;
  retries : Z;
  options : TaskOptions
}.

Definition task_with_host (t : Task) (h : option number) : Task :=
  {| host := h; allowDirtyRead := allowDirtyRead t; retries := retries t;
     options := options t |}.

Definition task_with_retries (t : Task) (r : Z) : Task :=
  {| host := host t; allowDirtyRead := allowDirtyRead t; retries := r;
     options := options t |}.

(** [task.options.headers[name] = v]. *)
Definition task_set_header (t : Task) (name v : string) : Task :=
  let o := options t in
  {| host := host t; allowDirtyRead := allowDirtyRead t; retries := retries t;
     options := {| method := method o; expectBinary := expectBinary o;
                   timeout := timeout o; url := url o;
                   headers := <[name := v]> (headers o); body := body o |} |}.

Record AgentOptions : Type := {
  maxSockets : option Z;
  keepAlive : option bool;
  keepAliveMsecs : option Z
}.

(** Modelled from the spec: [createRequest] lives in [lib/request], which is
    not part of the sources at hand. An endpoint transport is "one per
    server URL" and is represented by the arguments it was created from; the
    caller's [agent] object by a handle. *)
Record RequestFunction : Type := {
  rf_url : string;
  rf_agentOptions : AgentOptions;
  rf_agent : option nat
}.

Definition createRequest (u : string) (o : AgentOptions) (a : option nat) : RequestFunction :=
  {| rf_url := u; rf_agentOptions := o; rf_agent := a |}.

Inductive MaxRetries : Type :=
| RetriesFalse
| RetriesNumber (n : Z).

Inductive UrlConfig : Type :=
| OneUrl (u : string)
| ManyUrls (us : list string).

Record Config : Type := {
  cfg_url : option UrlConfig;
  cfg_arangoVersion : option Z;
  cfg_loadBalancingStrategy : option LoadBalancingStrategy;
  cfg_maxRetries : option MaxRetries;
  cfg_agent : option nat;
  cfg_agentOptions : option AgentOptions;
  cfg_headers : option Headers
}.

(** The fields of [Connection] (the database cache plays no part in request
    execution and is left out). *)
Record Connection : Type := {
  _activeTasks : Z;
  _agent : option nat;
  _agentOptions : AgentOptions;
  _arangoVersion : Z;
  _headers : Headers;
  _loadBalancingStrategy : LoadBalancingStrategy;
  _useFailOver : bool;
  _shouldRetry : bool;
  _maxRetries : Z;
  _maxTasks : Z;
  _queue : list Task;
  _hosts : list RequestFunction;
  _urls : list string;
  _activeHost : number;
  _activeDirtyHost : number;
  _transactionId : option string
}.

Definition set_activeTasks (c : Connection) (n : Z) : Connection :=
  {| _activeTasks := n; _agent := _agent c; _agentOptions := _agentOptions c;
     _arangoVersion := _arangoVersion c; _headers := _headers c;
     _loadBalancingStrategy := _loadBalancingStrategy c;
     _useFailOver := _useFailOver c; _shouldRetry := _shouldRetry c;
     _maxRetries := _maxRetries c; _maxTasks := _maxTasks c;
     _queue := _queue c; _hosts := _hosts c; _urls := _urls c;
     _activeHost := _activeHost c; _activeDirtyHost := _activeDirtyHost c;
     _transactionId := _transactionId c |}.

Definition set_queue (c : Connection) (q : list Task) : Connection :=
  {| _activeTasks := _activeTasks c; _agent := _agent c; _agentOptions := _agentOptions c;
     _arangoVersion := _arangoVersion c; _headers := _headers c;
     _loadBalancingStrategy := _loadBalancingStrategy c;
     _useFailOver := _useFailOver c; _shouldRetry := _shouldRetry c;
     _maxRetries := _maxRetries c; _maxTasks := _maxTasks c;
     _queue := q; _hosts := _hosts c; _urls := _urls c;
     _activeHost := _activeHost c; _activeDirtyHost := _activeDirtyHost c;
     _transactionId := _transactionId c |}.

Definition set_hosts (c : Connection) (us : list string) (hs : list RequestFunction) : Connection :=
  {| _activeTasks := _activeTasks c; _agent := _agent c; _agentOptions := _agentOptions c;
     _arangoVersion := _arangoVersion c; _headers := _headers c;
     _loadBalancingStrategy := _loadBalancingStrategy c;
     _useFailOver := _useFailOver c; _shouldRetry := _shouldRetry c;
     _maxRetries := _maxRetries c; _maxTasks := _maxTasks c;
     _queue := _queue c; _hosts := hs; _urls := us;
     _activeHost := _activeHost c; _activeDirtyHost := _activeDirtyHost c;
     _transactionId := _transactionId c |}.

Definition set_activeHost (c : Connection) (h : number) : Connection :=
  {| _activeTasks := _activeTasks c; _agent := _agent c; _agentOptions := _agentOptions c;
     _arangoVersion := _arangoVersion c; _headers := _headers c;
     _loadBalancingStrategy := _loadBalancingStrategy c;
     _useFailOver := _useFailOver c; _shouldRetry := _shouldRetry c;
     _maxRetries := _maxRetries c; _maxTasks := _maxTasks c;
     _queue := _queue c; _hosts := _hosts c; _urls := _urls c;
     _activeHost := h; _activeDirtyHost := _activeDirtyHost c;
     _transactionId := _transactionId c |}.

Definition set_activeDirtyHost (c : Connection) (h : number) : Connection :=
  {| _activeTasks := _activeTasks c; _agent := _agent c; _agentOptions := _agentOptions c;
     _arangoVersion := _arangoVersion c; _headers := _headers c;
     _loadBalancingStrategy := _loadBalancingStrategy c;
     _useFailOver := _useFailOver c; _shouldRetry := _shouldRetry c;
     _maxRetries := _maxRetries c; _maxTasks := _maxTasks c;
     _queue := _queue c; _hosts := _hosts c; _urls := _urls c;
     _activeHost := _activeHost c; _activeDirtyHost := h;
     _transactionId := _transactionId c |}.

Definition set_headers (c : Connection) (h : Headers) : Connection :=
  {| _activeTasks := _activeTasks c; _agent := _agent c; _agentOptions := _agentOptions c;
     _arangoVersion := _arangoVersion c; _headers := h;
     _loadBalancingStrategy := _loadBalancingStrategy c;
     _useFailOver := _useFailOver c; _shouldRetry := _shouldRetry c;
     _maxRetries := _maxRetries c; _maxTasks := _maxTasks c;
     _queue := _queue c; _hosts := _hosts c; _urls := _urls c;
     _activeHost := _activeHost c; _activeDirtyHost := _activeDirtyHost c;
     _transactionId := _transactionId c |}.

Definition set_transactionId (c : Connection) (t : option string) : Connection :=
  {| _activeTasks := _activeTasks c; _agent := _agent c; _agentOptions := _agentOptions c;
     _arangoVersion := _arangoVersion c; _headers := _headers c;
     _loadBalancingStrategy := _loadBalancingStrategy c;
     _useFailOver := _useFailOver c; _shouldRetry := _shouldRetry c;
     _maxRetries := _maxRetries c; _maxTasks := _maxTasks c;
     _queue := _queue c; _hosts := _hosts c; _urls := _urls c;
     _activeHost := _activeHost c; _activeDirtyHost := _activeDirtyHost c;
     _transactionId := t |}.

(** ** What the connection takes from its environment *)

(** [isBrowser] ([lib/request]), [sanitizeUrl] ([lib/sanitizeUrl]), Node's
    [querystring.stringify] and the built-in [JSON.parse] ([None] when it
    throws). *)
Class Platform : Type := {
  isBrowser : bool;
  sanitizeUrl : string -> string;
  querystringify : list (string * string) -> string;
  JSON_parse : string -> option value
}.

(** One draw of [Math.random()], a fraction in [0, 1). *)
Record Draw : Type := { draw_num : Z; draw_den : Z }.

(** [Math.floor(draw * n)]. *)
Definition floor_scaled (d : Draw) (n : Z) : Z := (draw_num d * n / draw_den d)%Z.

(** ** [MIME_JSON = /\/(json|javascript)(\W|$)/] *)

Definition word_char (a : ascii) : bool :=
  let n := nat_of_ascii a in
  (((48 <=? n) && (n <=? 57)) || ((65 <=? n) && (n <=? 90))
   || ((97 <=? n) && (n <=? 122)) || (n =? 95))%nat.

(** What follows the prefix [p] in [s], when [s] starts with [p]. *)
Fixpoint strip_prefix (p s : string) : option string :=
  match p, s with
  | EmptyString, _ => Some s
  | String a p', String b s' => if Ascii.eqb a b then strip_prefix p' s' else None
  | String _ _, EmptyString => None
  end.

(** [(\W|$)] at the head of [s]. *)
Definition boundary (s : string) : bool :=
  match s with
  | EmptyString => true
  | String a _ => negb (word_char a)
  end.

Definition mime_here (s : string) : bool :=
  match strip_prefix "/json" s with
  | Some r => boundary r
  | None => false
  end
  || match strip_prefix "/javascript" s with
     | Some r => boundary r
     | None => false
     end.

(** [s.match(MIME_JSON)] as a truth value: a match at some position. *)
Fixpoint MIME_JSON (s : string) : bool :=
  mime_here s ||
  match s with
  | EmptyString => false
  | String _ s' => MIME_JSON s'
  end.

(** ** Outcomes *)

(** What the caller's promise is rejected with. *)
Inductive RequestError : Type :=
| TransportError (err : JsError)
| SyntaxError (response : Response RawBody)
| ArangoError (res : Response value)
| HttpError (res : Response value).

(** How the caller's promise is settled; [Fulfilled res] stands for
    [resolve(transform ? transform(res) : res)]. *)
Inductive Settlement : Type :=
| Fulfilled (res : Response value)
| Rejected (e : RequestError).

(** A call of [task.resolve] or [task.reject] made by the dispatcher. *)
Inductive SinkCall : Type :=
| CallResolve (response : Response RawBody)
| CallReject (err : JsError).

(** The argument of the transport callback: [(err, res)]. *)
Inductive Outcome : Type :=
| Failure (err : JsError)
| Success (res : Response RawBody).

Definition body_length_truthy (b : RawBody) : bool :=
  match b with
  | BufferBody s | StringBody s => negb (String.length s =? 0)%nat
  end.

(** A [Buffer] is an object and always truthy; a string is truthy unless
    empty. *)
Definition body_truthy (b : RawBody) : bool :=
  match b with
  | BufferBody _ => true
  | StringBody s => truthy_string s
  end.

(** [res.body.toString("utf-8")], also the text [JSON.parse] reads. *)
Definition body_text (b : RawBody) : string :=
  match b with
  | BufferBody s | StringBody s => s
  end.

Definition body_value (b : RawBody) : value :=
  match b with
  | BufferBody s => JBuffer s
  | StringBody s => JString s
  end.

(** The test on [parsedBody] that selects [ArangoError]. *)
Definition is_error_envelope (parsedBody : value) : bool :=
  truthy_value parsedBody
  && hasOwnProperty parsedBody "error"
  && hasOwnProperty parsedBody "code"
  && hasOwnProperty parsedBody "errorMessage"
  && hasOwnProperty parsedBody "errorNum".

(** [res.statusCode && res.statusCode >= 400]. *)
Definition is_http_error (status : option Z) : bool :=
  match status with
  | Some s => negb (s =? 0)%Z && (400 <=? s)%Z
  | None => false
  end.

Section Connection.

Context `{Platform}.

(** The [resolve] member of a task ([request], the closure over
    [expectBinary]): the response interpreter. *)
Definition task_resolve (expectBinary : bool) (res : Response RawBody) : Settlement :=
  let contentType := res_headers res !! "content-type" in
  let parsed : RequestError + value :=
    if body_length_truthy (res_body res)
       && match contentType with
          | Some ct => truthy_string ct && MIME_JSON ct
          | None => false
          end
    then
      match JSON_parse (body_text (res_body res)) with
      | Some v => inr v
      | None =>
          if negb expectBinary then inl (SyntaxError res)
          else inr (body_value (res_body res))
      end
    else if body_truthy (res_body res) && negb expectBinary
    then inr (JString (body_text (res_body res)))
    else inr (body_value (res_body res)) in
  match parsed with
  | inl e => Rejected e
  | inr parsedBody =>
      if is_error_envelope parsedBody
      then Rejected (ArangoError (with_body res parsedBody))
      else if is_http_error (statusCode res)
      then Rejected (HttpError (with_body res parsedBody))
      else if negb expectBinary
      then Fulfilled (with_body res parsedBody)
      else Fulfilled (with_body res (body_value (res_body res)))
  end.

(** How a call on a task's sink settles the caller's promise. *)
Definition settle (t : Task) (call : SinkCall) : Settlement :=
  match call with
  | CallResolve response => task_resolve (expectBinary (options t)) response
  | CallReject err => Rejected (TransportError err)
  end.

(** [addToHostList(urls)]; a single string is the one-element list. *)
Definition addToHostList (c : Connection) (urls : list string) : Connection * list Z :=
  let cleanUrls := map sanitizeUrl urls in
  let newUrls := List.filter (fun u => (indexOf (_urls c) u =? -1)%Z) cleanUrls in
  let urls' := _urls c ++ newUrls in
  let hosts' :=
    _hosts c ++ map (fun u => createRequest u (_agentOptions c) (_agent c)) newUrls in
  (set_hosts c urls' hosts', map (fun u => indexOf urls' u) cleanUrls).

(** [(cursor + 1) % this._hosts.length]. *)
Definition next_host (c : Connection) (cursor : number) : number :=
  js_rem (js_add cursor (Num 1)) (js_length (_hosts c)).

(** [_runQueue], from its first line to [this._activeTasks += 1]: take the
    head of the queue and choose its host. [None] is the early [return]. *)
Definition select (c : Connection) : option (Connection * Task * number) :=
  match _queue c with
  | [] => None
  | task :: rest =>
      if (_maxTasks c <=? _activeTasks c)%Z then None
      else
        let c := set_queue c rest in
        let '(c, task, host) :=
          match host task with
          | Some pinned => (c, task, pinned)
          | None =>
              if allowDirtyRead task then
                (set_activeDirtyHost c (next_host c (_activeDirtyHost c)),
                 task_set_header task "x-arango-allow-dirty-read" "true",
                 _activeDirtyHost c)
              else if decide (_loadBalancingStrategy c = ROUND_ROBIN) then
                (set_activeHost c (next_host c (_activeHost c)), task, _activeHost c)
              else (c, task, _activeHost c)
          end in
        Some (set_activeTasks c (_activeTasks c + 1), task, host)
  end.

(** [!task.host]: true for [undefined], [0] and [NaN]. *)
Definition not_host (t : Task) : bool :=
  match host t with
  | None => true
  | Some h => negb (js_truthy h)
  end.

(** [this._maxRetries || this._hosts.length - 1]. *)
Definition retry_limit (c : Connection) : Z :=
  if negb (_maxRetries c =? 0)%Z then _maxRetries c
  else (Z.of_nat (length (_hosts c)) - 1)%Z.

(** The condition under which a failed task is queued again. *)
Definition retry_eligible (c : Connection) (task : Task) (err : JsError) : bool :=
  not_host task
  && _shouldRetry c
  && (retries task <? retry_limit c)%Z
  && isSystemError err
  && prop_is (err_syscall err) "connect"
  && prop_is (err_code err) "ECONNREFUSED".

(** The condition under which an error moves the primary cursor on. *)
Definition failover_applies (c : Connection) (task : Task) (host : number) : bool :=
  negb (allowDirtyRead task)
  && (1 <? Z.of_nat (length (_hosts c)))%Z
  && js_strict_eq (_activeHost c) host
  && _useFailOver c.

Definition LEADER_ENDPOINT_HEADER : string := "x-arango-endpoint".

(** [response.statusCode === 503 && response.headers[LEADER_ENDPOINT_HEADER]]:
    the header value when the test passes. *)
Definition leader_endpoint (response : Response RawBody) : option string :=
  match statusCode response, res_headers response !! LEADER_ENDPOINT_HEADER with
  | Some 503%Z, Some u => if truthy_string u then Some u else None
  | _, _ => None
  end.

(** The transport [callback] of a task sent to [host], up to (and without)
    its final [this._runQueue()]. Returns the new state and the call made on
    the task's sink, if any. *)
Definition callback_handle (c : Connection) (task : Task) (host : number)
    (outcome : Outcome) : Connection * option (Task * SinkCall) :=
  let c := set_activeTasks c (_activeTasks c - 1) in
  match outcome with
  | Failure err =>
      let c :=
        if failover_applies c task host
        then set_activeHost c (next_host c (_activeHost c))
        else c in
      if retry_eligible c task err then
        let task := task_with_retries task (retries task + 1) in
        (set_queue c (_queue c ++ [task]), None)
      else (c, Some (task, CallReject err))
  | Success response =>
      match leader_endpoint response with
      | Some u =>
          let '(c1, indices) := addToHostList c [u] in
          let index := from_option Num NaN (head indices) in
          let task := task_with_host task (Some index) in
          let c2 :=
            if js_strict_eq (_activeHost c1) host then set_activeHost c1 index else c1 in
          (set_queue c2 (_queue c2 ++ [task]), None)
      | None =>
          (c, Some (task, CallResolve (with_hostId response host)))
      end
  end.

(** What one call of [_runQueue] leaves behind: the new state, the request
    it handed to a transport (task and host index), and the sink calls made
    on the way. *)
Definition RunResult : Type :=
  Connection * option (Task * number) * list (Task * SinkCall).

(** [_runQueue]. When [this._hosts[host]] is not a function the call throws,
    the [catch] runs [callback(e)] at once, and that callback runs
    [_runQueue] again: the nesting is bounded by [fuel]. A transport that is
    there answers later, through [callback]; one that throws is one that
    fails at once. *)
Fixpoint _runQueue (fuel : nat) (c : Connection) : option RunResult :=
  match select c with
  | None => Some (c, None, [])
  | Some (c1, task, host) =>
      match js_at (_hosts c1) host with
      | Some _ => Some (c1, Some (task, host), [])
      | None =>
          match fuel with
          | O => None
          | S fuel' =>
              let '(c2, call) := callback_handle c1 task host (Failure not_a_function) in
              match _runQueue fuel' c2 with
              | Some (c3, sent, calls) => Some (c3, sent, option_list call ++ calls)
              | None => None
              end
          end
      end
  end.

(** [_runQueue] with the nesting the queue allows. *)
Definition runQueue (c : Connection) : option RunResult :=
  _runQueue (length (_queue c)) c.

(** The transport [callback] in full. *)
Definition callback (c : Connection) (task : Task) (host : number)
    (outcome : Outcome) : option RunResult :=
  let '(c1, call) := callback_handle c task host outcome in
  match runQueue c1 with
  | Some (c2, sent, calls) => Some (c2, sent, option_list call ++ calls)
  | None => None
  end.

(** [clean]: drop the parameters bound to [undefined]. *)
Definition clean (params : list (string * option string)) : list (string * string) :=
  omap (fun kv => match snd kv with
                  | Some v => Some (fst kv, v)
                  | None => None
                  end) params.

Definition _buildUrl (u : UrlInfo) : Url :=
  let pathname := default EmptyString (basePath u) +:+ default EmptyString (path u) in
  let search :=
    match qs u with
    | Some (QsString s) => if truthy_string s then Some ("?" +:+ s) else None
    | Some (QsParams ps) => Some ("?" +:+ querystringify (clean ps))
    | None => None
    end in
  {| pathname := pathname; search := search |}.

(** [request], the content type and the body to send. *)
Definition content_of (isBinary : bool) (b : RequestBody) : string * TaskBody :=
  if isBinary then ("application/octet-stream", Untouched b)
  else
    match b with
    | BodyFalsy => ("text/plain", Untouched b)
    | BodyObject json => ("application/json", Serialized json)
    | BodyScalar text => ("text/plain", Serialized text)
    end.

(** [request], [extraHeaders] as built in three steps. *)
Definition extraHeaders (c : Connection) (contentType : string) : Headers :=
  let extra :=
    <["x-arango-version" := pretty (_arangoVersion c)]>
      (<["content-type" := contentType]> (spread ∅ (_headers c))) in
  match _transactionId c with
  | Some id => if truthy_string id then <["x-arango-trx-id" := id]> extra else extra
  | None => extra
  end.

(** [request], the task it pushes on the queue. *)
Definition request_task (c : Connection) (o : RequestOptions) : Task :=
  let '(contentType, body) := content_of (default false (ro_isBinary o)) (ro_body o) in
  {| retries := 0;
     host := ro_host o;
     allowDirtyRead := default false (ro_allowDirtyRead o);
     options :=
       {| url := _buildUrl (ro_urlInfo o);
          headers := spread (spread ∅ (extraHeaders c contentType))
                            (default ∅ (ro_headers o));
          timeout := default 0%Z (ro_timeout o);
          method := default "GET" (ro_method o);
          expectBinary := default false (ro_expectBinary o);
          body := body |} |}.

(** [request]: queue the task, then [_runQueue]. *)
Definition request (c : Connection) (o : RequestOptions) : option RunResult :=
  runQueue (set_queue c (_queue c ++ [request_task c o])).

Definition setTransactionId (c : Connection) (transactionId : string) : Connection :=
  set_transactionId c (Some transactionId).

Definition clearTransactionId (c : Connection) : Connection :=
  set_transactionId c None.

Definition setHeader (c : Connection) (headerName : string) (v : option string) : Connection :=
  match v with
  | None => set_headers c (delete headerName (_headers c))
  | Some x => set_headers c (<[headerName := x]> (_headers c))
  end.

(** The constructor; [d1] and [d2] are the two draws of [Math.random()] it
    makes under [ONE_RANDOM]. *)
Definition new_Connection (config : Config) (d1 d2 : Draw) : Connection :=
  let given := default {| maxSockets := None; keepAlive := None; keepAliveMsecs := None |}
                       (cfg_agentOptions config) in
  let agentOptions :=
    if isBrowser then given
    else {| maxSockets := Some (default 3%Z (maxSockets given));
            keepAlive := Some (default true (keepAlive given));
            keepAliveMsecs := Some (default 1000%Z (keepAliveMsecs given)) |} in
  let maxTasks :=
    match maxSockets agentOptions with
    | Some n => if (n =? 0)%Z then 3%Z else n
    | None => 3%Z
    end in
  let maxTasks := if default false (keepAlive agentOptions) then (maxTasks * 2)%Z else maxTasks in
  let strategy := default NONE (cfg_loadBalancingStrategy config) in
  let '(shouldRetry, maxRetries) :=
    match cfg_maxRetries config with
    | Some RetriesFalse => (false, 0%Z)
    | Some (RetriesNumber n) => (true, n)
    | None => (true, 0%Z)
    end in
  let urls :=
    match cfg_url config with
    | Some (OneUrl u) => if truthy_string u then [u] else ["http://localhost:8529"]
    | Some (ManyUrls us) => us
    | None => ["http://localhost:8529"]
    end in
  let c0 :=
    {| _activeTasks := 0; _agent := cfg_agent config; _agentOptions := agentOptions;
       _arangoVersion := default 30400%Z (cfg_arangoVersion config);
       _headers := spread ∅ (default ∅ (cfg_headers config));
       _loadBalancingStrategy := strategy;
       _useFailOver := negb (bool_decide (strategy = ROUND_ROBIN));
       _shouldRetry := shouldRetry; _maxRetries := maxRetries;
       _maxTasks := maxTasks; _queue := []; _hosts := []; _urls := [];
       _activeHost := Num 0; _activeDirtyHost := Num 0;
       _transactionId := None |} in
  let c1 := fst (addToHostList c0 urls) in
  if decide (strategy = ONE_RANDOM) then
    set_activeDirtyHost
      (set_activeHost c1 (Num (floor_scaled d1 (Z.of_nat (length (_hosts c1))))))
      (Num (floor_scaled d2 (Z.of_nat (length (_hosts c1)))))
  else c1.

End Connection.

(** ** The pool at work: submissions and transport completions *)

(** The connection together with the requests its transports are working
    on, the log of every request handed to a transport (task and host index,
    in order), and the settlements of the callers' promises. *)
Record Pool : Type := {
  conn : Connection;
  inflight : list (Task * number);
  sent : list (Task * number);
  settled : list (Task * Settlement)
}.

Definition start (c : Connection) : Pool :=
  {| conn := c; inflight := []; sent := []; settled := [] |}.

(** What can happen to a pool: a caller submits a request, or the transport
    working on the [i]-th request in flight calls back (when fewer requests
    are in flight there is no such transport, and nothing happens). *)
Inductive Event : Type :=
| Submit (o : RequestOptions)
| Complete (i : nat) (outcome : Outcome).

Section Pool.

Context `{Platform}.

Definition absorb (p : Pool) (flying : list (Task * number)) (r : RunResult) : Pool :=
  let '(c, started, calls) := r in
  {| conn := c;
     inflight := flying ++ option_list started;
     sent := sent p ++ option_list started;
     settled := settled p ++ map (fun tc => (fst tc, settle (fst tc) (snd tc))) calls |}.

Definition step (p : Pool) (e : Event) : option Pool :=
  match e with
  | Submit o => absorb p (inflight p) <$> request (conn p) o
  | Complete i outcome =>
      match inflight p !! i with
      | Some (task, host) =>
          absorb p (delete i (inflight p)) <$> callback (conn p) task host outcome
      | None => Some p
      end
  end.

Fixpoint run (p : Pool) (events : list Event) : option Pool :=
  match events with
  | [] => Some p
  | e :: rest =>
      match step p e with
      | Some p' => run p' rest
      | None => None
      end
  end.

End Pool.

(** ** Notions the properties are stated with *)

(** A cursor that points into a host list of length [n]. *)
Definition in_range (n : nat) (x : number) : Prop :=
  exists z, x = Num z /\ (0 <= z < Z.of_nat n)%Z.

(** Both cursors point into the (non-empty) host list. *)
Definition cursors_valid (c : Connection) : Prop :=
  in_range (length (_hosts c)) (_activeHost c)
  /\ in_range (length (_hosts c)) (_activeDirtyHost c).

(** A draw of [Math.random()] lies in [0, 1). *)
Definition valid_draw (d : Draw) : Prop := (0 <= draw_num d < draw_den d)%Z.

(** A connection-refused error: [isSystemError], [syscall] ["connect"],
    [code] ["ECONNREFUSED"]. *)
Definition connection_refused (err : JsError) : Prop :=
  isSystemError err = true
  /\ err_syscall err = Some "connect"
  /\ err_code err = Some "ECONNREFUSED".

(** The retry bound in the words of the specification. *)
Definition effectiveMax (c : Connection) : Z :=
  if (0 <? _maxRetries c)%Z then _maxRetries c
  else (Z.of_nat (length (_hosts c)) - 1)%Z.

(** Header layering in the words of the specification: later layers win. *)
Definition last_wins (layers : list Headers) : Headers := foldl spread ∅ layers.

Definition core_layer (c : Connection) (o : RequestOptions) : Headers :=
  {[ "content-type" := fst (content_of (default false (ro_isBinary o)) (ro_body o));
     "x-arango-version" := pretty (_arangoVersion c) ]}.

Definition transaction_layer (c : Connection) : Headers :=
  match _transactionId c with
  | Some id => if truthy_string id then {[ "x-arango-trx-id" := id ]} else ∅
  | None => ∅
  end.

(** An event of a run without host pins, transport errors and redirects;
    with [dirty = false] also without dirty reads. *)
Definition quiet (dirty : bool) (e : Event) : Prop :=
  match e with
  | Submit o =>
      ro_host o = None /\ (default false (ro_allowDirtyRead o) = true -> dirty = true)
  | Complete _ (Success res) => leader_endpoint res = None
  | Complete _ (Failure _) => False
  end.

(** A task such a run can hold. *)
Definition admissible (dirty : bool) (t : Task) : Prop :=
  host t = None /\ (allowDirtyRead t = true -> dirty = true).

(** The hosts a series of requests handed to the transports visits when the
    cursors start at [a] (primary) and [d] (dirty reads) over [n] hosts and
    end at [a'] and [d']: what host selection does, request by request. *)
Fixpoint follows (rr : bool) (n a d : Z) (new : list (Task * number)) (a' d' : Z) : Prop :=
  match new with
  | [] => a' = a /\ d' = d
  | (t, h) :: rest =>
      if allowDirtyRead t
      then h = Num d /\ follows rr n a ((d + 1) mod n) rest a' d'
      else h = Num a /\ follows rr n (if rr then (a + 1) mod n else a) d rest a' d'
  end.



(** A body the interpreter reads as JSON: non-empty, announced by a JSON
    content type, and parsed by [JSON.parse] into [v]. *)
Definition parses_to `{Platform} (res : Response RawBody) (v : value) : Prop :=
  body_length_truthy (res_body res) = true
  /\ (exists ct, res_headers res !! "content-type" = Some ct /\ MIME_JSON ct = true)
  /\ JSON_parse (body_text (res_body res)) = Some v.

(** The states a connection passes through once it exists: every method
    call and every transport callback leads from one to the next. *)
Inductive reachable_from `{Platform} (c0 : Connection) : Connection -> Prop :=
| reach_here : reachable_from c0 c0
| reach_request c o c' s calls :
    reachable_from c0 c -> request c o = Some (c', s, calls) ->
    reachable_from c0 c'
| reach_callback c task host outcome c' s calls :
    reachable_from c0 c -> callback c task host outcome = Some (c', s, calls) ->
    reachable_from c0 c'
| reach_addToHostList c urls :
    reachable_from c0 c -> reachable_from c0 (addToHostList c urls).1
| reach_setHeader c name v :
    reachable_from c0 c -> reachable_from c0 (setHeader c name v)
| reach_setTransactionId c id :
    reachable_from c0 c -> reachable_from c0 (setTransactionId c id)
| reach_clearTransactionId c :
    reachable_from c0 c -> reachable_from c0 (clearTransactionId c).

(** ** Examples *)

Definition dq : string := String (ascii_of_nat 34) EmptyString.

Definition quoted (s : string) : string := dq +:+ s +:+ dq.

(** The body of the "collection not found" reply and what [JSON.parse]
    makes of it. *)
Definition not_found_text : string :=
  "{" +:+ quoted "error" +:+ ":true," +:+ quoted "code" +:+ ":404,"
  +:+ quoted "errorMessage" +:+ ":" +:+ quoted "collection not found" +:+ ","
  +:+ quoted "errorNum" +:+ ":1203}".

Definition not_found_doc : value :=
  JObject [("error", JBool true); ("code", JNumber 404);
           ("errorMessage", JString "collection not found");
           ("errorNum", JNumber 1203)].

(** A stored document that happens to use the four envelope keys. *)
Definition lookalike_text : string :=
  "{" +:+ quoted "error" +:+ ":false," +:+ quoted "code" +:+ ":0,"
  +:+ quoted "errorMessage" +:+ ":" +:+ quoted "none" +:+ ","
  +:+ quoted "errorNum" +:+ ":0}".

Definition lookalike_doc : value :=
  JObject [("error", JBool false); ("code", JNumber 0);
           ("errorMessage", JString "none"); ("errorNum", JNumber 0)].

(** Node.js, URLs that are already normalized, and a [JSON.parse] that
    knows the two documents above. *)
Definition example_platform : Platform :=
  {| isBrowser := false;
     sanitizeUrl := fun u => u;
     querystringify := fun _ => EmptyString;
     JSON_parse := fun s =>
       if String.eqb s not_found_text then Some not_found_doc
       else if String.eqb s lookalike_text then Some lookalike_doc
       else None |}.

Definition json_reply (status : Z) (text : string) : Response RawBody :=
  {| statusCode := Some status;
     res_headers := {[ "content-type" := "application/json; charset=utf-8" ]};
     res_body := BufferBody text;
     arangojsHostId := None |}.

Definition example_config (strategy : LoadBalancingStrategy) (us : list string) : Config :=
  {| cfg_url := Some (ManyUrls us); cfg_arangoVersion := None;
     cfg_loadBalancingStrategy := Some strategy; cfg_maxRetries := None;
     cfg_agent := None; cfg_agentOptions := None; cfg_headers := None |}.

Definition three_hosts : list string := ["http://h1:8529"; "http://h2:8529"; "http://h3:8529"].

Definition no_draw : Draw := {| draw_num := 0; draw_den := 1 |}.

Definition get (p : string) : RequestOptions :=
  {| ro_host := None; ro_method := None; ro_body := BodyFalsy;
     ro_expectBinary := None; ro_isBinary := None; ro_allowDirtyRead := None;
     ro_headers := None; ro_timeout := None;
     ro_urlInfo := {| basePath := None; path := Some p; qs := None |} |}.

Definition get_dirty (p : string) : RequestOptions :=
  {| ro_host := None; ro_method := None; ro_body := BodyFalsy;
     ro_expectBinary := None; ro_isBinary := None; ro_allowDirtyRead := Some true;
     ro_headers := None; ro_timeout := None;
     ro_urlInfo := {| basePath := None; path := Some p; qs := None |} |}.

Definition get_on (h : Z) (p : string) : RequestOptions :=
  {| ro_host := Some (Num h); ro_method := None; ro_body := BodyFalsy;
     ro_expectBinary := None; ro_isBinary := None; ro_allowDirtyRead := None;
     ro_headers := None; ro_timeout := None;
     ro_urlInfo := {| basePath := None; path := Some p; qs := None |} |}.

(** A request whose body would be sent as JSON, with a content type of
    the caller's own. *)
Definition upload : RequestOptions :=
  {| ro_host := None; ro_method := Some "POST"; ro_body := BodyObject "{}";
     ro_expectBinary := None; ro_isBinary := None; ro_allowDirtyRead := None;
     ro_headers := Some {[ "content-type" := "application/x-custom" ]};
     ro_timeout := None;
     ro_urlInfo := {| basePath := None; path := Some "/_api/document/c"; qs := None |} |}.

Definition refused : JsError :=
  {| err_system := true; err_syscall := Some "connect";
     err_code := Some "ECONNREFUSED";
     err_message := "connect ECONNREFUSED" |}.

(** The settings the constructor fixes are the same in both states. *)
Definition same_policy (c c' : Connection) : Prop :=
  _loadBalancingStrategy c' = _loadBalancingStrategy c
  /\ _useFailOver c' = _useFailOver c
  /\ _shouldRetry c' = _shouldRetry c
  /\ _maxRetries c' = _maxRetries c
  /\ _maxTasks c' = _maxTasks c.

(** Every task waiting in the queue is admissible. *)
Definition queue_of (dirty : bool) (c : Connection) : Prop :=
  Forall (admissible dirty) (_queue c).

(** The pool is in a state a quiet run keeps it in: the cursors are at [a]
    and [d], inside the host list, and no pinned task is waiting. *)
Definition steady (dirty : bool) (p : Pool) (a d : Z) : Prop :=
  _activeHost (conn p) = Num a /\ _activeDirtyHost (conn p) = Num d
  /\ in_range (length (_hosts (conn p))) (Num a)
  /\ in_range (length (_hosts (conn p))) (Num d)
  /\ queue_of dirty (conn p).

(** Both cursors point into the host list, which has one transport per
    URL. *)
Definition healthy (c : Connection) : Prop :=
  cursors_valid c /\ length (_hosts c) = length (_urls c).

(** ** Further examples *)

Definition text_reply (status : Z) (text : string) : Response RawBody :=
  {| statusCode := Some status;
     res_headers := {[ "content-type" := "text/plain; charset=utf-8" ]};
     res_body := BufferBody text;
     arangojsHostId := None |}.

(** A 503 that names the leader. *)
Definition redirect_reply (leader : string) : Response RawBody :=
  {| statusCode := Some 503%Z;
     res_headers := {[ "x-arango-endpoint" := leader ]};
     res_body := BufferBody EmptyString;
     arangojsHostId := None |}.

(** ** Further notions *)

(** The transport at each index was created for the URL at that index. *)
Definition aligned (c : Connection) : Prop := map rf_url (_hosts c) = _urls c.

(** No more requests are counted active than the connection allows. *)
Definition within_capacity (c : Connection) : Prop := (_activeTasks c <= _maxTasks c)%Z.


(** The requests submitted in the course of a run, in order. *)
Fixpoint submissions (events : list Event) : list RequestOptions :=
  match events with
  | [] => []
  | Submit o :: rest => o :: submissions rest
  | Complete _ _ :: rest => submissions rest
  end.

(** An unpinned task as [_runQueue] hands it to a transport: a dirty read
    has been given its header on the way. *)
Definition dispatched (t : Task) : Task :=
  if allowDirtyRead t then task_set_header t "x-arango-allow-dirty-read" "true" else t.

(** ** The database cache *)

(** The second argument of [database]: left out, [null], or an instance. *)
Inductive DatabaseArg (D : Type) : Type :=
| ArgUndefined
| ArgNull
| ArgDatabase (d : D).
Arguments ArgUndefined {D}.
Arguments ArgNull {D}.
Arguments ArgDatabase {D} d.

(** [database], on the [_databases] map (the only field it touches): the
    map afterwards and the value returned, [None] for [undefined]. *)
Definition database {D : Type} (_databases : gmap string D) (databaseName : string)
    (database : DatabaseArg D) : gmap string D * option D :=
  match database with
  | ArgNull => (delete databaseName _databases, None)
  | ArgUndefined => (_databases, _databases !! databaseName)
  | ArgDatabase d => (<[databaseName := d]> _databases, Some d)
  end.

(** A series of [database] calls, one after another. *)
Definition database_calls {D : Type} (_databases : gmap string D)
    (calls : list (string * DatabaseArg D)) : gmap string D :=
  foldl (fun m call => (database m call.1 call.2).1) _databases calls.

(** The call leaves the entry of [name] alone: it is a fetch, or it names
    another database. *)
Definition spares {D : Type} (name : string) (call : string * DatabaseArg D) : Prop :=
  call.1 <> name \/ call.2 = ArgUndefined.

(** ** Graph responses (graph.ts) *)

(** The [prop] argument of [mungeGharialResponse]. *)
Inductive GharialProp : Type := PropVertex | PropEdge | PropRemoved.

Definition prop_key (prop : GharialProp) : string :=
  match prop with
  | PropVertex => "vertex"
  | PropEdge => "edge"
  | PropRemoved => "removed"
  end.

(** The own enumerable properties of a value, as object spread and rest
    copy them: the fields of an object, the index keys of a string, an
    array or a buffer, nothing for the other primitives. *)
Definition own_entries (v : value) : list (string * value) :=
  match v with
  | JObject fields => fields
  | JArray items => imap (fun i x => (pretty i, x)) items
  | JString s =>
      imap (fun i a => (pretty i, JString (String a EmptyString))) (list_ascii_of_string s)
  | JBuffer bytes =>
      imap (fun i a => (pretty i, JNumber (Z.of_nat (nat_of_ascii a))))
           (list_ascii_of_string bytes)
  | _ => []
  end.

(** [v[key]] for a key that no prototype defines. *)
Definition read_prop (v : value) (key : string) : value :=
  default JUndefined (get_field (own_entries v) key).

(** [typeof v !== "undefined"]. *)
Definition is_defined (v : value) : bool :=
  match v with
  | JUndefined => false
  | _ => true
  end.

(** [mungeGharialResponse]; [None] is the [TypeError] of destructuring
    [null] or [undefined]. The object is built as a list read from the end:
    a spread or an assignment appends its fields. *)
Definition mungeGharialResponse (body : value) (prop : GharialProp) : option value :=
  match body with
  | JUndefined | JNull => None
  | _ =>
      let newDoc := read_prop body "new" in
      let oldDoc := read_prop body "old" in
      let doc := read_prop body (prop_key prop) in
      let meta :=
        List.filter
          (fun kv => negb (existsb (String.eqb kv.1) ["new"; "old"; prop_key prop]))
          (own_entries body) in
      let result := meta ++ own_entries doc in
      let result := if is_defined newDoc then result ++ [("new", newDoc)] else result in
      let result := if is_defined oldDoc then result ++ [("old", oldDoc)] else result in
      Some (JObject result)
  end.

(** A reply of the graph API to the update of a vertex whose document has
    attributes called [new] and [code]. *)
Definition updated_body : value :=
  JObject [("error", JBool false); ("code", JNumber 202);
           ("vertex", JObject [("_key", JString "v1"); ("_rev", JString "r2")]);
           ("new", JObject [("_key", JString "v1"); ("new", JBool true);
                            ("code", JString "x")])].

(** * Properties *)

(** ** Arrays of strings *)

Lemma indexOf_from_ge i l x : (indexOf_from i l x = -1 \/ i <= indexOf_from i l x)%Z.
Proof.
  revert i. induction l as [|y l IH]; intros i; simpl; [by left|].
  destruct (String.eqb y x); [right; lia|].
  destruct (IH (i + 1)%Z); [by left | right; lia].
Qed.

Lemma indexOf_from_shift i l x :
  (0 <= i)%Z ->
  indexOf_from i l x = (if (indexOf l x =? -1)%Z then -1 else i + indexOf l x)%Z.
Proof.
  unfold indexOf. revert i. induction l as [|y l IH]; intros i Hi; simpl; [done|].
  destruct (String.eqb y x); simpl; [f_equal; lia|].
  rewrite (IH (i + 1)%Z) by lia. rewrite (IH (0 + 1)%Z) by lia.
  destruct (indexOf_from 0 l x =? -1)%Z eqn:E; simpl; [done|].
  pose proof (indexOf_from_ge 0 l x) as [?|?]; [lia|].
  replace (0 + 1 + indexOf_from 0 l x =? -1)%Z with false by (symmetry; apply Z.eqb_neq; lia).
  lia.
Qed.

Lemma indexOf_absent l x : indexOf l x = (-1)%Z <-> x ∉ l.
Proof.
  unfold indexOf. induction l as [|y l IH]; simpl.
  - split; [intros _; apply not_elem_of_nil | done].
  - destruct (String.eqb_spec y x) as [->|Hne].
    + split; [lia | intros []; left].
    + rewrite indexOf_from_shift by lia. fold (indexOf l x).
      destruct (indexOf l x =? -1)%Z eqn:E.
      * apply Z.eqb_eq in E. split; [|done]. intros _.
        rewrite not_elem_of_cons. split; [done | by apply IH].
      * apply Z.eqb_neq in E.
        pose proof (indexOf_from_ge 0 l x) as [?|?]; [done|].
        unfold indexOf in *. split; [lia|].
        rewrite not_elem_of_cons. intros [_ ?]. exfalso. by apply E, IH.
Qed.

Lemma indexOf_present l x :
  x ∈ l ->
  exists k : nat, indexOf l x = Z.of_nat k /\ l !! k = Some x
                  /\ forall j : nat, (j < k)%nat -> l !! j <> Some x.
Proof.
  unfold indexOf. induction l as [|y l IH]; [by intros ?%elem_of_nil|].
  intros Hin. simpl. destruct (String.eqb_spec y x) as [->|Hne].
  - exists O. split_and!; [done | done | lia].
  - apply elem_of_cons in Hin as [->|Hin]; [done|].
    destruct (IH Hin) as (k & Hk & Hl & Hfirst).
    exists (S k). rewrite indexOf_from_shift by lia. unfold indexOf. rewrite Hk.
    replace (Z.of_nat k =? -1)%Z with false by (symmetry; apply Z.eqb_neq; lia).
    split_and!; [lia | done |].
    intros [|j] Hj; simpl; [congruence | apply Hfirst; lia].
Qed.

Lemma indexOf_app_present l l' x : x ∈ l -> indexOf (l ++ l') x = indexOf l x.
Proof.
  unfold indexOf. generalize 0%Z.
  induction l as [|y l IH]; intros i; [by intros ?%elem_of_nil|].
  intros Hin. simpl. destruct (String.eqb_spec y x) as [->|Hne]; [done|].
  apply elem_of_cons in Hin as [->|Hin]; [done | by apply IH].
Qed.

(** ** [_runQueue] returns; the settings never change *)

Section Totality.
Context `{Platform}.

Lemma same_policy_refl c : same_policy c c.
Proof. by repeat split. Qed.

Lemma same_policy_trans c1 c2 c3 :
  same_policy c1 c2 -> same_policy c2 c3 -> same_policy c1 c3.
Proof. unfold same_policy. intros (?&?&?&?&?) (?&?&?&?&?). split_and!; congruence. Qed.

Lemma addToHostList_policy c urls : same_policy c (addToHostList c urls).1.
Proof. by repeat split. Qed.

Lemma select_policy c c1 t h : select c = Some (c1, t, h) -> same_policy c c1.
Proof.
  unfold select. intros Hs. repeat case_match; simplify_eq; by unfold same_policy.
Qed.

Lemma callback_handle_policy c t h o : same_policy c (callback_handle c t h o).1.
Proof.
  unfold callback_handle, addToHostList.
  repeat case_match; simplify_eq; simpl; by unfold same_policy.
Qed.

Lemma type_error_not_retried c t : retry_eligible c t not_a_function = false.
Proof. unfold retry_eligible. simpl. by rewrite andb_false_r. Qed.

Lemma type_error_handled c t h :
  exists c', callback_handle c t h (Failure not_a_function)
             = (c', Some (t, CallReject not_a_function))
             /\ _queue c' = _queue c /\ same_policy c c'.
Proof.
  unfold callback_handle. rewrite type_error_not_retried.
  eexists. split; [reflexivity|]. split; [|repeat split]; by case_match.
Qed.

Lemma select_queue c c1 t h :
  select c = Some (c1, t, h) -> exists t0, _queue c = t0 :: _queue c1.
Proof.
  unfold select. intros Hs. repeat case_match; simplify_eq; by eexists.
Qed.

Lemma _runQueue_unfold fuel c :
  _runQueue fuel c =
  match select c with
  | None => Some (c, None, [])
  | Some (c1, task, host) =>
      match js_at (_hosts c1) host with
      | Some _ => Some (c1, Some (task, host), [])
      | None =>
          match fuel with
          | O => None
          | S fuel' =>
              let '(c2, call) := callback_handle c1 task host (Failure not_a_function) in
              match _runQueue fuel' c2 with
              | Some (c3, sent, calls) => Some (c3, sent, option_list call ++ calls)
              | None => None
              end
          end
      end
  end.
Proof. by destruct fuel. Qed.

Lemma _runQueue_total fuel c :
  (length (_queue c) <= fuel)%nat -> is_Some (_runQueue fuel c).
Proof.
  revert c. induction fuel as [|fuel IH]; intros c Hlen; rewrite _runQueue_unfold.
  - destruct (select c) as [[[c1 t] h]|] eqn:Hs; [|done].
    apply select_queue in Hs as [t0 Hq]. rewrite Hq in Hlen. simpl in Hlen. lia.
  - destruct (select c) as [[[c1 t] h]|] eqn:Hs; [|done].
    destruct (js_at (_hosts c1) h); [done|].
    destruct (type_error_handled c1 t h) as (c2 & -> & Hq & _).
    apply select_queue in Hs as [t0 Hq0].
    destruct (IH c2) as [[[c3 s] calls] ->]; [|done].
    rewrite Hq. rewrite Hq0 in Hlen. simpl in Hlen. lia.
Qed.

Lemma runQueue_total c : is_Some (runQueue c).
Proof. by apply _runQueue_total. Qed.

Lemma _runQueue_policy fuel c c' s calls :
  _runQueue fuel c = Some (c', s, calls) -> same_policy c c'.
Proof.
  revert c c' s calls.
  induction fuel as [|fuel IH]; intros c c' s calls; rewrite _runQueue_unfold.
  - destruct (select c) as [[[c1 t] h]|] eqn:Hs.
    + destruct (js_at (_hosts c1) h); [|done]. intros ?; simplify_eq.
      by eapply select_policy.
    + intros ?; simplify_eq. apply same_policy_refl.
  - destruct (select c) as [[[c1 t] h]|] eqn:Hs.
    + destruct (js_at (_hosts c1) h).
      * intros ?; simplify_eq. by eapply select_policy.
      * destruct (type_error_handled c1 t h) as (c2 & -> & _ & Hp).
        destruct (_runQueue fuel c2) as [[[c3 s3] calls3]|] eqn:Hr; [|done].
        intros ?; simplify_eq.
        eapply same_policy_trans; [by eapply select_policy|].
        eapply same_policy_trans; [done|]. by eapply IH.
    + intros ?; simplify_eq. apply same_policy_refl.
Qed.

Lemma callback_total c t h o : is_Some (callback c t h o).
Proof.
  unfold callback. destruct (callback_handle c t h o) as [c1 call].
  destruct (runQueue_total c1) as [[[c2 s] calls] ->]. done.
Qed.

Lemma request_total c o : is_Some (request c o).
Proof. apply runQueue_total. Qed.

Lemma callback_policy c t h o c' s calls :
  callback c t h o = Some (c', s, calls) -> same_policy c c'.
Proof.
  unfold callback.
  pose proof (callback_handle_policy c t h o) as Hp.
  destruct (callback_handle c t h o) as [c1 call]. simpl in Hp.
  destruct (runQueue c1) as [[[c2 s2] calls2]|] eqn:Hr; [|done].
  intros ?; simplify_eq. eapply same_policy_trans; [done|].
  by eapply _runQueue_policy.
Qed.

Lemma request_policy c o c' s calls :
  request c o = Some (c', s, calls) -> same_policy c c'.
Proof.
  unfold request. intros Hr. apply _runQueue_policy in Hr.
  destruct Hr as (?&?&?&?&?). by repeat split.
Qed.

Lemma step_total p e : is_Some (step p e).
Proof.
  destruct e as [o|i o]; simpl.
  - destruct (request_total (conn p) o) as [r ->]. done.
  - destruct (inflight p !! i) as [[t h]|]; [|done].
    destruct (callback_total (conn p) t h o) as [r ->]. done.
Qed.

Lemma run_total p events : is_Some (run p events).
Proof.
  revert p. induction events as [|e es IH]; intros p; simpl; [done|].
  destruct (step_total p e) as [p' ->]. apply IH.
Qed.

End Totality.

(** ** Host selection *)

Lemma js_at_in_range {A} (l : list A) h : in_range (length l) h -> is_Some (js_at l h).
Proof.
  intros (z & -> & Hz). unfold js_at.
  replace (0 <=? z)%Z with true by (symmetry; apply Z.leb_le; lia).
  apply lookup_lt_is_Some. lia.
Qed.

Lemma in_range_Num n a : in_range n (Num a) <-> (0 <= a < Z.of_nat n)%Z.
Proof.
  split; [intros (z & [= ->] & Hz); done | intros Ha; by exists a].
Qed.

Lemma in_range_mod n a : (0 < n)%nat -> in_range n (Num (a mod Z.of_nat n)).
Proof. intros Hn. apply in_range_Num, Z.mod_pos_bound. lia. Qed.

Lemma next_host_in_range c a :
  in_range (length (_hosts c)) (Num a) ->
  next_host c (Num a) = Num ((a + 1) mod Z.of_nat (length (_hosts c)))
  /\ in_range (length (_hosts c)) (next_host c (Num a)).
Proof.
  intros Ha%in_range_Num. unfold next_host, js_length. simpl.
  replace (Z.of_nat (length (_hosts c)) =? 0)%Z with false
    by (symmetry; apply Z.eqb_neq; lia).
  rewrite Z.rem_mod_nonneg by lia. split; [done|].
  eexists. split; [done|]. apply Z.mod_pos_bound. lia.
Qed.

Section Selection.
Context `{Platform}.

Lemma select_inv c c1 t h :
  select c = Some (c1, t, h) ->
  exists t0,
    _queue c = t0 :: _queue c1
    /\ (_activeTasks c < _maxTasks c)%Z
    /\ _activeTasks c1 = (_activeTasks c + 1)%Z
    /\ _hosts c1 = _hosts c /\ _urls c1 = _urls c
    /\ match host t0 with
       | Some pinned =>
           t = t0 /\ h = pinned
           /\ _activeHost c1 = _activeHost c
           /\ _activeDirtyHost c1 = _activeDirtyHost c
       | None =>
           if allowDirtyRead t0 then
             t = task_set_header t0 "x-arango-allow-dirty-read" "true"
             /\ h = _activeDirtyHost c
             /\ _activeHost c1 = _activeHost c
             /\ _activeDirtyHost c1 = next_host c (_activeDirtyHost c)
           else
             t = t0 /\ h = _activeHost c
             /\ _activeHost c1 =
                  (if decide (_loadBalancingStrategy c = ROUND_ROBIN)
                   then next_host c (_activeHost c) else _activeHost c)
             /\ _activeDirtyHost c1 = _activeDirtyHost c
       end.
Proof.
  unfold select. intros Hs.
  destruct (_queue c) as [|t0 rest] eqn:Hq; [done|].
  destruct (_maxTasks c <=? _activeTasks c)%Z eqn:Hcap; [done|].
  apply Z.leb_gt in Hcap. exists t0.
  destruct (host t0) as [pinned|] eqn:Hh.
  - by simplify_eq.
  - destruct (allowDirtyRead t0) eqn:Hd.
    + by simplify_eq.
    + simpl in Hs.
      destruct (decide (_loadBalancingStrategy c = ROUND_ROBIN)); by simplify_eq.
Qed.

Lemma select_None c :
  select c = None <-> _queue c = [] \/ (_maxTasks c <= _activeTasks c)%Z.
Proof.
  unfold select. destruct (_queue c) as [|t0 rest]; [naive_solver|].
  destruct (_maxTasks c <=? _activeTasks c)%Z eqn:Hcap.
  - apply Z.leb_le in Hcap. naive_solver.
  - apply Z.leb_gt in Hcap. split; [by repeat case_match|]. intros [|]; [done|lia].
Qed.

Lemma runQueue_sends fuel c c1 t h :
  select c = Some (c1, t, h) -> is_Some (js_at (_hosts c1) h) ->
  _runQueue fuel c = Some (c1, Some (t, h), []).
Proof. intros Hs [rf Hrf]. rewrite _runQueue_unfold, Hs, Hrf. done. Qed.

Lemma runQueue_idle fuel c : select c = None -> _runQueue fuel c = Some (c, None, []).
Proof. intros Hs. by rewrite _runQueue_unfold, Hs. Qed.

(** One [_runQueue] on a connection with valid cursors and no pinned task
    waiting. *)
Lemma runQueue_quiet dirty fuel c a d :
  _activeHost c = Num a -> _activeDirtyHost c = Num d ->
  in_range (length (_hosts c)) (Num a) ->
  in_range (length (_hosts c)) (Num d) ->
  queue_of dirty c ->
  exists c' s a' d',
    _runQueue fuel c = Some (c', s, [])
    /\ _hosts c' = _hosts c /\ _urls c' = _urls c /\ same_policy c c'
    /\ _activeHost c' = Num a' /\ _activeDirtyHost c' = Num d'
    /\ in_range (length (_hosts c)) (Num a')
    /\ in_range (length (_hosts c)) (Num d')
    /\ queue_of dirty c'
    /\ Forall (fun th => admissible dirty th.1) (option_list s)
    /\ follows (bool_decide (_loadBalancingStrategy c = ROUND_ROBIN))
               (Z.of_nat (length (_hosts c))) a d (option_list s) a' d'
    /\ match s with
       | Some (t, h) =>
           (exists t0, _queue c = t0 :: _queue c'
              /\ retries t = retries t0
              /\ (allowDirtyRead t0 = true ->
                  headers (options t) !! "x-arango-allow-dirty-read" = Some "true"))
           /\ _activeTasks c' = (_activeTasks c + 1)%Z
           /\ (_activeTasks c < _maxTasks c)%Z
       | None => c' = c /\ (_queue c = [] \/ (_maxTasks c <= _activeTasks c)%Z)
       end.
Proof.
  intros Ha Hd Hra Hrd Hq.
  destruct (select c) as [[[c1 t] h]|] eqn:Hs.
  - pose proof (select_policy _ _ _ _ Hs) as Hpol.
    apply select_inv in Hs as Hinv.
    destruct Hinv as (t0 & Hq0 & Hcap & Hact & Hhosts & Hurls & Hcase).
    unfold queue_of in Hq. rewrite Hq0 in Hq. apply Forall_cons in Hq as [[Hpin Hdirty] Hq].
    rewrite Hpin in Hcase.
    destruct (next_host_in_range c a Hra) as [Hna Hnr].
    destruct (next_host_in_range c d Hrd) as [Hnd Hndr].
    destruct (allowDirtyRead t0) eqn:Hdt.
    + destruct Hcase as (-> & -> & Hah & Hdh).
      exists c1, (Some (task_set_header t0 "x-arango-allow-dirty-read" "true", _activeDirtyHost c)),
        a, ((d + 1) mod Z.of_nat (length (_hosts c)))%Z.
      split; [apply runQueue_sends; [done|]|].
      { by rewrite Hhosts, Hd; apply js_at_in_range. }
      split_and!; try done; try congruence.
      * apply Forall_singleton. split; simpl; [done | intros _; by apply Hdirty].
      * simpl. rewrite Hdt, Hd. done.
      * exists t0. split_and!; try done. intros _. simpl. apply lookup_insert_eq.
    + destruct Hcase as (-> & -> & Hah & Hdh).
      exists c1, (Some (t0, _activeHost c)),
        (if bool_decide (_loadBalancingStrategy c = ROUND_ROBIN)
         then (a + 1) mod Z.of_nat (length (_hosts c)) else a)%Z, d.
      split; [apply runQueue_sends; [done|]|].
      { by rewrite Hhosts, Ha; apply js_at_in_range. }
      split_and!; try done; try congruence.
      * rewrite Hah. case_decide; [rewrite bool_decide_true by done | rewrite bool_decide_false by done]; congruence.
      * case_bool_decide; [congruence | done].
      * apply Forall_singleton. split; [done|]. simpl. congruence.
      * simpl. rewrite Hdt. done.
      * exists t0. split_and!; try done. congruence.
  - exists c, None, a, d. split; [by apply runQueue_idle|].
    split_and!; try done. by apply select_None.
Qed.

End Selection.

(** ** Runs without pins, errors and redirects *)

Lemma follows_app rr n a d l1 a1 d1 l2 a2 d2 :
  follows rr n a d l1 a1 d1 -> follows rr n a1 d1 l2 a2 d2 ->
  follows rr n a d (l1 ++ l2) a2 d2.
Proof.
  revert a d. induction l1 as [|[t h] l1 IH]; intros a d; simpl.
  - by intros [-> ->].
  - destruct (allowDirtyRead t); intros [-> Hf] Hg; (split; [done|]); by apply IH.
Qed.

(** Round robin without dirty reads: the [k]-th request goes to host
    [(a + k) mod n]. *)
Lemma follows_round_robin n a d new a' d' :
  (0 <= a < n)%Z ->
  Forall (fun th => allowDirtyRead th.1 = false) new ->
  follows true n a d new a' d' ->
  (forall (k : nat) t h, new !! k = Some (t, h) -> h = Num ((a + Z.of_nat k) mod n))
  /\ a' = ((a + Z.of_nat (length new)) mod n)%Z /\ d' = d.
Proof.
  revert a. induction new as [|[t h] new IH]; intros a Ha Hplain; simpl.
  - intros [-> ->]. split_and!; [done | | done].
    rewrite Z.add_0_r, Z.mod_small; lia.
  - apply Forall_cons in Hplain as [Ht Hplain]. simpl in Ht. rewrite Ht.
    intros [-> Hf].
    destruct (IH ((a + 1) mod n)%Z) as (Hk & Ha' & Hd'); [|done|done|].
    { apply Z.mod_pos_bound. lia. }
    assert (forall j : Z, (((a + 1) mod n + j) mod n = (a + (1 + j)) mod n)%Z) as Hmod.
    { intros j. rewrite Zplus_mod_idemp_l. f_equal. lia. }
    split_and!.
    + intros [|k] t' h' Hl; simpl in Hl.
      * simplify_eq. rewrite Z.add_0_r, Z.mod_small; [done | lia].
      * rewrite (Hk _ _ _ Hl), Hmod. f_equal. f_equal. lia.
    + rewrite Ha', Hmod. f_equal. lia.
    + done.
Qed.

(** Without round robin the primary cursor stays where it is, and so does
    every request that is not a dirty read. *)
Lemma follows_fixed n a d new a' d' :
  follows false n a d new a' d' ->
  a' = a
  /\ forall t h, (t, h) ∈ new -> allowDirtyRead t = false -> h = Num a.
Proof.
  revert d. induction new as [|[t h] new IH]; intros d; simpl.
  - intros [-> ->]. split; [done|]. by intros ?? ?%elem_of_nil.
  - destruct (allowDirtyRead t) eqn:Ht; intros [-> Hf];
      destruct (IH _ Hf) as [-> Hall]; (split; [done|]);
      intros t' h' [?|?]%elem_of_cons Hd'; simplify_eq; try congruence; eauto.
Qed.

(** Dirty reads alone walk the dirty-read cursor round the host list and
    leave the primary cursor alone. *)
Lemma follows_dirty rr n a d new a' d' :
  (0 <= d < n)%Z ->
  Forall (fun th => allowDirtyRead th.1 = true) new ->
  follows rr n a d new a' d' ->
  (forall (k : nat) t h, new !! k = Some (t, h) -> h = Num ((d + Z.of_nat k) mod n))
  /\ a' = a /\ d' = ((d + Z.of_nat (length new)) mod n)%Z.
Proof.
  revert d. induction new as [|[t h] new IH]; intros d Hd Hdirty; simpl.
  - intros [-> ->]. split_and!; [done | done |].
    rewrite Z.add_0_r, Z.mod_small; lia.
  - apply Forall_cons in Hdirty as [Ht Hdirty]. simpl in Ht. rewrite Ht.
    intros [-> Hf].
    destruct (IH ((d + 1) mod n)%Z) as (Hk & Ha' & Hd'); [|done|done|].
    { apply Z.mod_pos_bound. lia. }
    assert (forall j : Z, (((d + 1) mod n + j) mod n = (d + (1 + j)) mod n)%Z) as Hmod.
    { intros j. rewrite Zplus_mod_idemp_l. f_equal. lia. }
    split_and!.
    + intros [|k] t' h' Hl; simpl in Hl.
      * simplify_eq. rewrite Z.add_0_r, Z.mod_small; [done | lia].
      * rewrite (Hk _ _ _ Hl), Hmod. f_equal. f_equal. lia.
    + done.
    + rewrite Hd', Hmod. f_equal. lia.
Qed.

Section QuietRuns.
Context `{Platform}.

Lemma request_task_admissible dirty c o :
  ro_host o = None -> (default false (ro_allowDirtyRead o) = true -> dirty = true) ->
  admissible dirty (request_task c o).
Proof.
  intros Hh Hd. unfold request_task. destruct (content_of _ _). by split.
Qed.

Lemma quiet_step dirty p e a d :
  steady dirty p a d -> quiet dirty e ->
  exists p' new a' d',
    step p e = Some p'
    /\ sent p' = sent p ++ new
    /\ _hosts (conn p') = _hosts (conn p)
    /\ same_policy (conn p) (conn p')
    /\ steady dirty p' a' d'
    /\ Forall (fun th => admissible dirty th.1) new
    /\ follows (bool_decide (_loadBalancingStrategy (conn p) = ROUND_ROBIN))
               (Z.of_nat (length (_hosts (conn p)))) a d new a' d'.
Proof.
  intros (Ha & Hd & Hra & Hrd & Hq) He. destruct e as [o|i [err|res]]; [| done |].
  - destruct He as [Hpin Hdirty]. simpl. unfold request, runQueue.
    set (c1 := set_queue (conn p) (_queue (conn p) ++ [request_task (conn p) o])).
    destruct (runQueue_quiet dirty (length (_queue c1)) c1 a d)
      as (c' & s & a' & d' & -> & Hh & _ & Hpol & Ha' & Hd' & Hra' & Hrd' & Hq' & Hs & Hf & _);
      try done.
    { apply Forall_app. split; [done|]. apply Forall_singleton.
      by apply request_task_admissible. }
    exists (absorb p (inflight p) (c', s, [])), (option_list s), a', d'.
    simpl. change (_hosts c1) with (_hosts (conn p)) in *.
    change (_loadBalancingStrategy c1) with (_loadBalancingStrategy (conn p)) in *.
    split_and!; try done; try exact Hpol.
    unfold steady. simpl. rewrite Hh. done.
  - simpl in He. simpl. destruct (inflight p !! i) as [[t h]|] eqn:Hi.
    + unfold callback, callback_handle. rewrite He. unfold runQueue.
      set (c1 := set_activeTasks (conn p) (_activeTasks (conn p) - 1)).
      destruct (runQueue_quiet dirty (length (_queue c1)) c1 a d)
        as (c' & s & a' & d' & -> & Hh & _ & Hpol & Ha' & Hd' & Hra' & Hrd' & Hq' & Hs & Hf & _);
        try done.
      exists (absorb p (delete i (inflight p))
                (c', s, [(t, CallResolve (with_hostId res h))])), (option_list s), a', d'.
      simpl. change (_hosts c1) with (_hosts (conn p)) in *.
      change (_loadBalancingStrategy c1) with (_loadBalancingStrategy (conn p)) in *.
      split_and!; try done; try exact Hpol.
      unfold steady. simpl. rewrite Hh. done.
    + exists p, [], a, d. rewrite app_nil_r. by split_and!.
Qed.

Lemma quiet_run dirty events p a d :
  steady dirty p a d -> Forall (quiet dirty) events ->
  exists p' new a' d',
    run p events = Some p'
    /\ sent p' = sent p ++ new
    /\ _hosts (conn p') = _hosts (conn p)
    /\ same_policy (conn p) (conn p')
    /\ steady dirty p' a' d'
    /\ Forall (fun th => admissible dirty th.1) new
    /\ follows (bool_decide (_loadBalancingStrategy (conn p) = ROUND_ROBIN))
               (Z.of_nat (length (_hosts (conn p)))) a d new a' d'.
Proof.
  revert p a d. induction events as [|e es IH]; intros p a d Hp Hes.
  - exists p, [], a, d. rewrite app_nil_r. by split_and!.
  - apply Forall_cons in Hes as [He Hes].
    destruct (quiet_step dirty p e a d Hp He)
      as (p1 & new1 & a1 & d1 & Hstep & Hsent & Hh & Hpol & Hp1 & Hadm & Hf).
    destruct (IH p1 a1 d1 Hp1 Hes)
      as (p2 & new2 & a2 & d2 & Hrun & Hsent2 & Hh2 & Hpol2 & Hp2 & Hadm2 & Hf2).
    exists p2, (new1 ++ new2), a2, d2. simpl. rewrite Hstep.
    split_and!; try done.
    + by rewrite Hsent2, Hsent, app_assoc.
    + congruence.
    + by eapply same_policy_trans.
    + by apply Forall_app.
    + eapply follows_app; [done|].
      destruct Hpol as (Hstrat & _). by rewrite Hstrat, Hh in Hf2.
Qed.

End QuietRuns.

(** ** The response interpreter *)



Lemma is_error_envelope_object v :
  is_error_envelope v = true -> exists fields, v = JObject fields.
Proof.
  unfold is_error_envelope. destruct v; simpl; rewrite ?andb_false_r; try done.
  by eexists.
Qed.


Section Interpreter.
Context `{Platform}.

(** A body read as JSON is classified by the envelope test first, by the
    status second. *)
Lemma task_resolve_parsed expectBinary res v :
  parses_to res v ->
  task_resolve expectBinary res =
    if is_error_envelope v then Rejected (ArangoError (with_body res v))
    else if is_http_error (statusCode res) then Rejected (HttpError (with_body res v))
    else if negb expectBinary then Fulfilled (with_body res v)
    else Fulfilled (with_body res (body_value (res_body res))).
Proof.
  intros (Hlen & (ct & Hct & Hmime) & Hparse). unfold task_resolve.
  rewrite Hlen, Hct, Hmime, Hparse. simpl.
  replace (truthy_string ct) with true; [done|].
  unfold truthy_string. destruct ct; [done|]. done.
Qed.



(** A response that is not a leader redirect goes to the task's sink with
    the host it came from attached. *)
Lemma callback_handle_resolve c task h res :
  leader_endpoint res = None ->
  callback_handle c task h (Success res)
  = (set_activeTasks c (_activeTasks c - 1),
     Some (task, CallResolve (with_hostId res h))).
Proof. intros Hl. unfold callback_handle. by rewrite Hl. Qed.


End Interpreter.





(** ** Request building *)

Lemma last_wins_lookup (layers : list Headers) name :
  last_wins layers !! name = foldl (fun found layer =>
                                      match layer !! name with
                                      | Some v => Some v
                                      | None => found
                                      end) None layers.
Proof.
  unfold last_wins.
  assert (forall acc : Headers,
            foldl spread acc layers !! name
            = foldl (fun found layer =>
                       match layer !! name with
                       | Some v => Some v
                       | None => found
                       end) (acc !! name) layers) as Hgen.
  { induction layers as [|l layers IH]; intros acc; simpl; [done|].
    rewrite IH. f_equal. unfold spread. rewrite lookup_union.
    by destruct (l !! name), (acc !! name). }
  by rewrite Hgen, lookup_empty.
Qed.

(** C5. The headers of the task [request] builds are the last-wins overlay
    of, in this order, the connection's default headers, [content-type] and
    [x-arango-version], [x-arango-trx-id] when a transaction id is set (and
    is not the empty string), and the caller's headers; so a header the
    caller supplies is the one the task carries. *)
Theorem C5_header_layers `{Platform} (c : Connection) (o : RequestOptions) :
  headers (options (request_task c o))
  = last_wins [_headers c; core_layer c o; transaction_layer c;
               default ∅ (ro_headers o)]
  /\ (forall name,
        headers (options (request_task c o)) !! name
        = match default ∅ (ro_headers o) !! name with
          | Some v => Some v
          | None =>
              match transaction_layer c !! name with
              | Some v => Some v
              | None =>
                  match core_layer c o !! name with
                  | Some v => Some v
                  | None => _headers c !! name
                  end
              end
          end)
  /\ (forall name v,
        default ∅ (ro_headers o) !! name = Some v ->
        headers (options (request_task c o)) !! name = Some v).
Proof.
  assert (headers (options (request_task c o))
          = last_wins [_headers c; core_layer c o; transaction_layer c;
                       default ∅ (ro_headers o)]) as Heq.
  { unfold request_task, last_wins, core_layer, transaction_layer, extraHeaders, spread.
    destruct (content_of _ _) as [ct b]. simpl.
    apply map_eq. intros i.
    destruct (_transactionId c) as [id|]; [destruct (truthy_string id)|];
      repeat (rewrite ?lookup_union, ?lookup_insert, ?lookup_empty, ?lookup_singleton; simpl);
      repeat case_decide; subst; try done;
      repeat match goal with |- context [ ?m !! ?k ] => destruct (m !! k) end; done. }
  split; [done|].
  assert (forall name,
        headers (options (request_task c o)) !! name
        = match default ∅ (ro_headers o) !! name with
          | Some v => Some v
          | None =>
              match transaction_layer c !! name with
              | Some v => Some v
              | None =>
                  match core_layer c o !! name with
                  | Some v => Some v
                  | None => _headers c !! name
                  end
              end
          end) as Hlook.
  { intros name. rewrite Heq, last_wins_lookup. simpl.
    by destruct (_headers c !! name). }
  split; [done|]. intros name v Hv. by rewrite Hlook, Hv.
Qed.

Lemma C5_header_layers_witness :
  let c := new_Connection (H := example_platform) (example_config NONE three_hosts)
             no_draw no_draw in
  headers (options (request_task (H := example_platform) c upload)) !! "content-type"
  = Some "application/x-custom".
Proof.
  intros c.
  apply (proj2 (proj2 (@C5_header_layers example_platform c upload))).
  reflexivity.
Defined.

(** ** The host list *)

Section HostList.
Context `{Platform}.

(** Every URL handed to [addToHostList] is in the list afterwards, and the
    index returned for it is that of its first occurrence. *)
Lemma addToHostList_indices c urls k u :
  urls !! k = Some u ->
  exists i : nat,
    (addToHostList c urls).2 !! k = Some (Z.of_nat i)
    /\ _urls (addToHostList c urls).1 !! i = Some (sanitizeUrl u)
    /\ forall j : nat, (j < i)%nat ->
         _urls (addToHostList c urls).1 !! j <> Some (sanitizeUrl u).
Proof.
  intros Hk. unfold addToHostList. simpl.
  set (known := _urls c).
  set (fresh := List.filter _ _).
  assert (sanitizeUrl u ∈ known ++ fresh) as Hin.
  { destruct (decide (sanitizeUrl u ∈ known)) as [?|Hnot]; [set_solver|].
    apply elem_of_app. right. apply list_elem_of_In, filter_In. split.
    - apply list_elem_of_In, list_elem_of_fmap. exists u.
      split; [done | by eapply list_elem_of_lookup_2].
    - apply Z.eqb_eq. by apply indexOf_absent. }
  destruct (indexOf_present _ _ Hin) as (i & Hi & Hl & Hfirst).
  exists i. split; [|done].
  rewrite list_lookup_fmap, list_lookup_fmap, Hk. simpl. by rewrite Hi.
Qed.

(** Adding URLs that are all known changes nothing. *)
Lemma addToHostList_known c urls :
  (forall u, u ∈ urls -> sanitizeUrl u ∈ _urls c) ->
  _urls (addToHostList c urls).1 = _urls c
  /\ _hosts (addToHostList c urls).1 = _hosts c
  /\ (addToHostList c urls).2 = map (fun u => indexOf (_urls c) (sanitizeUrl u)) urls.
Proof.
  intros Hknown. unfold addToHostList. simpl.
  assert (List.filter (fun u => (indexOf (_urls c) u =? -1)%Z) (map sanitizeUrl urls) = [])
    as ->.
  { induction urls as [|u urls IH]; [done|]. simpl.
    destruct (indexOf (_urls c) (sanitizeUrl u) =? -1)%Z eqn:E.
    - apply Z.eqb_eq, indexOf_absent in E. destruct E. apply Hknown. left.
    - apply IH. intros u' Hu'. apply Hknown. by right. }
  simpl. rewrite !app_nil_r. split_and!; [done | done |].
  by rewrite map_map.
Qed.

(** One URL: it is appended when new, and found where it was when known. *)
Lemma addToHostList_one c u :
  exists i : nat,
    (addToHostList c [u]).2 = [Z.of_nat i]
    /\ _urls (addToHostList c [u]).1 !! i = Some (sanitizeUrl u)
    /\ (forall j : nat, (j < i)%nat ->
          _urls (addToHostList c [u]).1 !! j <> Some (sanitizeUrl u))
    /\ (sanitizeUrl u ∈ _urls c ->
          _urls (addToHostList c [u]).1 = _urls c
          /\ _hosts (addToHostList c [u]).1 = _hosts c)
    /\ (sanitizeUrl u ∉ _urls c ->
          _urls (addToHostList c [u]).1 = _urls c ++ [sanitizeUrl u]
          /\ _hosts (addToHostList c [u]).1
             = _hosts c ++ [createRequest (sanitizeUrl u) (_agentOptions c) (_agent c)]
          /\ i = length (_urls c)).
Proof.
  destruct (addToHostList_indices c [u] 0 u eq_refl) as (i & Hi & Hl & Hfirst).
  exists i. split_and!; try done.
  - revert Hi. unfold addToHostList. simpl. by intros [= ->].
  - intros Hin. destruct (addToHostList_known c [u]) as (? & ? & _); [|done].
    by intros u' ->%list_elem_of_singleton.
  - intros Hnot. revert Hl Hfirst. unfold addToHostList. simpl.
    replace (indexOf (_urls c) (sanitizeUrl u) =? -1)%Z with true
      by (symmetry; by apply Z.eqb_eq, indexOf_absent).
    simpl. intros Hl Hfirst. split_and!; [done | done |].
    destruct (decide (i < length (_urls c))%nat) as [Hlt|Hge].
    + rewrite lookup_app_l in Hl by done. destruct Hnot.
      by eapply list_elem_of_lookup_2.
    + destruct (decide (i = length (_urls c))) as [|Hne]; [done|].
      destruct (Hfirst (length (_urls c))); [lia|].
      by rewrite lookup_app_r, Nat.sub_diag.
Qed.

(** URLs that are new, and pairwise different once normalized, keep the
    list free of duplicates. *)
Lemma addToHostList_NoDup c urls :
  NoDup (_urls c) -> NoDup (map sanitizeUrl urls) ->
  NoDup (_urls (addToHostList c urls).1).
Proof.
  intros Hc Hu. unfold addToHostList. simpl. apply NoDup_app. split_and!; [done | |].
  - intros x Hx Hx'. apply list_elem_of_In, filter_In in Hx' as [_ Hx'].
    apply Z.eqb_eq, indexOf_absent in Hx'. done.
  - apply NoDup_ListNoDup, List.NoDup_filter, NoDup_ListNoDup. done.
Qed.

End HostList.

(** C9. The host list built from a URL given twice holds its normalized
    form twice, with two transports: the test for known URLs looks only at
    the list as it was before the call. Both returned indices are [0]. *)
Theorem C9_repeated_url_is_stored_twice `{Platform} (u : string) :
  let c0 := new_Connection (example_config NONE []) no_draw no_draw in
  let c := new_Connection (example_config NONE [u; u]) no_draw no_draw in
  _urls c0 = []
  /\ addToHostList c0 [u; u] = (c, [0%Z; 0%Z])
  /\ _urls c = [sanitizeUrl u; sanitizeUrl u]
  /\ length (_hosts c) = 2%nat
  /\ ~ NoDup (_urls c).
Proof.
  intros c0 c. subst c0 c. unfold new_Connection, addToHostList, indexOf. simpl.
  rewrite String.eqb_refl.
  split_and!; try done.
  intros Hnd. apply NoDup_cons in Hnd as [Hnot _]. apply Hnot. left.
Qed.

(** ** Failover, redirects and pinned tasks *)

Section Policy.
Context `{Platform}.

Lemma new_Connection_policy config d1 d2 :
  let c := new_Connection config d1 d2 in
  _loadBalancingStrategy c = default NONE (cfg_loadBalancingStrategy config)
  /\ _useFailOver c = negb (bool_decide (_loadBalancingStrategy c = ROUND_ROBIN))
  /\ _shouldRetry c = match cfg_maxRetries config with
                      | Some RetriesFalse => false
                      | _ => true
                      end
  /\ _maxRetries c = match cfg_maxRetries config with
                     | Some (RetriesNumber n) => n
                     | _ => 0%Z
                     end.
Proof.
  unfold new_Connection.
  destruct (cfg_maxRetries config) as [[|n]|];
    destruct (decide (default NONE (cfg_loadBalancingStrategy config) = ONE_RANDOM));
    simpl; by split_and!.
Qed.

Lemma setHeader_policy c name v : same_policy c (setHeader c name v).
Proof. by destruct v. Qed.

(** The load-balancing and retry settings are fixed by the constructor. *)
Lemma reachable_policy c0 c : reachable_from c0 c -> same_policy c0 c.
Proof.
  induction 1 as [|c o c' s calls _ IH Hr|c t h o c' s calls _ IH Hc
                  |c urls _ IH|c name v _ IH|c id _ IH|c _ IH].
  - apply same_policy_refl.
  - eapply same_policy_trans; [done | by eapply request_policy].
  - eapply same_policy_trans; [done | by eapply callback_policy].
  - eapply same_policy_trans; [done | apply addToHostList_policy].
  - eapply same_policy_trans; [done | apply setHeader_policy].
  - done.
  - done.
Qed.

Lemma reachable_useFailOver config d1 d2 c :
  reachable_from (new_Connection config d1 d2) c ->
  _useFailOver c = negb (bool_decide (_loadBalancingStrategy c = ROUND_ROBIN)).
Proof.
  intros (Hs & Hf & _)%reachable_policy.
  destruct (new_Connection_policy config d1 d2) as (_ & Hnew & _).
  by rewrite Hs, Hf.
Qed.

(** What a transport error does to the primary cursor. *)
Lemma callback_handle_failure_cursor c task h err :
  _activeHost (callback_handle c task h (Failure err)).1
  = if failover_applies c task h then next_host c (_activeHost c) else _activeHost c.
Proof.
  unfold callback_handle.
  change (failover_applies (set_activeTasks c (_activeTasks c - 1)) task h)
    with (failover_applies c task h).
  destruct (failover_applies c task h); by case_match.
Qed.

Lemma next_host_moves c a :
  (1 < length (_hosts c))%nat -> next_host c (Num a) <> Num a.
Proof.
  intros Hn. unfold next_host, js_length. simpl.
  replace (Z.of_nat (length (_hosts c)) =? 0)%Z with false
    by (symmetry; apply Z.eqb_neq; lia).
  intros [= Heq].
  pose proof (Z.quot_rem' (a + 1) (Z.of_nat (length (_hosts c)))) as Hqr.
  rewrite Heq in Hqr.
  set (q := ((a + 1) ÷ Z.of_nat (length (_hosts c)))%Z) in *.
  destruct (Z.le_gt_cases q 0); nia.
Qed.

Lemma failover_applies_spec c task h :
  failover_applies c task h = true
  <-> _useFailOver c = true /\ (1 < length (_hosts c))%nat
      /\ allowDirtyRead task = false /\ js_strict_eq (_activeHost c) h = true.
Proof.
  unfold failover_applies.
  rewrite !andb_true_iff, negb_true_iff, Z.ltb_lt. split.
  - intros (((? & ?) & ?) & ?). split_and!; [done | lia | done | done].
  - intros (? & ? & ? & ?). split_and!; [done | lia | done | done].
Qed.

Lemma js_strict_eq_true a b : js_strict_eq a b = true -> exists z, a = Num z /\ b = Num z.
Proof.
  destruct a as [x|], b as [y|]; simpl; try done.
  intros ->%Z.eqb_eq. by exists y.
Qed.

End Policy.

(** C8. On a transport error for a task sent to host [h] the primary cursor
    moves on by one, modulo the number of hosts, when failover is in use,
    there is more than one host, the task is not a dirty read and the cursor
    still equals [h]; otherwise it stays. Failover is off exactly under
    [ROUND_ROBIN], in every state a connection reaches, so under
    [ROUND_ROBIN] an error never moves the cursor. *)
Theorem C8_failover_cursor `{Platform} :
  (forall c task h err,
     let applies :=
       _useFailOver c = true /\ (1 < length (_hosts c))%nat
       /\ allowDirtyRead task = false /\ js_strict_eq (_activeHost c) h = true in
     let c' := (callback_handle c task h (Failure err)).1 in
     (applies ->
        _activeHost c' = next_host c (_activeHost c)
        /\ _activeHost c' <> _activeHost c
        /\ forall a, _activeHost c = Num a -> (0 <= a)%Z ->
             _activeHost c' = Num ((a + 1) mod Z.of_nat (length (_hosts c))))
     /\ (~ applies -> _activeHost c' = _activeHost c))
  /\ (forall config d1 d2 c,
        reachable_from (new_Connection config d1 d2) c ->
        (_useFailOver c = false <-> _loadBalancingStrategy c = ROUND_ROBIN))
  /\ (forall config d1 d2 c task h err,
        reachable_from (new_Connection config d1 d2) c ->
        _loadBalancingStrategy c = ROUND_ROBIN ->
        _activeHost (callback_handle c task h (Failure err)).1 = _activeHost c).
Proof.
  split_and!.
  - intros c task h err applies c'. subst applies c'.
    rewrite callback_handle_failure_cursor. split.
    + intros Happ. rewrite (proj2 (failover_applies_spec c task h) Happ).
      destruct Happ as (_ & Hn & _ & (z & Hz & _)%js_strict_eq_true).
      split_and!; [done | rewrite Hz; by apply next_host_moves |].
      intros a Ha Hpos. rewrite Ha. unfold next_host, js_length. simpl.
      replace (Z.of_nat (length (_hosts c)) =? 0)%Z with false
        by (symmetry; apply Z.eqb_neq; lia).
      rewrite Z.rem_mod_nonneg by lia. done.
    + intros Hnot. destruct (failover_applies c task h) eqn:E; [|done].
      by apply failover_applies_spec in E.
  - intros config d1 d2 c Hr. rewrite (reachable_useFailOver _ _ _ _ Hr).
    rewrite negb_false_iff, bool_decide_eq_true. done.
  - intros config d1 d2 c task h err Hr Hrr.
    rewrite callback_handle_failure_cursor.
    destruct (failover_applies c task h) eqn:E; [|done].
    apply failover_applies_spec in E as (Hf & _).
    rewrite (reachable_useFailOver _ _ _ _ Hr), Hrr in Hf. done.
Qed.

Lemma C8_failover_cursor_witness :
  let none := new_Connection (H := example_platform) (example_config NONE three_hosts)
                no_draw no_draw in
  let rr := new_Connection (H := example_platform) (example_config ROUND_ROBIN three_hosts)
              no_draw no_draw in
  let task := request_task (H := example_platform) none (get "/_api/version") in
  _activeHost (callback_handle (H := example_platform) none task (Num 0) (Failure refused)).1
  = Num 1
  /\ _activeHost (callback_handle (H := example_platform) rr task (Num 0) (Failure refused)).1
     = Num 0.
Proof.
  intros none rr task. split.
  - destruct (proj1 (@C8_failover_cursor example_platform) none task (Num 0) refused)
      as [Hmoves _].
    destruct Hmoves as (_ & _ & Hmod).
    + split_and!; [reflexivity | vm_compute; lia | reflexivity | reflexivity].
    + exact (Hmod 0%Z eq_refl (Z.le_refl 0)).
  - apply (proj2 (proj2 (@C8_failover_cursor example_platform))
             (example_config ROUND_ROBIN three_hosts) no_draw no_draw rr task (Num 0) refused).
    + apply reach_here.
    + reflexivity.
Defined.

(** C3. A response with status 503 and a non-empty [x-arango-endpoint]
    header is answered by no call on the task's sink: the normalized header
    URL is in the host list afterwards (appended with a new transport if it
    was not there, the list unchanged if it was), the task is put at the end
    of the queue pinned to the index of that URL and with its retry count as
    it was, and the primary cursor becomes that index if it equalled the
    host the task was sent to, and stays otherwise. *)
Theorem C3_leader_redirect `{Platform} (c : Connection) (task : Task) (h : number)
    (res : Response RawBody) (u : string) :
  statusCode res = Some 503%Z ->
  res_headers res !! "x-arango-endpoint" = Some u ->
  u <> EmptyString ->
  exists (i : nat) (c' : Connection) (task' : Task),
    callback_handle c task h (Success res) = (c', None)
    /\ _urls c' !! i = Some (sanitizeUrl u)
    /\ (forall j : nat, (j < i)%nat -> _urls c' !! j <> Some (sanitizeUrl u))
    /\ (sanitizeUrl u ∈ _urls c -> _urls c' = _urls c /\ _hosts c' = _hosts c)
    /\ (sanitizeUrl u ∉ _urls c ->
          _urls c' = _urls c ++ [sanitizeUrl u]
          /\ _hosts c' = _hosts c
                         ++ [createRequest (sanitizeUrl u) (_agentOptions c) (_agent c)]
          /\ i = length (_urls c))
    /\ _queue c' = _queue c ++ [task']
    /\ host task' = Some (Num (Z.of_nat i))
    /\ retries task' = retries task
    /\ allowDirtyRead task' = allowDirtyRead task
    /\ options task' = options task
    /\ _activeHost c' = (if js_strict_eq (_activeHost c) h
                         then Num (Z.of_nat i) else _activeHost c)
    /\ _activeDirtyHost c' = _activeDirtyHost c.
Proof.
  intros Hst Hhd Hne.
  assert (leader_endpoint res = Some u) as Hl.
  { unfold leader_endpoint, LEADER_ENDPOINT_HEADER. rewrite Hst, Hhd.
    unfold truthy_string. by destruct u. }
  set (c1 := set_activeTasks c (_activeTasks c - 1)).
  destruct (addToHostList_one c1 u) as (i & Hidx & Hi & Hfirst & Hknown & Hnew).
  unfold callback_handle. rewrite Hl. fold c1.
  destruct (addToHostList c1 [u]) as [c2 indices] eqn:Hadd. simpl in *. subst indices.
  simpl.
  assert (_activeHost c2 = _activeHost c /\ _activeDirtyHost c2 = _activeDirtyHost c
          /\ _queue c2 = _queue c) as (Hah & Hdh & Hq).
  { unfold addToHostList in Hadd. by simplify_eq. }
  rewrite Hah.
  eexists i, _, (task_with_host task (Some (Num (Z.of_nat i)))).
  split; [reflexivity|].
  destruct (js_strict_eq (_activeHost c) h); simpl; rewrite Hq; by split_and!.
Qed.

Lemma C3_leader_redirect_witness :
  let c := new_Connection (H := example_platform)
             (example_config NONE ["http://h1:8529"]) no_draw no_draw in
  let task := request_task (H := example_platform) c (get "/_api/document/c") in
  let res := {| statusCode := Some 503%Z;
                res_headers := {[ "x-arango-endpoint" := "http://h2:8529" ]};
                res_body := BufferBody EmptyString;
                arangojsHostId := None |} in
  exists (i : nat) c' task',
    callback_handle (H := example_platform) c task (Num 0) (Success res) = (c', None)
    /\ _urls c' !! i = Some "http://h2:8529"
    /\ (forall j : nat, (j < i)%nat -> _urls c' !! j <> Some "http://h2:8529")
    /\ ("http://h2:8529" ∈ _urls c -> _urls c' = _urls c /\ _hosts c' = _hosts c)
    /\ ("http://h2:8529" ∉ _urls c ->
          _urls c' = _urls c ++ ["http://h2:8529"]
          /\ _hosts c' = _hosts c
                         ++ [createRequest "http://h2:8529" (_agentOptions c) (_agent c)]
          /\ i = length (_urls c))
    /\ _queue c' = _queue c ++ [task']
    /\ host task' = Some (Num (Z.of_nat i))
    /\ retries task' = retries task
    /\ allowDirtyRead task' = allowDirtyRead task
    /\ options task' = options task
    /\ _activeHost c' = (if js_strict_eq (_activeHost c) (Num 0)
                         then Num (Z.of_nat i) else _activeHost c)
    /\ _activeDirtyHost c' = _activeDirtyHost c.
Proof.
  intros c task res.
  apply (@C3_leader_redirect example_platform c task (Num 0) res "http://h2:8529").
  - reflexivity.
  - reflexivity.
  - discriminate.
Defined.

Section Pinned.
Context `{Platform}.

(** A pinned task at the head of the queue is sent to its pin, under every
    strategy, and leaves both cursors alone. *)
Lemma pinned_task_host c c1 t h t0 pinned :
  select c = Some (c1, t, h) -> head (_queue c) = Some t0 -> host t0 = Some pinned ->
  t = t0 /\ h = pinned
  /\ _activeHost c1 = _activeHost c /\ _activeDirtyHost c1 = _activeDirtyHost c.
Proof.
  intros (t0' & Hq & _ & _ & _ & _ & Hcase)%select_inv Hhead Hpin.
  rewrite Hq in Hhead. simpl in Hhead. injection Hhead as ->.
  by rewrite Hpin in Hcase.
Qed.

(** A transport error on a task pinned to an index other than [0] goes to
    the task's sink; the task is not queued again. *)
Lemma pinned_nonzero_rejected c task h err pinned :
  host task = Some pinned -> js_truthy pinned = true ->
  exists c', callback_handle c task h (Failure err) = (c', Some (task, CallReject err))
             /\ _queue c' = _queue c.
Proof.
  intros Hpin Ht. unfold callback_handle, retry_eligible, not_host.
  rewrite Hpin, Ht. simpl. eexists. split; [done|]. by case_match.
Qed.

(** A connection-refused error on a task pinned to index [0] with retries
    left queues the task again: [!task.host] holds for [0]. *)
Lemma pinned_zero_retried c task h err :
  host task = Some (Num 0) -> _shouldRetry c = true ->
  (retries task < retry_limit c)%Z -> connection_refused err ->
  exists c', callback_handle c task h (Failure err) = (c', None)
             /\ _queue c' = _queue c ++ [task_with_retries task (retries task + 1)].
Proof.
  intros Hpin Hsr Hlt (Hsys & Hsc & Hcode).
  unfold callback_handle, retry_eligible, not_host, retry_limit in *.
  rewrite Hpin, Hsys, Hsc, Hcode. simpl.
  match goal with |- context [if ?b then set_activeHost _ _ else _] => destruct b end;
    simpl; rewrite Hsr; simpl;
    (replace (retries task <? _)%Z with true by (symmetry; by apply Z.ltb_lt));
    simpl; by eexists.
Qed.

End Pinned.

(** C1. A task pinned to host index [0] whose transport fails with a
    refused connection is not rejected: it is queued again and sent to host
    [0] a second time, with its retry count raised to 1 and the caller's
    promise still pending. (A task pinned to index [1] is rejected at the
    first such error.) *)
Theorem C1_task_pinned_to_host_zero_is_retried :
  let c := new_Connection (H := example_platform) (example_config NONE three_hosts)
             no_draw no_draw in
  (exists p,
     run (H := example_platform) (start c)
       [Submit (get_on 0 "/_api/cursor/7"); Complete 0 (Failure refused)] = Some p
     /\ settled p = []
     /\ map snd (sent p) = [Num 0; Num 0]
     /\ map (fun th => (host th.1, retries th.1)) (inflight p) = [(Some (Num 0), 1%Z)])
  /\ (exists p e,
        run (H := example_platform) (start c)
          [Submit (get_on 1 "/_api/cursor/7"); Complete 0 (Failure refused)] = Some p
        /\ map snd (settled p) = [Rejected (TransportError e)] /\ e = refused
        /\ map snd (sent p) = [Num 1]
        /\ inflight p = []).
Proof.
  intros c. split.
  - eexists. split; [vm_compute; reflexivity|]. by vm_compute.
  - eexists _, _. split; [vm_compute; reflexivity|]. by vm_compute.
Qed.

(** ** A single request and its retries *)

Section Single.
Context `{Platform}.

Lemma cursors_valid_steady c :
  cursors_valid c -> Forall (admissible true) (_queue c) ->
  exists a d, _activeHost c = Num a /\ _activeDirtyHost c = Num d
              /\ in_range (length (_hosts c)) (Num a)
              /\ in_range (length (_hosts c)) (Num d)
              /\ queue_of true c.
Proof.
  intros [(a & Ha & Hra) (d & Hd & Hrd)] Hq. exists a, d.
  rewrite Ha, Hd. split_and!; try done; by apply in_range_Num.
Qed.

(** [_runQueue] on a connection whose queue holds one unpinned task, with
    room for it: the task is handed to a transport. *)
Lemma runQueue_single fuel c t0 :
  cursors_valid c -> _queue c = [t0] -> host t0 = None ->
  (_activeTasks c < _maxTasks c)%Z ->
  exists c' t h,
    _runQueue fuel c = Some (c', Some (t, h), [])
    /\ _queue c' = [] /\ _activeTasks c' = (_activeTasks c + 1)%Z
    /\ _hosts c' = _hosts c /\ same_policy c c' /\ cursors_valid c'
    /\ host t = None /\ retries t = retries t0
    /\ allowDirtyRead t = allowDirtyRead t0
    /\ (if allowDirtyRead t0
        then h = _activeDirtyHost c /\ _activeHost c' = _activeHost c
        else h = _activeHost c /\ _activeDirtyHost c' = _activeDirtyHost c).
Proof.
  intros Hcv Hq Hpin Hcap.
  destruct (cursors_valid_steady c Hcv) as (a & d & Ha & Hd & Hra & Hrd & Hqo).
  { rewrite Hq. apply Forall_singleton. by split. }
  destruct (select c) as [[[c1 t] h]|] eqn:Hs.
  - pose proof (select_policy _ _ _ _ Hs) as Hpol.
    apply select_inv in Hs as Hinv.
    destruct Hinv as (t0' & Hq0 & _ & Hact & Hhosts & _ & Hcase).
    rewrite Hq in Hq0. injection Hq0 as <- Hq1. rewrite Hpin in Hcase.
    destruct (next_host_in_range c a Hra) as [Hna Hnr].
    destruct (next_host_in_range c d Hrd) as [Hnd Hndr].
    exists c1, t, h.
    assert (cursors_valid c1 /\ is_Some (js_at (_hosts c1) h)) as [Hcv1 Hat].
    { unfold cursors_valid. rewrite Hhosts.
      destruct (allowDirtyRead t0); destruct Hcase as (-> & -> & Hah & Hdh);
        rewrite Hah, Hdh, ?Ha, ?Hd.
      - split; [by split|]. by apply js_at_in_range.
      - split; [|by apply js_at_in_range]. split; [|done].
        case_decide; [by rewrite Hna in * | done]. }
    split; [by apply runQueue_sends|].
    split_and!; try done.
    + by destruct (allowDirtyRead t0); destruct Hcase as (-> & _).
    + by destruct (allowDirtyRead t0); destruct Hcase as (-> & _).
    + by destruct (allowDirtyRead t0) eqn:E; destruct Hcase as (-> & _).
    + by destruct (allowDirtyRead t0); destruct Hcase as (-> & -> & ? & ?).
  - apply select_None in Hs as [Hs|Hs]; [by rewrite Hq in Hs | lia].
Qed.

(** Submitting an unpinned request to an idle connection with room. *)
Lemma step_submit_idle p o :
  cursors_valid (conn p) -> _queue (conn p) = [] -> ro_host o = None ->
  (_activeTasks (conn p) < _maxTasks (conn p))%Z ->
  exists p' t h,
    step p (Submit o) = Some p'
    /\ inflight p' = inflight p ++ [(t, h)]
    /\ sent p' = sent p ++ [(t, h)]
    /\ settled p' = settled p
    /\ _queue (conn p') = []
    /\ _activeTasks (conn p') = (_activeTasks (conn p) + 1)%Z
    /\ _hosts (conn p') = _hosts (conn p)
    /\ same_policy (conn p) (conn p')
    /\ cursors_valid (conn p')
    /\ host t = None /\ retries t = 0%Z
    /\ allowDirtyRead t = default false (ro_allowDirtyRead o)
    /\ (if default false (ro_allowDirtyRead o)
        then h = _activeDirtyHost (conn p) /\ _activeHost (conn p') = _activeHost (conn p)
        else h = _activeHost (conn p)
             /\ _activeDirtyHost (conn p') = _activeDirtyHost (conn p)).
Proof.
  intros Hcv Hq Hpin Hcap. simpl. unfold request, runQueue.
  set (c1 := set_queue (conn p) (_queue (conn p) ++ [request_task (conn p) o])).
  assert (host (request_task (conn p) o) = None
          /\ retries (request_task (conn p) o) = 0%Z
          /\ allowDirtyRead (request_task (conn p) o) = default false (ro_allowDirtyRead o))
    as (Hh & Hr & Hd).
  { unfold request_task. by destruct (content_of _ _). }
  destruct (runQueue_single (length (_queue c1)) c1 (request_task (conn p) o))
    as (c' & t & h & -> & Hq' & Hact & Hhosts & Hpol & Hcv' & Ht & Hrt & Hdt & Hcase);
    try done.
  { subst c1. simpl. by rewrite Hq. }
  exists (absorb p (inflight p) (c', Some (t, h), [])), t, h. simpl.
  rewrite app_nil_r, Hd in *. split_and!; try done; try congruence.
Qed.

(** The only request in flight fails with a refused connection and has
    retries left: it is sent again. *)
Lemma step_fail_retry p t h err :
  inflight p = [(t, h)] -> _queue (conn p) = [] -> cursors_valid (conn p) ->
  (_activeTasks (conn p) <= _maxTasks (conn p))%Z ->
  host t = None -> _shouldRetry (conn p) = true ->
  (retries t < retry_limit (conn p))%Z -> connection_refused err ->
  exists p' t' h',
    step p (Complete 0 (Failure err)) = Some p'
    /\ inflight p' = [(t', h')]
    /\ sent p' = sent p ++ [(t', h')]
    /\ settled p' = settled p
    /\ _queue (conn p') = []
    /\ _activeTasks (conn p') = _activeTasks (conn p)
    /\ _hosts (conn p') = _hosts (conn p)
    /\ same_policy (conn p) (conn p')
    /\ cursors_valid (conn p')
    /\ host t' = None /\ retries t' = (retries t + 1)%Z.
Proof.
  intros Hin Hq Hcv Hcap Hpin Hsr Hlt (Hsys & Hsc & Hcode).
  simpl. rewrite Hin. simpl. unfold callback.
  destruct (callback_handle (conn p) t h (Failure err)) as [c1 call] eqn:Hcb.
  assert (call = None
          /\ _queue c1 = [task_with_retries t (retries t + 1)]
          /\ _activeTasks c1 = (_activeTasks (conn p) - 1)%Z
          /\ _hosts c1 = _hosts (conn p) /\ same_policy (conn p) c1
          /\ cursors_valid c1) as (-> & Hq1 & Hact1 & Hh1 & Hpol1 & Hcv1).
  { pose proof (callback_handle_policy (conn p) t h (Failure err)) as Hpol.
    rewrite Hcb in Hpol. simpl in Hpol.
    revert Hcb. unfold callback_handle, retry_eligible, not_host, retry_limit in *.
    rewrite Hpin, Hsys, Hsc, Hcode. simpl.
    destruct Hcv as [(a & Ha & Hra) Hdv].
    destruct (next_host_in_range (conn p) a) as [Hna Hnr]; [by apply in_range_Num|].
    match goal with |- context [if ?b then set_activeHost _ _ else _] => destruct b end;
      simpl; rewrite Hsr; simpl;
      (replace (retries t <? _)%Z with true by (symmetry; by apply Z.ltb_lt));
      simpl; intros ?; simplify_eq; simpl; rewrite Hq; split_and!; try done.
    - split; [|done]. simpl. rewrite Ha. exact Hnr.
    - by split; [exists a|]. }
  unfold runQueue.
  assert (_maxTasks c1 = _maxTasks (conn p)) as Hmax by apply Hpol1.
  destruct (runQueue_single (length (_queue c1)) c1 (task_with_retries t (retries t + 1)))
    as (c' & t' & h' & -> & Hq' & Hact & Hhosts & Hpol & Hcv' & Ht & Hrt & _);
    try done; [lia|].
  exists (absorb p (delete 0%nat [(t, h)]) (c', Some (t', h'), [])), t', h'. simpl.
  rewrite app_nil_r. split_and!; try done; try congruence; try lia.
  by eapply same_policy_trans.
Qed.

Lemma callback_handle_failure_queue c task h err :
  let r := callback_handle c task h (Failure err) in
  if retry_eligible c task err
  then r.2 = None
       /\ _queue r.1 = _queue c ++ [task_with_retries task (retries task + 1)]
  else r.2 = Some (task, CallReject err) /\ _queue r.1 = _queue c.
Proof.
  unfold callback_handle, retry_eligible, retry_limit. simpl.
  destruct (failover_applies _ task h); simpl;
    match goal with
    | |- context [if ?b then (set_queue _ _, None) else _] => by destruct b
    end.
Qed.

(** The only request in flight fails and is not eligible for a retry: the
    error goes to the caller. *)
Lemma step_fail_reject p t h err :
  inflight p = [(t, h)] -> _queue (conn p) = [] ->
  retry_eligible (conn p) t err = false ->
  exists p',
    step p (Complete 0 (Failure err)) = Some p'
    /\ inflight p' = []
    /\ sent p' = sent p
    /\ settled p' = settled p ++ [(t, Rejected (TransportError err))].
Proof.
  intros Hin Hq Hno. simpl. rewrite Hin. simpl. unfold callback.
  pose proof (callback_handle_failure_queue (conn p) t h err) as Hcb.
  cbv zeta in Hcb. rewrite Hno in Hcb.
  destruct (callback_handle (conn p) t h (Failure err)) as [c1 call].
  simpl in Hcb. destruct Hcb as [-> Hq1]. unfold runQueue.
  assert (select c1 = None) as Hs.
  { apply select_None. left. by rewrite Hq1. }
  rewrite (runQueue_idle _ _ Hs). eexists. split; [reflexivity|]. simpl.
  by rewrite !app_nil_r.
Qed.

Lemma retry_limit_effectiveMax c :
  (0 <= _maxRetries c)%Z -> retry_limit c = effectiveMax c.
Proof.
  intros Hm. unfold retry_limit, effectiveMax.
  destruct (_maxRetries c =? 0)%Z eqn:E; simpl.
  - apply Z.eqb_eq in E. rewrite E. done.
  - apply Z.eqb_neq in E.
    replace (0 <? _maxRetries c)%Z with true by (symmetry; apply Z.ltb_lt; lia). done.
Qed.

Lemma retry_eligible_spec c task err :
  host task = None -> _shouldRetry c = true -> connection_refused err ->
  retry_eligible c task err = (retries task <? retry_limit c)%Z.
Proof.
  intros Hpin Hsr (Hsys & Hsc & Hcode). unfold retry_eligible, not_host.
  rewrite Hpin, Hsr, Hsys, Hsc, Hcode. simpl. by rewrite !andb_true_r.
Qed.

End Single.

Section Runs.
Context `{Platform}.

Lemma run_cons p e p' events :
  step p e = Some p' -> run p (e :: events) = run p' events.
Proof. intros Hs. simpl. by rewrite Hs. Qed.

Lemma retry_limit_frame c c' :
  same_policy c c' -> _hosts c' = _hosts c -> retry_limit c' = retry_limit c.
Proof. intros (_ & _ & _ & Hm & _) Hh. unfold retry_limit. by rewrite Hm, Hh. Qed.

(** One unpinned request on an idle connection whose transports keep
    refusing the connection: it is sent [retry_limit + 1] times in all when
    the limit is 2. *)
Lemma refused_three_times c o e1 e2 e3 :
  _shouldRetry c = true -> retry_limit c = 2%Z -> cursors_valid c ->
  _queue c = [] -> (_activeTasks c < _maxTasks c)%Z -> ro_host o = None ->
  connection_refused e1 -> connection_refused e2 -> connection_refused e3 ->
  exists p2 p3 t h,
    run (start c) [Submit o; Complete 0 (Failure e1); Complete 0 (Failure e2)] = Some p2
    /\ settled p2 = [] /\ length (sent p2) = 3%nat
    /\ inflight p2 = [(t, h)] /\ retries t = 2%Z
    /\ run (start c) [Submit o; Complete 0 (Failure e1); Complete 0 (Failure e2);
                      Complete 0 (Failure e3)] = Some p3
    /\ settled p3 = [(t, Rejected (TransportError e3))]
    /\ length (sent p3) = 3%nat
    /\ inflight p3 = [] /\ _queue (conn p3) = [].
Proof.
  intros Hsr Hlim Hcv Hq Hcap Hpin Hr1 Hr2 Hr3.
  destruct (step_submit_idle (start c) o)
    as (p1 & t1 & h1 & Hs1 & Hin1 & Hsent1 & Hset1 & Hq1 & Hact1 & Hh1 & Hpol1 & Hcv1
        & Hpin1 & Hret1 & _); try done.
  simpl in Hin1, Hsent1, Hset1, Hact1, Hh1, Hpol1.
  pose proof Hpol1 as (_ & _ & Hsr1 & _ & Hmax1).
  destruct (step_fail_retry p1 t1 h1 e1)
    as (p2 & t2 & h2 & Hs2 & Hin2 & Hsent2 & Hset2 & Hq2 & Hact2 & Hh2 & Hpol2 & Hcv2
        & Hpin2 & Hret2); try done; try congruence; try lia.
  { rewrite (retry_limit_frame c) by done. lia. }
  pose proof (same_policy_trans _ _ _ Hpol1 Hpol2) as Hpol12.
  pose proof Hpol12 as (_ & _ & Hsr2 & _ & Hmax2).
  destruct (step_fail_retry p2 t2 h2 e2)
    as (p3 & t3 & h3 & Hs3 & Hin3 & Hsent3 & Hset3 & Hq3 & Hact3 & Hh3 & Hpol3 & Hcv3
        & Hpin3 & Hret3); try done; try congruence; try lia.
  { rewrite (retry_limit_frame c) by congruence. lia. }
  pose proof (same_policy_trans _ _ _ Hpol12 Hpol3) as Hpol13.
  pose proof Hpol13 as (_ & _ & Hsr3 & _ & Hmax3).
  destruct (step_fail_reject p3 t3 h3 e3) as (p4 & Hs4 & Hin4 & Hsent4 & Hset4); try done.
  { rewrite retry_eligible_spec by (done || congruence).
    rewrite (retry_limit_frame c) by congruence. apply Z.ltb_ge. lia. }
  exists p3, p4, t3, h3.
  rewrite !(run_cons _ _ _ _ Hs1), !(run_cons _ _ _ _ Hs2), !(run_cons _ _ _ _ Hs3),
    (run_cons _ _ _ _ Hs4). simpl.
  split_and!; try done.
  - congruence.
  - rewrite Hsent3, Hsent2, Hsent1. done.
  - lia.
  - rewrite Hset4, Hset3, Hset2, Hset1. done.
  - rewrite Hsent4, Hsent3, Hsent2, Hsent1. done.
  - revert Hs4. simpl. rewrite Hin3. simpl. unfold callback.
    destruct (callback_handle (conn p3) t3 h3 (Failure e3)) as [c4 call] eqn:Hcb.
    pose proof (callback_handle_failure_queue (conn p3) t3 h3 e3) as Hfq.
    cbv zeta in Hfq. rewrite Hcb in Hfq.
    rewrite retry_eligible_spec in Hfq by (done || congruence).
    rewrite (retry_limit_frame c) in Hfq by congruence.
    replace (retries t3 <? retry_limit c)%Z with false in Hfq
      by (symmetry; apply Z.ltb_ge; lia).
    simpl in Hfq. destruct Hfq as [_ Hq4]. unfold runQueue.
    rewrite runQueue_idle by (apply select_None; left; congruence).
    intros [= <-]. simpl. congruence.
Qed.

End Runs.

(** C2. When an unpinned task fails with a refused connection and retries
    are enabled (and [maxRetries] is not negative), the task goes back to
    the end of the queue with its counter raised while the counter is below
    [effectiveMax], and to the caller otherwise; [effectiveMax] is
    [maxRetries] when positive and the number of hosts less one when
    [maxRetries] is 0. With [maxRetries] 0 and three hosts a request whose
    connection is refused every time is sent three times (two retries) and
    then rejected. With [maxRetries: false] a failed task is never queued
    again. *)
Theorem C2_connection_refused_retries `{Platform} :
  (forall c task h err,
     host task = None -> _shouldRetry c = true -> (0 <= _maxRetries c)%Z ->
     connection_refused err ->
     let r := callback_handle c task h (Failure err) in
     ((retries task < effectiveMax c)%Z ->
        r.2 = None
        /\ _queue r.1 = _queue c ++ [task_with_retries task (retries task + 1)])
     /\ ((effectiveMax c <= retries task)%Z ->
           r.2 = Some (task, CallReject err) /\ _queue r.1 = _queue c)
     /\ ((0 < _maxRetries c)%Z -> effectiveMax c = _maxRetries c)
     /\ (_maxRetries c = 0%Z -> effectiveMax c = (Z.of_nat (length (_hosts c)) - 1)%Z))
  /\ (forall c o e1 e2 e3,
        _shouldRetry c = true -> _maxRetries c = 0%Z -> length (_hosts c) = 3%nat ->
        cursors_valid c -> _queue c = [] -> (_activeTasks c < _maxTasks c)%Z ->
        ro_host o = None ->
        connection_refused e1 -> connection_refused e2 -> connection_refused e3 ->
        exists p2 p3 t h,
          run (start c) [Submit o; Complete 0 (Failure e1); Complete 0 (Failure e2)]
          = Some p2
          /\ settled p2 = [] /\ length (sent p2) = 3%nat
          /\ inflight p2 = [(t, h)] /\ retries t = 2%Z
          /\ run (start c) [Submit o; Complete 0 (Failure e1); Complete 0 (Failure e2);
                            Complete 0 (Failure e3)] = Some p3
          /\ settled p3 = [(t, Rejected (TransportError e3))]
          /\ length (sent p3) = 3%nat
          /\ inflight p3 = [] /\ _queue (conn p3) = [])
  /\ (forall config d1 d2 c task h err,
        cfg_maxRetries config = Some RetriesFalse ->
        reachable_from (new_Connection config d1 d2) c ->
        let r := callback_handle c task h (Failure err) in
        r.2 = Some (task, CallReject err) /\ _queue r.1 = _queue c).
Proof.
  split_and!.
  - intros c task h err Hpin Hsr Hm Href r.
    pose proof (callback_handle_failure_queue c task h err) as Hq. cbv zeta in Hq.
    rewrite retry_eligible_spec, retry_limit_effectiveMax in Hq by done.
    fold r in Hq. split_and!.
    + intros Hlt. by rewrite (proj2 (Z.ltb_lt _ _) Hlt) in Hq.
    + intros Hge. by rewrite (proj2 (Z.ltb_ge _ _) Hge) in Hq.
    + intros Hpos. unfold effectiveMax. by rewrite (proj2 (Z.ltb_lt _ _) Hpos).
    + intros Hz. unfold effectiveMax. by rewrite Hz.
  - intros c o e1 e2 e3 Hsr Hm Hn. apply refused_three_times; [done|].
    unfold retry_limit. rewrite Hm, Hn. done.
  - intros config d1 d2 c task h err Hcfg Hreach r.
    pose proof (callback_handle_failure_queue c task h err) as Hq. cbv zeta in Hq.
    fold r in Hq.
    assert (retry_eligible c task err = false) as Hno.
    { apply reachable_policy in Hreach as (_ & _ & Hsr & _).
      destruct (new_Connection_policy config d1 d2) as (_ & _ & Hnew & _).
      rewrite Hcfg in Hnew. unfold retry_eligible. rewrite Hsr, Hnew.
      by rewrite andb_false_r. }
    by rewrite Hno in Hq.
Qed.

Lemma C2_connection_refused_retries_witness :
  let c := new_Connection (H := example_platform) (example_config NONE three_hosts)
             no_draw no_draw in
  exists p2 p3 t h,
    run (H := example_platform) (start c)
      [Submit (get "/_api/version"); Complete 0 (Failure refused);
       Complete 0 (Failure refused)] = Some p2
    /\ settled p2 = [] /\ length (sent p2) = 3%nat
    /\ inflight p2 = [(t, h)] /\ retries t = 2%Z
    /\ run (H := example_platform) (start c)
         [Submit (get "/_api/version"); Complete 0 (Failure refused);
          Complete 0 (Failure refused); Complete 0 (Failure refused)] = Some p3
    /\ settled p3 = [(t, Rejected (TransportError refused))]
    /\ length (sent p3) = 3%nat
    /\ inflight p3 = [] /\ _queue (conn p3) = [].
Proof.
  intros c.
  apply (proj1 (proj2 (@C2_connection_refused_retries example_platform))).
  - reflexivity.
  - reflexivity.
  - reflexivity.
  - split; exists 0%Z; split; [reflexivity | vm_compute; split; [discriminate | reflexivity]
                              | reflexivity | vm_compute; split; [discriminate | reflexivity]].
  - reflexivity.
  - vm_compute. reflexivity.
  - reflexivity.
  - by split_and!.
  - by split_and!.
  - by split_and!.
Defined.

(** ** Schedules *)

Section Schedules.
Context `{Platform}.

Lemma steady_intro dirty p a :
  _activeHost (conn p) = Num a -> cursors_valid (conn p) ->
  Forall (admissible dirty) (_queue (conn p)) ->
  exists d, steady dirty p a d.
Proof.
  intros Ha [(a' & Ha' & Hra) (d & Hd & Hrd)] Hq. exists d.
  rewrite Ha in Ha'. injection Ha' as <-.
  split_and!; try done; by apply in_range_Num.
Qed.

(** Three submissions in a row to an idle connection with room for them
    are all handed to transports. *)
Lemma three_submissions_sent c o1 o2 o3 :
  cursors_valid c -> _queue c = [] -> (_activeTasks c + 3 <= _maxTasks c)%Z ->
  ro_host o1 = None -> ro_host o2 = None -> ro_host o3 = None ->
  exists p', run (start c) [Submit o1; Submit o2; Submit o3] = Some p'
             /\ length (sent p') = 3%nat.
Proof.
  intros Hcv Hq Hcap Hp1 Hp2 Hp3.
  destruct (step_submit_idle (start c) o1)
    as (p1 & t1 & h1 & Hs1 & _ & Hsent1 & _ & Hq1 & Hact1 & _ & Hpol1 & Hcv1 & _);
    try done; [simpl; lia|].
  pose proof Hpol1 as (_ & _ & _ & _ & Hmax1). simpl in Hact1, Hmax1.
  destruct (step_submit_idle p1 o2)
    as (p2 & t2 & h2 & Hs2 & _ & Hsent2 & _ & Hq2 & Hact2 & _ & Hpol2 & Hcv2 & _);
    try done; [lia|].
  pose proof Hpol2 as (_ & _ & _ & _ & Hmax2).
  destruct (step_submit_idle p2 o3)
    as (p3 & t3 & h3 & Hs3 & _ & Hsent3 & _); try done; [lia|].
  exists p3. rewrite (run_cons _ _ _ _ Hs1), (run_cons _ _ _ _ Hs2), (run_cons _ _ _ _ Hs3).
  split; [done|]. by rewrite Hsent3, Hsent2, Hsent1.
Qed.

End Schedules.

(** C6. Under [ROUND_ROBIN], along any run of submissions that neither pin
    a host nor allow dirty reads and of transport responses that are not
    redirects, the [k]-th request handed to a transport goes to host
    [(first + k) mod |hosts|], [first] being the primary cursor before the
    run, and the cursor ends at [(first + count) mod |hosts|]; selection
    and advance happen in one step of [_runQueue]. With three hosts and the
    cursor at 0, three submissions in a row go to hosts 0, 1, 2 and leave
    the cursor at 0. *)
Theorem C6_round_robin_schedule `{Platform} :
  (forall p events first,
     _loadBalancingStrategy (conn p) = ROUND_ROBIN ->
     _activeHost (conn p) = Num first ->
     cursors_valid (conn p) ->
     Forall (admissible false) (_queue (conn p)) ->
     Forall (quiet false) events ->
     exists p' new,
       run p events = Some p'
       /\ sent p' = sent p ++ new
       /\ (forall (k : nat) t h,
             new !! k = Some (t, h) ->
             h = Num ((first + Z.of_nat k) mod Z.of_nat (length (_hosts (conn p)))))
       /\ _activeHost (conn p')
          = Num ((first + Z.of_nat (length new)) mod Z.of_nat (length (_hosts (conn p)))))
  /\ (forall c o1 o2 o3,
        _loadBalancingStrategy c = ROUND_ROBIN ->
        length (_hosts c) = 3%nat ->
        _activeHost c = Num 0 -> cursors_valid c ->
        _queue c = [] -> (_activeTasks c + 3 <= _maxTasks c)%Z ->
        quiet false (Submit o1) -> quiet false (Submit o2) -> quiet false (Submit o3) ->
        exists p',
          run (start c) [Submit o1; Submit o2; Submit o3] = Some p'
          /\ map snd (sent p') = [Num 0; Num 1; Num 2]
          /\ _activeHost (conn p') = Num 0)
  /\ (forall c t0 rest,
        _loadBalancingStrategy c = ROUND_ROBIN ->
        _queue c = t0 :: rest -> host t0 = None -> allowDirtyRead t0 = false ->
        (_activeTasks c < _maxTasks c)%Z ->
        exists c1,
          select c = Some (c1, t0, _activeHost c)
          /\ _activeHost c1 = next_host c (_activeHost c)
          /\ _queue c1 = rest).
Proof.
  assert (forall p events first,
     _loadBalancingStrategy (conn p) = ROUND_ROBIN ->
     _activeHost (conn p) = Num first ->
     cursors_valid (conn p) ->
     Forall (admissible false) (_queue (conn p)) ->
     Forall (quiet false) events ->
     exists p' new,
       run p events = Some p'
       /\ sent p' = sent p ++ new
       /\ (forall (k : nat) t h,
             new !! k = Some (t, h) ->
             h = Num ((first + Z.of_nat k) mod Z.of_nat (length (_hosts (conn p)))))
       /\ _activeHost (conn p')
          = Num ((first + Z.of_nat (length new)) mod Z.of_nat (length (_hosts (conn p)))))
    as Hgeneral.
  { intros p events a Hrr Ha Hcv Hq Hev.
    destruct (steady_intro false p a Ha Hcv Hq) as [d Hst].
    destruct (quiet_run false events p a d Hst Hev)
      as (p' & new & a' & d' & Hrun & Hsent & _ & _ & Hst' & Hadm & Hf).
    rewrite Hrr, bool_decide_true in Hf by done.
    destruct Hst as (_ & _ & Hra%in_range_Num & _).
    assert (Forall (fun th : Task * number => allowDirtyRead th.1 = false) new) as Hplain.
    { eapply Forall_impl; [exact Hadm|]. intros [t h] [_ Hd]. simpl in *.
      destruct (allowDirtyRead t); [by specialize (Hd eq_refl) | done]. }
    destruct (follows_round_robin _ _ _ _ _ _ Hra Hplain Hf) as (Hk & Ha' & _).
    exists p', new. split_and!; try done.
    destruct Hst' as (-> & _). by rewrite Ha'. }
  split; [exact Hgeneral|]. split; cycle 1.
  { intros c t0 rest Hrr Hq Hpin Hplain Hcap. unfold select.
    rewrite Hq. replace (_maxTasks c <=? _activeTasks c)%Z with false
      by (symmetry; apply Z.leb_gt; lia).
    rewrite Hpin, Hplain. simpl. rewrite decide_True by done. by eexists. }
  intros c o1 o2 o3 Hrr Hn Ha Hcv Hq Hcap Ho1 Ho2 Ho3.
  destruct (Hgeneral (start c) [Submit o1; Submit o2; Submit o3] 0%Z)
    as (p' & new & Hrun & Hsent & Hk & Hend); [done | done | done | | |].
  { simpl. rewrite Hq. apply Forall_nil_2. }
  { repeat (apply Forall_cons_2 || apply Forall_nil_2); done. }
  destruct (three_submissions_sent c o1 o2 o3) as (p'' & Hrun' & Hlen);
    try done; try apply Ho1; try apply Ho2; try apply Ho3.
  rewrite Hrun in Hrun'. injection Hrun' as <-.
  simpl in Hsent, Hk, Hend. rewrite Hsent in Hlen. rewrite Hn in Hk, Hend.
  exists p'. split; [done|]. rewrite Hsent, Hend, Hlen.
  destruct new as [|[t1 h1] [|[t2 h2] [|[t3 h3] [|]]]]; try done.
  rewrite (Hk 0%nat t1 h1), (Hk 1%nat t2 h2), (Hk 2%nat t3 h3) by done. done.
Qed.

Lemma C6_round_robin_schedule_witness :
  let c := new_Connection (H := example_platform)
             (example_config ROUND_ROBIN three_hosts) no_draw no_draw in
  exists p',
    run (H := example_platform) (start c)
      [Submit (get "/a"); Submit (get "/b"); Submit (get "/c")] = Some p'
    /\ map snd (sent p') = [Num 0; Num 1; Num 2]
    /\ _activeHost (conn p') = Num 0.
Proof.
  intros c.
  apply (proj1 (proj2 (@C6_round_robin_schedule example_platform))).
  - reflexivity.
  - reflexivity.
  - reflexivity.
  - split; exists 0%Z; split; [reflexivity | vm_compute; split; [discriminate | reflexivity]
                              | reflexivity | vm_compute; split; [discriminate | reflexivity]].
  - reflexivity.
  - vm_compute. discriminate.
  - split; [reflexivity | discriminate].
  - split; [reflexivity | discriminate].
  - split; [reflexivity | discriminate].
Defined.

(** C7. A dequeued task that allows dirty reads and is not pinned is sent
    to the host the dirty-read cursor names; the dirty-read cursor then
    moves on by one modulo the number of hosts, the task's headers gain
    [x-arango-allow-dirty-read: true] and nothing else, and the primary
    cursor is as before. So under [NONE], along any run of unpinned
    submissions (dirty reads or not) and responses that are not redirects,
    every request that is not a dirty read goes to the host the primary
    cursor names, and that cursor never moves. *)
Theorem C7_dirty_read_selection `{Platform} :
  (forall c t0 rest,
     _queue c = t0 :: rest -> host t0 = None -> allowDirtyRead t0 = true ->
     (_activeTasks c < _maxTasks c)%Z ->
     exists c1 t,
       select c = Some (c1, t, _activeDirtyHost c)
       /\ _activeDirtyHost c1 = next_host c (_activeDirtyHost c)
       /\ (forall d, _activeDirtyHost c = Num d -> (0 <= d)%Z -> _hosts c <> [] ->
             _activeDirtyHost c1 = Num ((d + 1) mod Z.of_nat (length (_hosts c))))
       /\ headers (options t)
          = <["x-arango-allow-dirty-read" := "true"]> (headers (options t0))
       /\ _activeHost c1 = _activeHost c
       /\ _queue c1 = rest)
  /\ (forall p events a,
        _loadBalancingStrategy (conn p) = NONE ->
        _activeHost (conn p) = Num a ->
        cursors_valid (conn p) ->
        Forall (admissible true) (_queue (conn p)) ->
        Forall (quiet true) events ->
        exists p' new,
          run p events = Some p'
          /\ sent p' = sent p ++ new
          /\ _activeHost (conn p') = Num a
          /\ forall t h, (t, h) ∈ new -> allowDirtyRead t = false -> h = Num a).
Proof.
  split.
  - intros c t0 rest Hq Hpin Hdirty Hcap. unfold select.
    rewrite Hq. replace (_maxTasks c <=? _activeTasks c)%Z with false
      by (symmetry; apply Z.leb_gt; lia).
    rewrite Hpin, Hdirty. eexists _, _. split; [reflexivity|]. simpl.
    split_and!; try done.
    intros d Hd Hpos Hne. rewrite Hd. unfold next_host, js_length. simpl.
    replace (Z.of_nat (length (_hosts c)) =? 0)%Z with false
      by (symmetry; apply Z.eqb_neq; destruct (_hosts c); simpl in *; [done | lia]).
    rewrite Z.rem_mod_nonneg; [done | lia |].
    destruct (_hosts c); simpl in *; [done | lia].
  - intros p events a Hnone Ha Hcv Hq Hev.
    destruct (steady_intro true p a Ha Hcv Hq) as [d Hst].
    destruct (quiet_run true events p a d Hst Hev)
      as (p' & new & a' & d' & Hrun & Hsent & _ & _ & Hst' & _ & Hf).
    rewrite Hnone, bool_decide_false in Hf by done.
    apply follows_fixed in Hf as [-> Hall].
    exists p', new. split_and!; try done. by destruct Hst' as (-> & _).
Qed.

Lemma C7_dirty_read_selection_witness :
  let c := new_Connection (H := example_platform)
             (example_config NONE three_hosts) no_draw no_draw in
  exists p' new,
    run (H := example_platform) (start c)
      [Submit (get_dirty "/a"); Submit (get "/b"); Submit (get_dirty "/c");
       Submit (get "/d"); Submit (get_dirty "/e")] = Some p'
    /\ sent p' = sent (start c) ++ new
    /\ _activeHost (conn p') = Num 0
    /\ forall t h, (t, h) ∈ new -> allowDirtyRead t = false -> h = Num 0.
Proof.
  intros c.
  apply (proj2 (@C7_dirty_read_selection example_platform)).
  - reflexivity.
  - reflexivity.
  - split; exists 0%Z; split; [reflexivity | vm_compute; split; [discriminate | reflexivity]
                              | reflexivity | vm_compute; split; [discriminate | reflexivity]].
  - apply Forall_nil_2.
  - repeat (apply Forall_cons_2 || apply Forall_nil_2); by split.
Defined.

(** ** Reachable states are healthy *)

Lemma in_range_mono n m x : (n <= m)%nat -> in_range n x -> in_range m x.
Proof. intros Hnm (z & -> & Hz). exists z. split; [done | lia]. Qed.

Section Health.
Context `{Platform}.

Lemma addToHostList_lengths c urls :
  length (_hosts c) = length (_urls c) ->
  length (_hosts (addToHostList c urls).1) = length (_urls (addToHostList c urls).1)
  /\ (length (_hosts c) <= length (_hosts (addToHostList c urls).1))%nat.
Proof.
  intros Hl. unfold addToHostList. simpl.
  rewrite !length_app, length_map. split; lia.
Qed.

Lemma addToHostList_healthy c urls : healthy c -> healthy (addToHostList c urls).1.
Proof.
  intros [[Ha Hd] Hl]. destruct (addToHostList_lengths c urls Hl) as [Hl' Hle].
  split; [|done]. split; (eapply in_range_mono; [exact Hle|]); done.
Qed.

Lemma next_host_valid c x :
  in_range (length (_hosts c)) x -> in_range (length (_hosts c)) (next_host c x).
Proof. intros (a & -> & Ha). by apply next_host_in_range, in_range_Num. Qed.

Lemma select_healthy c c1 t h : healthy c -> select c = Some (c1, t, h) -> healthy c1.
Proof.
  intros [[Ha Hd] Hl] (t0 & _ & _ & _ & Hh & Hu & Hcase)%select_inv.
  unfold healthy, cursors_valid. rewrite Hh, Hu. split; [|done].
  destruct (host t0); [|destruct (allowDirtyRead t0)].
  - destruct Hcase as (_ & _ & -> & ->). done.
  - destruct Hcase as (_ & _ & -> & ->). split; [done | by apply next_host_valid].
  - destruct Hcase as (_ & _ & -> & ->). split; [|done].
    case_decide; [by apply next_host_valid | done].
Qed.

Lemma callback_handle_healthy c t h o : healthy c -> healthy (callback_handle c t h o).1.
Proof.
  intros [[Ha Hd] Hl]. unfold callback_handle. destruct o as [err|res].
  - destruct (failover_applies _ t h); case_match; simpl;
      (split; [split|]; try done); by apply (next_host_valid c).
  - destruct (leader_endpoint res) as [u|]; [|done].
    set (c1 := set_activeTasks c (_activeTasks c - 1)).
    assert (healthy c1) as Hc1 by done.
    pose proof (addToHostList_healthy c1 [u] Hc1) as [[Ha2 Hd2] Hl2].
    destruct (addToHostList_one c1 u) as (i & Hidx & Hi & _).
    destruct (addToHostList c1 [u]) as [c2 indices]. simpl in *. subst indices. simpl.
    apply lookup_lt_Some in Hi.
    destruct (js_strict_eq (_activeHost c2) h); simpl; (split; [split|]; try done).
    apply in_range_Num. simpl. lia.
Qed.

Lemma _runQueue_healthy fuel c c' s calls :
  healthy c -> _runQueue fuel c = Some (c', s, calls) -> healthy c'.
Proof.
  revert c c' s calls.
  induction fuel as [|fuel IH]; intros c c' s calls Hc; rewrite _runQueue_unfold;
    destruct (select c) as [[[c1 t] h]|] eqn:Hs; try (intros ?; by simplify_eq);
    pose proof (select_healthy _ _ _ _ Hc Hs) as Hc1;
    destruct (js_at (_hosts c1) h); try (intros ?; by simplify_eq).
  pose proof (callback_handle_healthy c1 t h (Failure not_a_function) Hc1) as Hc2.
  destruct (callback_handle c1 t h (Failure not_a_function)) as [c2 call].
  destruct (_runQueue fuel c2) as [[[c3 s3] calls3]|] eqn:Hr; [|done].
  intros ?; simplify_eq. by eapply IH.
Qed.

Lemma callback_healthy c t h o c' s calls :
  healthy c -> callback c t h o = Some (c', s, calls) -> healthy c'.
Proof.
  intros Hc. unfold callback.
  pose proof (callback_handle_healthy c t h o Hc) as Hc1.
  destruct (callback_handle c t h o) as [c1 call].
  destruct (runQueue c1) as [[[c2 s2] calls2]|] eqn:Hr; [|done].
  intros ?; simplify_eq. by eapply _runQueue_healthy.
Qed.

Lemma request_healthy c o c' s calls :
  healthy c -> request c o = Some (c', s, calls) -> healthy c'.
Proof. intros Hc. unfold request, runQueue. by apply _runQueue_healthy. Qed.

Lemma floor_scaled_range d n : valid_draw d -> (0 < n)%Z -> (0 <= floor_scaled d n < n)%Z.
Proof.
  intros [Hn Hd] Hpos. unfold floor_scaled. split.
  - apply Z.div_pos; nia.
  - apply Z.div_lt_upper_bound; nia.
Qed.

Lemma addToHostList_fresh c urls :
  _urls c = [] -> _hosts c = [] ->
  length (_hosts (addToHostList c urls).1) = length urls
  /\ length (_urls (addToHostList c urls).1) = length urls
  /\ _activeHost (addToHostList c urls).1 = _activeHost c
  /\ _activeDirtyHost (addToHostList c urls).1 = _activeDirtyHost c.
Proof.
  intros Hu Hh.
  assert (forall l : list string, List.filter (fun u => (indexOf [] u =? -1)%Z) l = l) as Hf.
  { induction l as [|x l IH]; [done|]. change (x :: List.filter (fun u => (indexOf [] u =? -1)%Z) l = x :: l). by rewrite IH. }
  unfold addToHostList. rewrite Hu, Hh, Hf. simpl. by rewrite !length_map.
Qed.

(** The constructor leaves a healthy connection when it is given at least
    one URL (as it is by default). *)
Lemma new_Connection_healthy config d1 d2 :
  cfg_url config <> Some (ManyUrls []) -> valid_draw d1 -> valid_draw d2 ->
  healthy (new_Connection config d1 d2).
Proof.
  intros Hurl Hd1 Hd2. unfold new_Connection.
  set (urls := match cfg_url config with
               | Some (OneUrl u) => if truthy_string u then [u] else ["http://localhost:8529"]
               | Some (ManyUrls us) => us
               | None => ["http://localhost:8529"]
               end).
  assert (0 < length urls)%nat as Hne.
  { subst urls. destruct (cfg_url config) as [[u|us]|]; simpl; [case_match; simpl; lia | | lia].
    destruct us; [done | simpl; lia]. }
  destruct (cfg_maxRetries config) as [[|n]|];
    match goal with
    | |- context [addToHostList ?c0 urls] =>
        destruct (addToHostList_fresh c0 urls eq_refl eq_refl) as (Hh & Hu & Ha & Hd);
        destruct (addToHostList c0 urls) as [c1 idx]
    end;
    simpl in *; case_decide; unfold healthy, cursors_valid; simpl;
    rewrite ?Hh, ?Hu, ?Ha, ?Hd;
    (split; [split|done]); apply in_range_Num; try apply floor_scaled_range; (done || lia).
Qed.

(** Every state a connection built from at least one URL reaches is
    healthy. *)
Lemma reachable_healthy c0 c : healthy c0 -> reachable_from c0 c -> healthy c.
Proof.
  intros H0. induction 1 as [|c o c' s calls _ IH Hr|c t h o c' s calls _ IH Hc
                             |c urls _ IH|c name v _ IH|c id _ IH|c _ IH].
  - done.
  - by eapply request_healthy.
  - by eapply callback_healthy.
  - by apply addToHostList_healthy.
  - by destruct v.
  - done.
  - done.
Qed.

End Health.

(** ** More on the response interpreter *)

Lemma raw_bodies_carry_no_envelope b :
  is_error_envelope (body_value b) = false
  /\ is_error_envelope (JString (body_text b)) = false.
Proof.
  unfold is_error_envelope. destruct b; simpl; by rewrite ?andb_false_r.
Qed.

Section InterpreterCases.
Context `{Platform}.

(** The three ways a raw response is read. *)
Lemma task_resolve_unread expectBinary res :
  (body_length_truthy (res_body res)
   && match res_headers res !! "content-type" with
      | Some ct => truthy_string ct && MIME_JSON ct
      | None => false
      end) = false ->
  task_resolve expectBinary res =
    let b := if body_truthy (res_body res) && negb expectBinary
             then JString (body_text (res_body res))
             else body_value (res_body res) in
    if is_http_error (statusCode res) then Rejected (HttpError (with_body res b))
    else Fulfilled (with_body res b).
Proof.
  intros Hno. unfold task_resolve. rewrite Hno.
  destruct (raw_bodies_carry_no_envelope (res_body res)) as [Hraw Htext].
  destruct (body_truthy (res_body res) && negb expectBinary) eqn:E;
    cbn -[is_error_envelope].
  - rewrite Htext. apply andb_true_iff in E as [_ ->]. done.
  - rewrite Hraw. by destruct (negb expectBinary), (is_http_error (statusCode res)).
Qed.

Lemma task_resolve_unparsed expectBinary res :
  body_length_truthy (res_body res) = true ->
  (exists ct, res_headers res !! "content-type" = Some ct /\ MIME_JSON ct = true) ->
  JSON_parse (body_text (res_body res)) = None ->
  task_resolve expectBinary res =
    if negb expectBinary then Rejected (SyntaxError res)
    else if is_http_error (statusCode res)
    then Rejected (HttpError (with_body res (body_value (res_body res))))
    else Fulfilled (with_body res (body_value (res_body res))).
Proof.
  intros Hlen (ct & Hct & Hmime) Hparse. unfold task_resolve.
  rewrite Hlen, Hct, Hmime, Hparse.
  replace (truthy_string ct) with true by (by destruct ct).
  destruct expectBinary; cbn -[is_error_envelope]; [|done].
  destruct (raw_bodies_carry_no_envelope (res_body res)) as [-> _]. done.
Qed.

Lemma task_resolve_cases (res : Response RawBody) :
  (exists v, parses_to res v)
  \/ (body_length_truthy (res_body res) = true
      /\ (exists ct, res_headers res !! "content-type" = Some ct /\ MIME_JSON ct = true)
      /\ JSON_parse (body_text (res_body res)) = None)
  \/ (body_length_truthy (res_body res)
      && match res_headers res !! "content-type" with
         | Some ct => truthy_string ct && MIME_JSON ct
         | None => false
         end) = false.
Proof.
  destruct (body_length_truthy (res_body res)) eqn:Hlen; [|by right; right].
  destruct (res_headers res !! "content-type") as [ct|] eqn:Hct; [|by right; right].
  destruct (MIME_JSON ct) eqn:Hm; [|right; right; simpl; by rewrite andb_false_r].
  destruct (JSON_parse (body_text (res_body res))) as [v|] eqn:Hp.
  - left. exists v. split_and!; [done | by exists ct | done].
  - right; left. split_and!; [done | by exists ct | done].
Qed.

End InterpreterCases.



(** X2. A fulfilled response is the transport's response with only the
    body interpreted: status, headers and host id are as delivered, the
    status is not 400 or more, the body is the raw one when [expectBinary]
    is set, and otherwise it is not an error envelope. *)
Theorem fulfilled_response_shape `{Platform} (expectBinary : bool)
    (res : Response RawBody) (r : Response value) :
  task_resolve expectBinary res = Fulfilled r ->
  statusCode r = statusCode res
  /\ res_headers r = res_headers res
  /\ arangojsHostId r = arangojsHostId res
  /\ is_http_error (statusCode res) = false
  /\ (expectBinary = true -> res_body r = body_value (res_body res))
  /\ (expectBinary = false -> is_error_envelope (res_body r) = false).
Proof.
  destruct (raw_bodies_carry_no_envelope (res_body res)) as [Hraw Htext].
  destruct (task_resolve_cases res) as [[v Hv]|[(Hl & Hct & Hp)|Hno]].
  - rewrite (task_resolve_parsed _ _ v Hv).
    destruct (is_error_envelope v) eqn:Henv; [done|].
    destruct (is_http_error (statusCode res)) eqn:Hhttp; [done|].
    destruct expectBinary; simpl; intros [= <-]; by split_and!.
  - rewrite task_resolve_unparsed by done.
    destruct expectBinary; simpl; [|done].
    destruct (is_http_error (statusCode res)) eqn:Hhttp; [done|].
    intros [= <-]. by split_and!.
  - rewrite task_resolve_unread by done. cbv zeta.
    destruct (is_http_error (statusCode res)) eqn:Hhttp; [done|].
    intros [= <-].
    destruct expectBinary; rewrite ?andb_false_r, ?andb_true_r; simpl;
      split_and!; try done.
    intros _. by destruct (body_truthy (res_body res)).
Qed.

Lemma fulfilled_response_shape_witness :
  let res := text_reply 200 "hello" in
  let r := with_body res (JBuffer "hello") in
  statusCode r = statusCode res
  /\ res_headers r = res_headers res
  /\ arangojsHostId r = arangojsHostId res
  /\ is_http_error (statusCode res) = false
  /\ (true = true -> res_body r = body_value (res_body res))
  /\ (true = false -> is_error_envelope (res_body r) = false).
Proof.
  intros res r.
  apply (@fulfilled_response_shape example_platform true res r).
  reflexivity.
Defined.

(** X3. A response that is not read as JSON (no content type, a content
    type that is not JSON, or an empty body) is never a domain error and
    never a parse error: it is an [HttpError] when the status is 400 or
    more and a success otherwise, carrying the body as text, or as the raw
    bytes when [expectBinary] is set or the body is an empty string. *)
Theorem unread_response_outcome `{Platform} (expectBinary : bool)
    (res : Response RawBody) :
  body_length_truthy (res_body res) = false
  \/ res_headers res !! "content-type" = None
  \/ (exists ct, res_headers res !! "content-type" = Some ct /\ MIME_JSON ct = false) ->
  exists b,
    b = (if body_truthy (res_body res) && negb expectBinary
         then JString (body_text (res_body res))
         else body_value (res_body res))
    /\ task_resolve expectBinary res
       = (if is_http_error (statusCode res)
          then Rejected (HttpError (with_body res b))
          else Fulfilled (with_body res b)).
Proof.
  intros Hcase. eexists. split; [reflexivity|].
  apply task_resolve_unread.
  destruct Hcase as [->|[->|(ct & -> & ->)]]; [done | apply andb_false_r |].
  by rewrite !andb_false_r.
Qed.

Lemma unread_response_outcome_witness :
  exists b,
    b = JString "not found"
    /\ task_resolve (H := example_platform) false (text_reply 404 "not found")
       = Rejected (HttpError (with_body (text_reply 404 "not found") b)).
Proof.
  apply (@unread_response_outcome example_platform false (text_reply 404 "not found")).
  right. right. eexists. split; reflexivity.
Defined.

(** X4. A non-empty body announced as JSON that [JSON.parse] cannot read
    rejects the promise with the parse error, the response left as the
    transport delivered it, unless [expectBinary] is set; then the parse
    error is dropped and the raw body is classified by the status alone. *)
Theorem unparsable_json_outcome `{Platform} (expectBinary : bool)
    (res : Response RawBody) :
  body_length_truthy (res_body res) = true ->
  (exists ct, res_headers res !! "content-type" = Some ct /\ MIME_JSON ct = true) ->
  JSON_parse (body_text (res_body res)) = None ->
  task_resolve expectBinary res =
    if expectBinary
    then (if is_http_error (statusCode res)
          then Rejected (HttpError (with_body res (body_value (res_body res))))
          else Fulfilled (with_body res (body_value (res_body res))))
    else Rejected (SyntaxError res).
Proof.
  intros Hlen Hct Hp. rewrite task_resolve_unparsed by done. by destruct expectBinary.
Qed.

Lemma unparsable_json_outcome_witness :
  task_resolve (H := example_platform) false (json_reply 200 "{oops")
  = Rejected (SyntaxError (json_reply 200 "{oops")).
Proof.
  apply (@unparsable_json_outcome example_platform false (json_reply 200 "{oops")).
  - reflexivity.
  - eexists. split; reflexivity.
  - reflexivity.
Defined.

Lemma strip_prefix_spec p s r : strip_prefix p s = Some r <-> s = p +:+ r.
Proof.
  revert s. induction p as [|a p IH]; intros s; simpl.
  - split; [by intros [= ->] | by intros ->].
  - destruct s as [|b s]; [done|].
    destruct (Ascii.eqb_spec a b) as [->|Hne].
    + rewrite IH. split; [by intros -> | by intros [= ->]].
    + split; [done | intros [= ? ?]; done].
Qed.

Lemma boundary_spec s :
  boundary s = true <-> s = EmptyString \/ exists a rest, s = String a rest /\ word_char a = false.
Proof.
  destruct s as [|a rest]; simpl.
  - split; [by left | done].
  - rewrite negb_true_iff. split.
    + intros Ha. right. by exists a, rest.
    + intros [|(a' & rest' & [= <- <-] & Ha)]; done.
Qed.

Lemma mime_here_spec s :
  mime_here s = true
  <-> exists post, (s = "/json" +:+ post \/ s = "/javascript" +:+ post)
                   /\ boundary post = true.
Proof.
  unfold mime_here. rewrite orb_true_iff. split.
  - intros [Hj|Hj].
    + destruct (strip_prefix "/json" s) as [r|] eqn:E; [|done].
      apply strip_prefix_spec in E. exists r. split; [by left | done].
    + destruct (strip_prefix "/javascript" s) as [r|] eqn:E; [|done].
      apply strip_prefix_spec in E. exists r. split; [by right | done].
  - intros (post & [Hs|Hs] & Hb); apply strip_prefix_spec in Hs.
    + left. by rewrite Hs.
    + right. by rewrite Hs.
Qed.

Lemma MIME_JSON_unfold s :
  MIME_JSON s = mime_here s || match s with
                               | EmptyString => false
                               | String _ s' => MIME_JSON s'
                               end.
Proof. by destruct s. Qed.

(** X5. [MIME_JSON] accepts a content type exactly when it contains
    [/json] or [/javascript] followed by the end of the string or by a
    character that is not a letter, a digit or an underscore. *)
Theorem MIME_JSON_matches (s : string) :
  MIME_JSON s = true
  <-> exists pre post,
        (s = pre +:+ "/json" +:+ post \/ s = pre +:+ "/javascript" +:+ post)
        /\ (post = EmptyString
            \/ exists a rest, post = String a rest /\ word_char a = false).
Proof.
  split.
  - induction s as [|a s IH]; rewrite MIME_JSON_unfold, orb_true_iff.
    + intros [(post & Hs & Hb)%mime_here_spec|]; [|done].
      exists EmptyString, post. split; [done | by apply boundary_spec].
    + intros [(post & Hs & Hb)%mime_here_spec|Hrest].
      * exists EmptyString, post. split; [done | by apply boundary_spec].
      * destruct (IH Hrest) as (pre & post & Hs & Hb).
        exists (String a pre), post. split; [|done].
        destruct Hs as [->| ->]; [by left | by right].
  - intros (pre & post & Hs & Hb%boundary_spec). revert s Hs.
    induction pre as [|a pre IH]; intros s Hs; rewrite MIME_JSON_unfold, orb_true_iff.
    + left. apply mime_here_spec. by exists post.
    + right. destruct Hs as [->| ->]; simpl; apply IH; [by left | by right].
Qed.

Section Delivered.
Context `{Platform}.

(** Whatever response an outcome of the interpreter carries, it is the
    transport's with another body. *)
Lemma task_resolve_response expectBinary res r :
  task_resolve expectBinary res = Fulfilled r
  \/ task_resolve expectBinary res = Rejected (ArangoError r)
  \/ task_resolve expectBinary res = Rejected (HttpError r) ->
  exists b, r = with_body res b.
Proof.
  unfold task_resolve. intros Hr.
  repeat case_match; destruct Hr as [Hr|[Hr|Hr]]; simplify_eq; by eexists.
Qed.

End Delivered.

(** X6. The response handed to the caller, fulfilled or inside an
    [ArangoError] or [HttpError], names in [arangojsHostId] the host the
    task was sent to, and has the status and headers the transport
    delivered. *)
Theorem delivered_response_names_its_host `{Platform} (c : Connection) (task : Task)
    (h : number) (res : Response RawBody) :
  leader_endpoint res = None ->
  exists c' call,
    callback_handle c task h (Success res) = (c', Some (task, call))
    /\ forall r,
         settle task call = Fulfilled r
         \/ settle task call = Rejected (ArangoError r)
         \/ settle task call = Rejected (HttpError r) ->
         arangojsHostId r = Some h
         /\ statusCode r = statusCode res
         /\ res_headers r = res_headers res.
Proof.
  intros Hl. eexists _, _. rewrite callback_handle_resolve by done.
  split; [done|]. simpl. intros r Hr.
  apply task_resolve_response in Hr as [b ->]. done.
Qed.

Lemma delivered_response_names_its_host_witness :
  let c := new_Connection (H := example_platform) (example_config NONE three_hosts)
             no_draw no_draw in
  let task := request_task (H := example_platform) c (get "/_api/version") in
  exists c' call,
    callback_handle (H := example_platform) c task (Num 2) (Success (text_reply 200 "ok"))
    = (c', Some (task, call))
    /\ forall r,
         settle (H := example_platform) task call = Fulfilled r
         \/ settle (H := example_platform) task call = Rejected (ArangoError r)
         \/ settle (H := example_platform) task call = Rejected (HttpError r) ->
         arangojsHostId r = Some (Num 2)
         /\ statusCode r = statusCode (text_reply 200 "ok")
         /\ res_headers r = res_headers (text_reply 200 "ok").
Proof.
  intros c task.
  apply (@delivered_response_names_its_host example_platform c task (Num 2)
           (text_reply 200 "ok")).
  reflexivity.
Defined.

Lemma MIME_JSON_matches_witness : MIME_JSON "application/json; charset=utf-8" = true.
Proof.
  apply (proj2 (MIME_JSON_matches "application/json; charset=utf-8")).
  exists "application", "; charset=utf-8".
  split; [left; reflexivity | right; eexists _, _; split; reflexivity].
Defined.

(** ** More on request building *)

Section HeaderLayers.
Context `{Platform}.

(** A header of the task [request] builds, layer by layer. *)
Lemma request_task_header c o name :
  headers (options (request_task c o)) !! name
  = match default ∅ (ro_headers o) !! name with
    | Some v => Some v
    | None =>
        match transaction_layer c !! name with
        | Some v => Some v
        | None =>
            match core_layer c o !! name with
            | Some v => Some v
            | None => _headers c !! name
            end
        end
    end.
Proof.
  unfold request_task, core_layer, transaction_layer, extraHeaders, spread.
  destruct (content_of _ _) as [ct b]. simpl.
  destruct (_transactionId c) as [id|]; [destruct (truthy_string id)|];
    repeat (rewrite ?lookup_union, ?lookup_insert, ?lookup_empty, ?lookup_singleton; simpl);
    repeat case_decide; subst; try done;
    repeat match goal with |- context [ ?m !! ?k ] => destruct (m !! k) end; done.
Qed.

Lemma core_layer_lookup c o name :
  core_layer c o !! name
  = if decide (name = "content-type")
    then Some (fst (content_of (default false (ro_isBinary o)) (ro_body o)))
    else if decide (name = "x-arango-version") then Some (pretty (_arangoVersion c))
    else None.
Proof.
  unfold core_layer. rewrite lookup_insert.
  case_decide; subst.
  - by rewrite decide_True.
  - rewrite decide_False by done. rewrite lookup_singleton.
    case_decide; subst; [by rewrite decide_True | by rewrite decide_False].
Qed.

Lemma transaction_layer_lookup c name :
  transaction_layer c !! name
  = match _transactionId c with
    | Some id => if truthy_string id && bool_decide (name = "x-arango-trx-id")
                 then Some id else None
    | None => None
    end.
Proof.
  unfold transaction_layer. destruct (_transactionId c) as [id|]; [|done].
  destruct (truthy_string id); simpl; [|done].
  rewrite lookup_singleton. case_decide; subst.
  - by rewrite bool_decide_true.
  - by rewrite bool_decide_false.
Qed.

End HeaderLayers.

(** X7. Every task [request] builds carries [x-arango-version] and
    [content-type]. Unless the caller's own headers name them, their values
    are the connection's version and the content type chosen for the body:
    default headers (and the transaction id) cannot change them. *)
Theorem version_and_content_type_are_sent `{Platform} (c : Connection)
    (o : RequestOptions) :
  is_Some (headers (options (request_task c o)) !! "x-arango-version")
  /\ is_Some (headers (options (request_task c o)) !! "content-type")
  /\ (default ∅ (ro_headers o) !! "x-arango-version" = None ->
      headers (options (request_task c o)) !! "x-arango-version"
      = Some (pretty (_arangoVersion c)))
  /\ (default ∅ (ro_headers o) !! "content-type" = None ->
      headers (options (request_task c o)) !! "content-type"
      = Some (fst (content_of (default false (ro_isBinary o)) (ro_body o)))).
Proof.
  rewrite !request_task_header, !transaction_layer_lookup, !core_layer_lookup.
  assert (forall id, truthy_string id && bool_decide ("x-arango-version" = "x-arango-trx-id")
                     = false) as Hv by (intros; apply andb_false_r).
  assert (forall id, truthy_string id && bool_decide ("content-type" = "x-arango-trx-id")
                     = false) as Hc by (intros; apply andb_false_r).
  split_and!.
  - destruct (default ∅ (ro_headers o) !! "x-arango-version"); [done|].
    destruct (_transactionId c) as [id|]; [rewrite Hv|]; done.
  - destruct (default ∅ (ro_headers o) !! "content-type"); [done|].
    destruct (_transactionId c) as [id|]; [rewrite Hc|]; done.
  - intros ->. destruct (_transactionId c) as [id|]; [rewrite Hv|]; done.
  - intros ->. destruct (_transactionId c) as [id|]; [rewrite Hc|]; done.
Qed.

Lemma version_and_content_type_are_sent_witness :
  let c := setHeader (new_Connection (H := example_platform)
                        (example_config NONE three_hosts) no_draw no_draw)
             "x-arango-version" (Some "1") in
  headers (options (request_task (H := example_platform) c (get "/_api/version")))
    !! "x-arango-version" = Some "30400".
Proof.
  intros c.
  apply (proj1 (proj2 (proj2 (@version_and_content_type_are_sent example_platform c
                                (get "/_api/version"))))).
  reflexivity.
Defined.

(** X8. A default header set with [setHeader] is carried by the tasks built
    afterwards, and one cleared with [setHeader(name, null)] is not, as long
    as the name is not [content-type] or [x-arango-version], no active
    transaction claims it and the caller does not supply it; the other
    headers of a task are not touched by either call. *)
Theorem setHeader_reaches_requests `{Platform} (c : Connection) (o : RequestOptions)
    (name : string) (v : string) :
  name <> "content-type" -> name <> "x-arango-version" ->
  transaction_layer c !! name = None ->
  default ∅ (ro_headers o) !! name = None ->
  headers (options (request_task (setHeader c name (Some v)) o)) !! name = Some v
  /\ headers (options (request_task (setHeader c name None) o)) !! name = None
  /\ forall other w,
       other <> name ->
       headers (options (request_task (setHeader c name w) o)) !! other
       = headers (options (request_task c o)) !! other.
Proof.
  intros Hct Hver Htrx Hcaller.
  assert (forall w k, transaction_layer (setHeader c name w) !! k = transaction_layer c !! k)
    as Ht by (by intros [w|] k).
  assert (forall w k, core_layer (setHeader c name w) o !! k = core_layer c o !! k)
    as Hc by (by intros [w|] k).
  split_and!.
  - rewrite request_task_header, Hcaller, Ht, Htrx, Hc, core_layer_lookup.
    rewrite !decide_False by done. simpl. apply lookup_insert_eq.
  - rewrite request_task_header, Hcaller, Ht, Htrx, Hc, core_layer_lookup.
    rewrite !decide_False by done. simpl. apply lookup_delete_eq.
  - intros other w Hne. rewrite !request_task_header, Ht, Hc.
    destruct w as [w|]; simpl; [by rewrite lookup_insert_ne | by rewrite lookup_delete_ne].
Qed.

Lemma setHeader_reaches_requests_witness :
  let c := new_Connection (H := example_platform) (example_config NONE three_hosts)
             no_draw no_draw in
  headers (options (request_task (H := example_platform)
                      (setHeader c "authorization" (Some "Bearer t")) (get "/x")))
    !! "authorization" = Some "Bearer t".
Proof.
  intros c.
  apply (@setHeader_reaches_requests example_platform c (get "/x") "authorization"
           "Bearer t").
  - discriminate.
  - discriminate.
  - reflexivity.
  - reflexivity.
Defined.

(** X9. After [setTransactionId(id)] with a non-empty [id] every task built
    carries [x-arango-trx-id: id] unless the caller supplies that header;
    after [clearTransactionId], or with the empty string as id, a task
    carries under that name only what the caller or the default headers
    give. No other header depends on the transaction id. *)
Theorem transaction_id_round_trip `{Platform} (c : Connection) (o : RequestOptions)
    (id : string) :
  default ∅ (ro_headers o) !! "x-arango-trx-id" = None ->
  (id <> EmptyString ->
   headers (options (request_task (setTransactionId c id) o)) !! "x-arango-trx-id"
   = Some id)
  /\ headers (options (request_task (clearTransactionId (setTransactionId c id)) o))
       !! "x-arango-trx-id" = _headers c !! "x-arango-trx-id"
  /\ headers (options (request_task (setTransactionId c EmptyString) o))
       !! "x-arango-trx-id" = _headers c !! "x-arango-trx-id"
  /\ forall other,
       other <> "x-arango-trx-id" ->
       headers (options (request_task (setTransactionId c id) o)) !! other
       = headers (options (request_task (clearTransactionId c) o)) !! other.
Proof.
  intros Hcaller.
  assert (forall c', core_layer c' o !! "x-arango-trx-id" = None) as Hcore.
  { intros c'. rewrite core_layer_lookup. by rewrite !decide_False. }
  split_and!.
  - intros Hne. rewrite request_task_header, Hcaller, transaction_layer_lookup. simpl.
    replace (truthy_string id) with true by (by destruct id).
    by rewrite ?bool_decide_true.
  - rewrite request_task_header, Hcaller, transaction_layer_lookup. simpl.
    by rewrite Hcore.
  - rewrite request_task_header, Hcaller, transaction_layer_lookup. simpl.
    by rewrite Hcore.
  - intros other Hne. rewrite !request_task_header, !transaction_layer_lookup. simpl.
    rewrite bool_decide_false by done. by rewrite andb_false_r.
Qed.

Lemma transaction_id_round_trip_witness :
  let c := new_Connection (H := example_platform) (example_config NONE three_hosts)
             no_draw no_draw in
  headers (options (request_task (H := example_platform)
                      (setTransactionId c "trx-42") (get "/x")))
    !! "x-arango-trx-id" = Some "trx-42".
Proof.
  intros c.
  apply (proj1 (@transaction_id_round_trip example_platform c (get "/x") "trx-42"
                  eq_refl)).
  discriminate.
Defined.

(** ** [_buildUrl] and [clean] *)

(** X10. [clean] keeps exactly the parameters bound to a value, in their
    order, each with its value. *)
Theorem clean_keeps_defined (params : list (string * option string)) :
  map (fun kv => (kv.1, Some kv.2)) (clean params)
  = List.filter (fun kv => bool_decide (is_Some kv.2)) params
  /\ forall k v, (k, v) ∈ clean params <-> (k, Some v) ∈ params.
Proof.
  split.
  - unfold clean. induction params as [|[k [v|]] params IH]; simpl; [done | | done].
    f_equal. exact IH.
  - intros k v. unfold clean. rewrite list_elem_of_omap. split.
    + intros ([k' [v'|]] & Hin & Heq); simpl in Heq; by simplify_eq.
    + intros Hin. by exists (k, Some v).
Qed.

Section BuildUrl.
Context `{Platform}.

Lemma search_starts_with_question_mark u s :
  search (_buildUrl u) = Some s -> exists rest, s = "?" +:+ rest.
Proof.
  unfold _buildUrl. simpl. destruct (qs u) as [[q|ps]|]; [| |done].
  - destruct (truthy_string q); [|done]. intros [= <-]. by eexists.
  - intros [= <-]. by eexists.
Qed.

End BuildUrl.

(** X11. The URL [_buildUrl] returns has the base path followed by the path
    (either one empty when absent) as [pathname]; it has no [search] exactly
    when there is no query or the query is the empty string, and otherwise
    a [search] that starts with [?]: the query string as given, or the
    serialized parameters that are not [undefined] (also when there are
    none). *)
Theorem buildUrl_shape `{Platform} (u : UrlInfo) :
  pathname (_buildUrl u) = default EmptyString (basePath u) +:+ default EmptyString (path u)
  /\ (search (_buildUrl u) = None
      <-> qs u = None \/ qs u = Some (QsString EmptyString))
  /\ (forall s, qs u = Some (QsString s) -> s <> EmptyString ->
        search (_buildUrl u) = Some ("?" +:+ s))
  /\ (forall ps, qs u = Some (QsParams ps) ->
        search (_buildUrl u) = Some ("?" +:+ querystringify (clean ps))).
Proof.
  unfold _buildUrl. simpl. split_and!.
  - done.
  - destruct (qs u) as [[q|ps]|]; simpl.
    + destruct q as [|a q]; simpl; [split; [by right|done]|].
      split; [done | by intros [|]].
    + split; [done | by intros [|]].
    + split; [by left | done].
  - intros s -> Hne. by destruct s.
  - by intros ps ->.
Qed.

Lemma buildUrl_shape_witness :
  search (_buildUrl (H := example_platform)
            {| basePath := Some "/_db/test"; path := Some "/_api/cursor";
               qs := Some (QsString "a=1") |}) = Some "?a=1".
Proof.
  apply (proj1 (proj2 (proj2 (@buildUrl_shape example_platform
           {| basePath := Some "/_db/test"; path := Some "/_api/cursor";
              qs := Some (QsString "a=1") |}))) "a=1").
  - reflexivity.
  - discriminate.
Defined.

(** X12. The body of a task is serialized exactly when the request is not
    binary and has a truthy body, and the content type chosen is
    [application/json] exactly when, moreover, the body is an object; a
    binary request is [application/octet-stream] and a request without body
    [text/plain], both with the body passed on as it is. *)
Theorem body_and_content_type `{Platform} (c : Connection) (o : RequestOptions) :
  let binary := default false (ro_isBinary o) in
  let chosen := fst (content_of binary (ro_body o)) in
  ((exists s, body (options (request_task c o)) = Serialized s)
   <-> binary = false /\ ro_body o <> BodyFalsy)
  /\ (chosen = "application/json"
      <-> binary = false /\ exists json, ro_body o = BodyObject json)
  /\ (binary = true ->
      chosen = "application/octet-stream"
      /\ body (options (request_task c o)) = Untouched (ro_body o))
  /\ (binary = false -> ro_body o = BodyFalsy ->
      chosen = "text/plain"
      /\ body (options (request_task c o)) = Untouched BodyFalsy).
Proof.
  intros binary chosen. subst binary chosen. unfold request_task, content_of.
  destruct (default false (ro_isBinary o)), (ro_body o) as [|json|text]; simpl;
    split_and!; try done;
    try (split; [by intros [? ?] | by intros [? ?]]);
    try (split; [done | by intros [_ [? ?]]]);
    try (split; [done | by intros [? ?]]).
  all: try (split; [intros _; split; [done | by eexists] | done]).
  all: try (split; [intros _; split; done | intros _; by eexists]).
Qed.

Lemma body_and_content_type_witness :
  let c := new_Connection (H := example_platform) (example_config NONE three_hosts)
             no_draw no_draw in
  fst (content_of (default false (ro_isBinary upload)) (ro_body upload)) = "application/json".
Proof.
  intros c.
  apply (proj2 (proj1 (proj2 (@body_and_content_type example_platform c upload)))).
  split; [reflexivity | by eexists].
Defined.

Lemma clean_keeps_defined_witness :
  ("a", "1") ∈ clean [("a", Some "1"); ("b", None)].
Proof.
  apply (proj2 (proj2 (clean_keeps_defined [("a", Some "1"); ("b", None)]) "a" "1")).
  apply list_elem_of_here.
Defined.

(** ** More on the host list *)

Section Invariants.
Context `{Platform}.

(** A property of connections that no field update outside the host list
    disturbs and that [addToHostList] keeps holds in every state reached. *)
Lemma reachable_invariant (P : Connection -> Prop) :
  (forall c q, P c -> P (set_queue c q)) ->
  (forall c n, P c -> P (set_activeTasks c n)) ->
  (forall c h, P c -> P (set_activeHost c h)) ->
  (forall c h, P c -> P (set_activeDirtyHost c h)) ->
  (forall c hd, P c -> P (set_headers c hd)) ->
  (forall c t, P c -> P (set_transactionId c t)) ->
  (forall c urls, P c -> P (addToHostList c urls).1) ->
  forall c0 c, P c0 -> reachable_from c0 c -> P c.
Proof.
  intros Hq Hn Ha Hd Hh Ht Hadd.
  assert (forall c c1 t h, P c -> select c = Some (c1, t, h) -> P c1) as Hsel.
  { intros c c1 t h Hc. unfold select.
    repeat case_match; intros ?; simplify_eq; auto. }
  assert (forall c t h o, P c -> P (callback_handle c t h o).1) as Hcb.
  { intros c t h o Hc. unfold callback_handle.
    destruct o as [err|res].
    - repeat case_match; cbn [fst]; auto.
    - destruct (leader_endpoint res) as [u|]; cbn [fst]; [|auto].
      pose proof (Hadd _ [u] (Hn c (_activeTasks c - 1)%Z Hc)) as Hc2.
      destruct (addToHostList _ [u]) as [c2 idx]. cbn [fst] in *.
      case_match; cbn [fst]; auto. }
  assert (forall fuel c c' s calls, P c -> _runQueue fuel c = Some (c', s, calls) -> P c')
    as Hrun.
  { induction fuel as [|fuel IH]; intros c c' s calls Hc; rewrite _runQueue_unfold;
      destruct (select c) as [[[c1 t] h]|] eqn:Hs; try (intros ?; by simplify_eq);
      pose proof (Hsel _ _ _ _ Hc Hs) as Hc1;
      destruct (js_at (_hosts c1) h); try (intros ?; by simplify_eq).
    pose proof (Hcb c1 t h (Failure not_a_function) Hc1) as Hc2.
    destruct (callback_handle c1 t h (Failure not_a_function)) as [c2 call].
    destruct (_runQueue fuel c2) as [[[c3 s3] calls3]|] eqn:Hr; [|done].
    intros ?; simplify_eq. by eapply IH. }
  intros c0 c H0.
  induction 1 as [|c o c' s calls _ IH Hr|c t h o c' s calls _ IH Hc
                  |c urls _ IH|c name v _ IH|c id _ IH|c _ IH].
  - done.
  - unfold request, runQueue in Hr. eapply Hrun; [|exact Hr]. auto.
  - unfold callback in Hc.
    pose proof (Hcb c t h o IH) as Hc1.
    destruct (callback_handle c t h o) as [c1 call].
    destruct (runQueue c1) as [[[c2 s2] calls2]|] eqn:Hr; [|done].
    simplify_eq. by eapply Hrun.
  - auto.
  - destruct v; simpl; auto.
  - unfold setTransactionId. auto.
  - unfold clearTransactionId. auto.
Qed.

Lemma addToHostList_extends c urls :
  exists extra,
    _urls (addToHostList c urls).1 = _urls c ++ extra
    /\ _hosts (addToHostList c urls).1
       = _hosts c ++ map (fun u => createRequest u (_agentOptions c) (_agent c)) extra
    /\ forall x, x ∈ extra -> (x ∉ _urls c) /\ exists u, u ∈ urls /\ x = sanitizeUrl u.
Proof.
  unfold addToHostList. simpl. eexists. split; [reflexivity|]. split; [reflexivity|].
  intros x Hx. apply list_elem_of_In, filter_In in Hx as [Hx Hnew]. split.
  - by apply indexOf_absent, Z.eqb_eq.
  - apply list_elem_of_In, list_elem_of_fmap in Hx as (u & -> & Hu). by exists u.
Qed.

Lemma addToHostList_aligned c urls : aligned c -> aligned (addToHostList c urls).1.
Proof.
  unfold aligned. intros Hc.
  destruct (addToHostList_extends c urls) as (extra & -> & -> & _).
  rewrite map_app, Hc. f_equal. rewrite map_map. simpl. apply map_id.
Qed.

Lemma reachable_aligned c0 c : aligned c0 -> reachable_from c0 c -> aligned c.
Proof.
  apply (reachable_invariant aligned); try done. apply addToHostList_aligned.
Qed.

Lemma new_Connection_aligned config d1 d2 : aligned (new_Connection config d1 d2).
Proof.
  unfold new_Connection.
  destruct (cfg_maxRetries config) as [[|n]|];
    match goal with
    | |- context [addToHostList ?c0 ?urls] =>
        pose proof (addToHostList_aligned c0 urls eq_refl) as Ha;
        destruct (addToHostList c0 urls) as [c1 idx]
    end; simpl in *; by case_decide.
Qed.

Lemma reachable_grows c0 c :
  reachable_from c0 c -> _urls c0 `prefix_of` _urls c /\ _hosts c0 `prefix_of` _hosts c.
Proof.
  apply (reachable_invariant
           (fun c => _urls c0 `prefix_of` _urls c /\ _hosts c0 `prefix_of` _hosts c));
    try done.
  intros c' urls [Hu Hh].
  destruct (addToHostList_extends c' urls) as (extra & -> & -> & _).
  split; by apply prefix_app_r.
Qed.

End Invariants.

(** X13. For each URL handed to [addToHostList] the call returns, at the
    same position, the index of the first occurrence of the normalized URL
    in the list of URLs as it is after the call; when transports and URLs
    are aligned, the transport at that index is the one created for that
    URL. *)
Theorem host_list_returns_indices `{Platform} (c : Connection) (urls : list string)
    (k : nat) (u : string) :
  urls !! k = Some u ->
  exists i : nat,
    (addToHostList c urls).2 !! k = Some (Z.of_nat i)
    /\ length (addToHostList c urls).2 = length urls
    /\ _urls (addToHostList c urls).1 !! i = Some (sanitizeUrl u)
    /\ (forall j : nat, (j < i)%nat ->
          _urls (addToHostList c urls).1 !! j <> Some (sanitizeUrl u))
    /\ (aligned c ->
        exists transport,
          js_at (_hosts (addToHostList c urls).1) (Num (Z.of_nat i)) = Some transport
          /\ rf_url transport = sanitizeUrl u).
Proof.
  intros Hk. destruct (addToHostList_indices c urls k u Hk) as (i & Hi & Hu & Hfirst).
  exists i. split_and!; try done.
  - unfold addToHostList. simpl. by rewrite !length_map.
  - intros Ha%(addToHostList_aligned c urls). unfold aligned in Ha.
    rewrite <- Ha, list_lookup_fmap in Hu.
    destruct (_hosts (addToHostList c urls).1 !! i) as [rf|] eqn:Hrf; [|done].
    exists rf. simpl in Hu. split; [|congruence].
    unfold js_at. replace (0 <=? Z.of_nat i)%Z with true by (symmetry; apply Z.leb_le; lia).
    by rewrite Nat2Z.id.
Qed.

Lemma host_list_returns_indices_witness :
  let c := new_Connection (H := example_platform) (example_config NONE three_hosts)
             no_draw no_draw in
  exists i : nat,
    (addToHostList (H := example_platform) c
       ["http://h3:8529"; "http://h4:8529"]).2 !! 1%nat = Some (Z.of_nat i)
    /\ length (addToHostList (H := example_platform) c
                 ["http://h3:8529"; "http://h4:8529"]).2 = 2%nat
    /\ _urls (addToHostList (H := example_platform) c
                ["http://h3:8529"; "http://h4:8529"]).1 !! i = Some "http://h4:8529"
    /\ (forall j : nat, (j < i)%nat ->
          _urls (addToHostList (H := example_platform) c
                   ["http://h3:8529"; "http://h4:8529"]).1 !! j <> Some "http://h4:8529")
    /\ (aligned c ->
        exists transport,
          js_at (_hosts (addToHostList (H := example_platform) c
                           ["http://h3:8529"; "http://h4:8529"]).1) (Num (Z.of_nat i))
          = Some transport
          /\ rf_url transport = "http://h4:8529").
Proof.
  intros c.
  apply (@host_list_returns_indices example_platform c
           ["http://h3:8529"; "http://h4:8529"] 1%nat "http://h4:8529").
  reflexivity.
Defined.

(** X14. Adding URLs whose normalized forms are all in the list already
    changes neither the URLs nor the transports, and returns for each the
    index it has. *)
Theorem host_list_known_urls `{Platform} (c : Connection) (urls : list string) :
  (forall u, u ∈ urls -> sanitizeUrl u ∈ _urls c) ->
  _urls (addToHostList c urls).1 = _urls c
  /\ _hosts (addToHostList c urls).1 = _hosts c
  /\ (addToHostList c urls).2 = map (fun u => indexOf (_urls c) (sanitizeUrl u)) urls
  /\ Forall (fun i => (0 <= i < Z.of_nat (length (_urls c)))%Z) (addToHostList c urls).2.
Proof.
  intros Hknown. destruct (addToHostList_known c urls Hknown) as (Hu & Hh & Hidx).
  split_and!; try done. rewrite Hidx. apply Forall_fmap, Forall_forall.
  intros u Hin. simpl.
  destruct (indexOf_present _ _ (Hknown u Hin)) as (i & -> & Hi%lookup_lt_Some & _). lia.
Qed.

Lemma host_list_known_urls_witness :
  let c := new_Connection (H := example_platform) (example_config NONE three_hosts)
             no_draw no_draw in
  _urls (addToHostList (H := example_platform) c ["http://h2:8529"]).1 = _urls c
  /\ _hosts (addToHostList (H := example_platform) c ["http://h2:8529"]).1 = _hosts c
  /\ (addToHostList (H := example_platform) c ["http://h2:8529"]).2
     = map (fun u => indexOf (_urls c) u) ["http://h2:8529"]
  /\ Forall (fun i => (0 <= i < Z.of_nat (length (_urls c)))%Z)
            (addToHostList (H := example_platform) c ["http://h2:8529"]).2.
Proof.
  intros c.
  apply (@host_list_known_urls example_platform c ["http://h2:8529"]).
  intros u ->%list_elem_of_singleton. vm_compute.
  apply list_elem_of_further, list_elem_of_here.
Defined.

(** X15. The host list only grows at its end: in every state a connection
    reaches, the URLs and transports it started with are still there, at
    the same indices, and what [addToHostList] appends are normalized input
    URLs that were not in the list, each with a transport created from the
    connection's agent settings. *)
Theorem host_list_is_append_only `{Platform} :
  (forall c urls,
     exists extra,
       _urls (addToHostList c urls).1 = _urls c ++ extra
       /\ _hosts (addToHostList c urls).1
          = _hosts c ++ map (fun u => createRequest u (_agentOptions c) (_agent c)) extra
       /\ forall x, x ∈ extra -> (x ∉ _urls c) /\ exists u, u ∈ urls /\ x = sanitizeUrl u)
  /\ (forall c0 c (i : nat) u transport,
        reachable_from c0 c ->
        (_urls c0 !! i = Some u -> _urls c !! i = Some u)
        /\ (_hosts c0 !! i = Some transport -> _hosts c !! i = Some transport)).
Proof.
  split; [apply addToHostList_extends|].
  intros c0 c i u transport Hr.
  apply reachable_grows in Hr as [[ku ->] [kh ->]].
  split; intros Hi; by apply lookup_app_l_Some.
Qed.

Lemma host_list_is_append_only_witness :
  let c0 := new_Connection (H := example_platform) (example_config NONE three_hosts)
              no_draw no_draw in
  let c := (addToHostList (H := example_platform) c0 ["http://h4:8529"]).1 in
  _urls c !! 1%nat = Some "http://h2:8529".
Proof.
  intros c0 c.
  apply (proj1 (proj2 (@host_list_is_append_only example_platform) c0 c 1%nat
                  "http://h2:8529"
                  (createRequest "http://h2:8529" (_agentOptions c0) (_agent c0))
                  (reach_addToHostList c0 c0 ["http://h4:8529"] (reach_here c0)))).
  reflexivity.
Defined.

(** X16. [addToHostList] keeps the list of URLs free of duplicates when it
    was so before and the URLs given are pairwise different once
    normalized. *)
Theorem host_list_stays_duplicate_free `{Platform} (c : Connection)
    (urls : list string) :
  NoDup (_urls c) -> NoDup (map sanitizeUrl urls) ->
  NoDup (_urls (addToHostList c urls).1).
Proof. apply addToHostList_NoDup. Qed.

Lemma host_list_stays_duplicate_free_witness :
  let c := new_Connection (H := example_platform) (example_config NONE three_hosts)
             no_draw no_draw in
  NoDup (_urls (addToHostList (H := example_platform) c
                  ["http://h3:8529"; "http://h4:8529"]).1).
Proof.
  intros c.
  apply (@host_list_stays_duplicate_free example_platform c
           ["http://h3:8529"; "http://h4:8529"]).
  - apply (bool_decide_unpack _). by vm_compute.
  - apply (bool_decide_unpack _). by vm_compute.
Defined.

(** X17. In every state reached from the constructor there is one transport
    per URL, the transport at an index being the one created for the URL at
    that index. *)
Theorem transports_match_urls `{Platform} (config : Config) (d1 d2 : Draw)
    (c : Connection) :
  reachable_from (new_Connection config d1 d2) c ->
  map rf_url (_hosts c) = _urls c
  /\ length (_hosts c) = length (_urls c)
  /\ forall (i : nat) u,
       _urls c !! i = Some u -> exists transport,
         _hosts c !! i = Some transport /\ rf_url transport = u.
Proof.
  intros Hr.
  pose proof (reachable_aligned _ _ (new_Connection_aligned config d1 d2) Hr) as Ha.
  unfold aligned in Ha. split; [done|]. split.
  - by rewrite <- Ha, length_map.
  - intros i u. rewrite <- Ha, list_lookup_fmap.
    destruct (_hosts c !! i) as [rf|]; simpl; [|done].
    intros [= <-]. by exists rf.
Qed.

Lemma transports_match_urls_witness :
  let c0 := new_Connection (H := example_platform) (example_config NONE three_hosts)
              no_draw no_draw in
  let c := (addToHostList (H := example_platform) c0 ["http://h4:8529"]).1 in
  map rf_url (_hosts c) = _urls c
  /\ length (_hosts c) = length (_urls c)
  /\ forall (i : nat) u,
       _urls c !! i = Some u -> exists transport,
         _hosts c !! i = Some transport /\ rf_url transport = u.
Proof.
  intros c0 c.
  apply (@transports_match_urls example_platform (example_config NONE three_hosts)
           no_draw no_draw c).
  apply reach_addToHostList, reach_here.
Defined.

(** ** Counting tasks *)

Section Counting.
Context `{Platform}.

(** The callback takes the task out of the transport and either queues it
    or calls its sink. *)
Lemma callback_handle_count c t h o :
  length (_queue (callback_handle c t h o).1)
  + length (option_list (callback_handle c t h o).2)
  = S (length (_queue c))
  /\ _activeTasks (callback_handle c t h o).1 = (_activeTasks c - 1)%Z
  /\ _maxTasks (callback_handle c t h o).1 = _maxTasks c.
Proof.
  unfold callback_handle, addToHostList.
  repeat case_match; simplify_eq; simpl; rewrite ?length_app; simpl; split_and!;
    try done; lia.
Qed.

Lemma select_count c c1 t h :
  select c = Some (c1, t, h) ->
  length (_queue c) = S (length (_queue c1))
  /\ _activeTasks c1 = (_activeTasks c + 1)%Z
  /\ _maxTasks c1 = _maxTasks c
  /\ (_activeTasks c < _maxTasks c)%Z.
Proof.
  intros Hs. pose proof (select_policy _ _ _ _ Hs) as (_ & _ & _ & _ & Hmax).
  apply select_inv in Hs as (t0 & Hq & Hcap & Hact & _). rewrite Hq. done.
Qed.

Lemma _runQueue_count fuel c c' s calls :
  _runQueue fuel c = Some (c', s, calls) ->
  length (_queue c) = (length (_queue c') + length (option_list s) + length calls)%nat
  /\ _activeTasks c' = (_activeTasks c + Z.of_nat (length (option_list s)))%Z
  /\ _maxTasks c' = _maxTasks c
  /\ (s <> None -> (_activeTasks c' <= _maxTasks c')%Z).
Proof.
  revert c c' s calls.
  induction fuel as [|fuel IH]; intros c c' s calls; rewrite _runQueue_unfold;
    destruct (select c) as [[[c1 t] h]|] eqn:Hs;
    try (intros ?; simplify_eq; simpl; split_and!; [lia | lia | done | done]);
    destruct (select_count _ _ _ _ Hs) as (Hq & Hact & Hmax & Hcap);
    destruct (js_at (_hosts c1) h);
    try (intros ?; simplify_eq; simpl; split_and!; [lia | lia | done | intros _; lia]);
    try done.
  pose proof (callback_handle_count c1 t h (Failure not_a_function)) as (Hq2 & Hact2 & Hmax2).
  destruct (type_error_handled c1 t h) as (c2 & Hcb & _).
  rewrite Hcb in *. simpl in Hq2, Hact2, Hmax2.
  destruct (_runQueue fuel c2) as [[[c3 s3] calls3]|] eqn:Hr; [|done].
  intros ?; simplify_eq.
  destruct (IH _ _ _ _ Hr) as (Hq3 & Hact3 & Hmax3 & Hcap3).
  simpl. split_and!; [lia | lia | congruence | done].
Qed.

(** What a run does to the number of tasks in each place. *)
Lemma run_count events p p' :
  run p events = Some p' ->
  (length (_queue (conn p')) + length (inflight p') + length (settled p')
   = length (_queue (conn p)) + length (inflight p) + length (settled p)
     + length (submissions events))%nat
  /\ (_activeTasks (conn p') - Z.of_nat (length (inflight p'))
      = _activeTasks (conn p) - Z.of_nat (length (inflight p)))%Z
  /\ _maxTasks (conn p') = _maxTasks (conn p)
  /\ (within_capacity (conn p) -> within_capacity (conn p')).
Proof.
  revert p. induction events as [|e events IH]; intros p; simpl.
  - intros [= <-]. split_and!; [lia | lia | done | done].
  - destruct (step p e) as [p1|] eqn:Hstep; [|done]. intros Hrun.
    destruct (IH _ Hrun) as (Hn & Ha & Hm & Hc).
    assert ((length (_queue (conn p1)) + length (inflight p1) + length (settled p1)
             = length (_queue (conn p)) + length (inflight p) + length (settled p)
               + length (submissions [e]))%nat
            /\ (_activeTasks (conn p1) - Z.of_nat (length (inflight p1))
                = _activeTasks (conn p) - Z.of_nat (length (inflight p)))%Z
            /\ _maxTasks (conn p1) = _maxTasks (conn p)
            /\ (within_capacity (conn p) -> within_capacity (conn p1)))
      as (Hn1 & Ha1 & Hm1 & Hc1).
    { clear IH Hrun Hn Ha Hm Hc. unfold within_capacity.
      destruct e as [o|i outcome]; simpl in Hstep.
      - unfold request, runQueue in Hstep.
        destruct (_runQueue _ _) as [[[c1 s] calls]|] eqn:Hr; [|done].
        simpl in Hstep. injection Hstep as <-.
        apply _runQueue_count in Hr as (Hq & Hact & Hmax & Hcap). simpl in *.
        rewrite length_app in Hq. simpl in Hq.
        rewrite !length_app, length_map.
        split_and!; [lia | lia | done |].
        intros Hle. destruct s; [by apply Hcap | simpl in *; lia].
      - destruct (inflight p !! i) as [[t h]|] eqn:Hi.
        + unfold callback in Hstep.
          pose proof (callback_handle_count (conn p) t h outcome) as (Hq0 & Hact0 & Hmax0).
          destruct (callback_handle (conn p) t h outcome) as [c1 call].
          unfold runQueue in Hstep.
          destruct (_runQueue _ c1) as [[[c2 s] calls]|] eqn:Hr; [|done].
          simpl in Hstep. injection Hstep as <-.
          apply _runQueue_count in Hr as (Hq & Hact & Hmax & Hcap). simpl in *.
          apply lookup_lt_Some in Hi as Hlt.
          rewrite !length_app, length_map, length_app, length_delete by (by eexists).
          split_and!; [lia | lia | congruence |].
          intros Hle. destruct s; [by apply Hcap | simpl in *; lia].
        + injection Hstep as <-. simpl. split_and!; [lia | lia | done | done]. }
    simpl in Hn1. split_and!; [| lia | congruence | auto].
    destruct e; simpl in *; lia.
Qed.



Lemma run_reachable events p p' :
  run p events = Some p' -> reachable_from (conn p) (conn p').
Proof.
  revert p. induction events as [|e events IH]; intros p; simpl.
  - intros [= <-]. apply reach_here.
  - destruct (step p e) as [p1|] eqn:Hstep; [|done]. intros Hrun.
    specialize (IH _ Hrun).
    assert (reachable_from (conn p) (conn p1)) as H1.
    { destruct e as [o|i outcome]; simpl in Hstep.
      - destruct (request (conn p) o) as [[[c1 s] calls]|] eqn:Hr; [|done].
        simpl in Hstep. injection Hstep as <-. simpl.
        eapply reach_request; [apply reach_here | exact Hr].
      - destruct (inflight p !! i) as [[t h]|].
        + destruct (callback (conn p) t h outcome) as [[[c1 s] calls]|] eqn:Hr; [|done].
          simpl in Hstep. injection Hstep as <-. simpl.
          eapply reach_callback; [apply reach_here | exact Hr].
        + injection Hstep as <-. apply reach_here. }
    clear Hstep Hrun. induction IH; eauto using reachable_from.
Qed.

End Counting.

Section Idle.
Context `{Platform}.

(** What the constructor leaves: nothing queued, nothing active, and room
    for at least one request unless [maxSockets] is negative. *)
Lemma new_Connection_idle config d1 d2 :
  _queue (new_Connection config d1 d2) = []
  /\ _activeTasks (new_Connection config d1 d2) = 0%Z
  /\ ((forall o n, cfg_agentOptions config = Some o -> maxSockets o = Some n -> (0 <= n)%Z) ->
      (0 < _maxTasks (new_Connection config d1 d2))%Z).
Proof.
  unfold new_Connection.
  destruct (cfg_maxRetries config) as [[|r]|]; case_decide; simpl.
  all: split; [done|]; split; [done|]; intros Hpos.
  all: destruct (cfg_agentOptions config) as [[ms ka km]|]; simpl;
    [ assert (forall n, ms = Some n -> (0 <= n)%Z) as Hms
        by (intros n ->; by apply (Hpos _ n eq_refl));
      destruct isBrowser, ms as [n|], ka as [[|]|]; simpl; try lia;
      (destruct (Z.eqb_spec n 0); [lia | specialize (Hms n eq_refl); lia])
    | destruct isBrowser; simpl; lia ].
Qed.

End Idle.



(** X19. The number of requests in flight is the connection's count of
    active tasks and never exceeds [maxTasks], along any run on a connection
    that starts with no active task; the constructor leaves such a
    connection, with [maxTasks] positive unless [maxSockets] is negative. *)
Theorem in_flight_is_bounded `{Platform} :
  (forall c events,
     _activeTasks c = 0%Z -> (0 <= _maxTasks c)%Z ->
     exists p,
       run (start c) events = Some p
       /\ _activeTasks (conn p) = Z.of_nat (length (inflight p))
       /\ (Z.of_nat (length (inflight p)) <= _maxTasks c)%Z)
  /\ (forall config d1 d2,
        (forall o n, cfg_agentOptions config = Some o -> maxSockets o = Some n ->
                     (0 <= n)%Z) ->
        _activeTasks (new_Connection config d1 d2) = 0%Z
        /\ (0 < _maxTasks (new_Connection config d1 d2))%Z).
Proof.
  split.
  - intros c events Hact Hmax. destruct (run_total (start c) events) as [p Hrun].
    exists p. split; [done|].
    apply run_count in Hrun as (_ & Ha & Hm & Hc). simpl in Ha, Hm, Hc.
    unfold within_capacity in Hc. split; lia.
  - intros config d1 d2 Hpos.
    destruct (new_Connection_idle config d1 d2) as (_ & Hact & Hmax). auto.
Qed.

Lemma in_flight_is_bounded_witness :
  let c := new_Connection (H := example_platform) (example_config NONE three_hosts)
             no_draw no_draw in
  exists p,
    run (H := example_platform) (start c)
      [Submit (get "/1"); Submit (get "/2"); Submit (get "/3"); Submit (get "/4");
       Submit (get "/5"); Submit (get "/6"); Submit (get "/7")] = Some p
    /\ _activeTasks (conn p) = Z.of_nat (length (inflight p))
    /\ (Z.of_nat (length (inflight p)) <= _maxTasks c)%Z.
Proof.
  intros c.
  apply (proj1 (@in_flight_is_bounded example_platform) c).
  - reflexivity.
  - vm_compute. discriminate.
Defined.



(** X21. The load-balancing strategy, the failover and retry settings and
    [maxTasks] are what the constructor made of the configuration, in every
    state the connection reaches: no method and no callback changes them. *)
Theorem settings_are_fixed_at_construction `{Platform} (config : Config) (d1 d2 : Draw)
    (c : Connection) :
  reachable_from (new_Connection config d1 d2) c ->
  _loadBalancingStrategy c = default NONE (cfg_loadBalancingStrategy config)
  /\ _useFailOver c
     = negb (bool_decide (default NONE (cfg_loadBalancingStrategy config) = ROUND_ROBIN))
  /\ _shouldRetry c = match cfg_maxRetries config with
                      | Some RetriesFalse => false
                      | _ => true
                      end
  /\ _maxRetries c = match cfg_maxRetries config with
                     | Some (RetriesNumber n) => n
                     | _ => 0%Z
                     end
  /\ _maxTasks c = _maxTasks (new_Connection config d1 d2).
Proof.
  intros (Hs & Hf & Hr & Hm & Ht)%reachable_policy.
  destruct (new_Connection_policy config d1 d2) as (Hs0 & Hf0 & Hr0 & Hm0).
  rewrite Hs, Hf, Hr, Hm, Ht, Hf0, Hs0. done.
Qed.

Lemma settings_are_fixed_at_construction_witness :
  let c0 := new_Connection (H := example_platform)
              (example_config ONE_RANDOM three_hosts) no_draw no_draw in
  let c := setHeader c0 "x" (Some "y") in
  _loadBalancingStrategy c = ONE_RANDOM
  /\ _useFailOver c = true
  /\ _shouldRetry c = true
  /\ _maxRetries c = 0%Z
  /\ _maxTasks c = _maxTasks c0.
Proof.
  intros c0 c.
  apply (@settings_are_fixed_at_construction example_platform
           (example_config ONE_RANDOM three_hosts) no_draw no_draw c).
  apply reach_setHeader, reach_here.
Defined.

(** X22. A connection built from at least one URL, with draws of
    [Math.random()] in [0, 1), has both cursors inside the host list in
    every state it reaches, so the host either cursor names has a
    transport. *)
Theorem cursors_stay_in_range `{Platform} (config : Config) (d1 d2 : Draw)
    (c : Connection) :
  cfg_url config <> Some (ManyUrls []) -> valid_draw d1 -> valid_draw d2 ->
  reachable_from (new_Connection config d1 d2) c ->
  cursors_valid c
  /\ is_Some (js_at (_hosts c) (_activeHost c))
  /\ is_Some (js_at (_hosts c) (_activeDirtyHost c)).
Proof.
  intros Hurl Hd1 Hd2 Hr.
  destruct (reachable_healthy _ _ (new_Connection_healthy config d1 d2 Hurl Hd1 Hd2) Hr)
    as [[Ha Hd] _].
  split; [done|]. split; by apply js_at_in_range.
Qed.

Lemma cursors_stay_in_range_witness :
  let c := new_Connection (H := example_platform)
             (example_config ONE_RANDOM three_hosts)
             {| draw_num := 2; draw_den := 3 |} {| draw_num := 1; draw_den := 2 |} in
  cursors_valid c
  /\ is_Some (js_at (_hosts c) (_activeHost c))
  /\ is_Some (js_at (_hosts c) (_activeDirtyHost c)).
Proof.
  intros c.
  apply (@cursors_stay_in_range example_platform (example_config ONE_RANDOM three_hosts)
           {| draw_num := 2; draw_den := 3 |} {| draw_num := 1; draw_den := 2 |} c).
  - discriminate.
  - split; reflexivity || (vm_compute; discriminate).
  - split; reflexivity || (vm_compute; discriminate).
  - apply reach_here.
Defined.

(** ** More on errors *)

Lemma prop_is_spec p s : prop_is p s = true <-> p = Some s.
Proof.
  destruct p as [x|]; simpl; [|done]. rewrite String.eqb_eq.
  split; [by intros -> | by intros [= ->]].
Qed.

Section Errors.
Context `{Platform}.

Lemma retry_eligible_refused c task err :
  retry_eligible c task err = true -> connection_refused err.
Proof.
  unfold retry_eligible, connection_refused.
  rewrite !andb_true_iff, !prop_is_spec. tauto.
Qed.

(** A request for which there is no transport is rejected where it stands. *)
Lemma request_without_transport c o :
  _queue c = [] -> (_activeTasks c < _maxTasks c)%Z ->
  js_at (_hosts c)
        (match ro_host o with
         | Some pinned => pinned
         | None => if default false (ro_allowDirtyRead o)
                   then _activeDirtyHost c else _activeHost c
         end) = None ->
  exists c' t,
    request c o = Some (c', None, [(t, CallReject not_a_function)])
    /\ (t = request_task c o
        \/ t = task_set_header (request_task c o) "x-arango-allow-dirty-read" "true")
    /\ _queue c' = [] /\ _activeTasks c' = _activeTasks c
    /\ _hosts c' = _hosts c /\ _urls c' = _urls c.
Proof.
  intros Hq Hcap Hnone. unfold request, runQueue.
  set (t0 := request_task c o).
  assert (host t0 = ro_host o /\ allowDirtyRead t0 = default false (ro_allowDirtyRead o))
    as [Hh Hd] by (subst t0; unfold request_task; by destruct (content_of _ _)).
  set (c1 := set_queue c (_queue c ++ [t0])).
  assert (_queue c1 = [t0]) as Hq1 by (subst c1; simpl; by rewrite Hq).
  rewrite Hq1. simpl length. rewrite _runQueue_unfold.
  destruct (select c1) as [[[c2 t] h]|] eqn:Hs; cycle 1.
  { apply select_None in Hs as [Hs|Hs]; [by rewrite Hq1 in Hs | simpl in Hs; lia]. }
  destruct (select_count _ _ _ _ Hs) as (_ & Hact2 & _).
  apply select_inv in Hs as (t0' & Hq0 & _ & _ & Hhosts & Hurls & Hcase).
  rewrite Hq1 in Hq0. injection Hq0 as <- Hq2. rewrite Hh, Hd in Hcase.
  assert (js_at (_hosts c2) h = None
          /\ (t = t0 \/ t = task_set_header t0 "x-arango-allow-dirty-read" "true"))
    as [-> Ht].
  { rewrite Hhosts. simpl.
    destruct (ro_host o); [|destruct (default false (ro_allowDirtyRead o))];
      destruct Hcase as (-> & -> & _); auto. }
  pose proof (callback_handle_count c2 t h (Failure not_a_function)) as (_ & Hact3 & _).
  destruct (type_error_handled c2 t h) as (c3 & Hcb & Hq3 & _).
  assert (_hosts c3 = _hosts c2 /\ _urls c3 = _urls c2) as [Hh3 Hu3].
  { revert Hcb. unfold callback_handle. rewrite type_error_not_retried.
    intros [= <-]. by case_match. }
  rewrite Hcb in *. simpl in Hact3.
  rewrite runQueue_idle by (apply select_None; left; congruence).
  exists c3, t. simpl. split_and!; try done; try congruence.
  - simpl in Hact2. lia.
  - by rewrite Hh3, Hhosts.
  - by rewrite Hu3, Hurls.
Qed.

End Errors.

(** X23. A transport error that is not a refused connection (not a system
    error, or a syscall other than [connect], or a code other than
    [ECONNREFUSED]: a timeout, say) is never retried: the task's sink is
    called with the error and the queue is left as it was, whatever the
    task and the retry settings. *)
Theorem other_errors_are_not_retried `{Platform} (c : Connection) (task : Task)
    (h : number) (err : JsError) :
  ~ connection_refused err ->
  (callback_handle c task h (Failure err)).2 = Some (task, CallReject err)
  /\ _queue (callback_handle c task h (Failure err)).1 = _queue c.
Proof.
  intros Hnot. pose proof (callback_handle_failure_queue c task h err) as Hq.
  cbv zeta in Hq. destruct (retry_eligible c task err) eqn:E; [|done].
  by apply retry_eligible_refused in E.
Qed.

Lemma other_errors_are_not_retried_witness :
  let c := new_Connection (H := example_platform) (example_config NONE three_hosts)
             no_draw no_draw in
  let task := request_task (H := example_platform) c (get "/_api/version") in
  let timed_out := {| err_system := true; err_syscall := Some "connect";
                      err_code := Some "ETIMEDOUT"; err_message := "timeout" |} in
  (callback_handle (H := example_platform) c task (Num 0) (Failure timed_out)).2
  = Some (task, CallReject timed_out)
  /\ _queue (callback_handle (H := example_platform) c task (Num 0) (Failure timed_out)).1
     = _queue c.
Proof.
  intros c task timed_out.
  apply (@other_errors_are_not_retried example_platform c task (Num 0) timed_out).
  intros (_ & _ & Hcode). discriminate Hcode.
Defined.

(** X24. A task pinned to a host is sent to that host under every strategy,
    and selecting it moves neither cursor; when its pin is an index other
    than 0, any transport error on it goes to the caller and the task is not
    queued again. *)
Theorem pinned_task_stays_on_its_host `{Platform} :
  (forall c c1 t h t0 pinned,
     select c = Some (c1, t, h) -> head (_queue c) = Some t0 -> host t0 = Some pinned ->
     t = t0 /\ h = pinned
     /\ _activeHost c1 = _activeHost c /\ _activeDirtyHost c1 = _activeDirtyHost c)
  /\ (forall c task h err z,
        host task = Some (Num z) -> z <> 0%Z ->
        (callback_handle c task h (Failure err)).2 = Some (task, CallReject err)
        /\ _queue (callback_handle c task h (Failure err)).1 = _queue c).
Proof.
  split; [apply pinned_task_host|].
  intros c task h err z Hpin Hz.
  destruct (pinned_nonzero_rejected c task h err (Num z) Hpin) as (c' & -> & Hq); [|done].
  simpl. by apply negb_true_iff, Z.eqb_neq.
Qed.

Lemma pinned_task_stays_on_its_host_witness :
  let c := new_Connection (H := example_platform)
             (example_config ROUND_ROBIN three_hosts) no_draw no_draw in
  let task := request_task (H := example_platform) c (get_on 2 "/_api/cursor/7") in
  (callback_handle (H := example_platform) c task (Num 2) (Failure refused)).2
  = Some (task, CallReject refused)
  /\ _queue (callback_handle (H := example_platform) c task (Num 2) (Failure refused)).1
     = _queue c.
Proof.
  intros c task.
  apply (proj2 (@pinned_task_stays_on_its_host example_platform) c task (Num 2) refused
           2%Z).
  - reflexivity.
  - discriminate.
Defined.

(** X25. A request on an idle connection for which the host list has no
    transport (a pin outside the list, or an empty list) is rejected at
    once with the [TypeError] of the failed call: nothing is handed to a
    transport, the queue is empty again and the count of active tasks is
    as before. *)
Theorem request_without_transport_is_rejected `{Platform} (c : Connection)
    (o : RequestOptions) :
  _queue c = [] -> (_activeTasks c < _maxTasks c)%Z ->
  js_at (_hosts c)
        (match ro_host o with
         | Some pinned => pinned
         | None => if default false (ro_allowDirtyRead o)
                   then _activeDirtyHost c else _activeHost c
         end) = None ->
  exists p t,
    step (start c) (Submit o) = Some p
    /\ sent p = [] /\ inflight p = []
    /\ settled p = [(t, Rejected (TransportError not_a_function))]
    /\ (t = request_task c o
        \/ t = task_set_header (request_task c o) "x-arango-allow-dirty-read" "true")
    /\ _queue (conn p) = [] /\ _activeTasks (conn p) = _activeTasks c.
Proof.
  intros Hq Hcap Hnone.
  destruct (request_without_transport c o Hq Hcap Hnone)
    as (c' & t & Hr & Ht & Hq' & Hact & _).
  simpl. rewrite Hr. simpl. eexists _, t. split; [reflexivity|]. simpl.
  by split_and!.
Qed.

Lemma request_without_transport_is_rejected_witness :
  let c := new_Connection (H := example_platform) (example_config NONE three_hosts)
             no_draw no_draw in
  exists p t,
    step (H := example_platform) (start c) (Submit (get_on 7 "/_api/cursor/7")) = Some p
    /\ sent p = [] /\ inflight p = []
    /\ settled p = [(t, Rejected (TransportError not_a_function))]
    /\ (t = request_task (H := example_platform) c (get_on 7 "/_api/cursor/7")
        \/ t = task_set_header
                 (request_task (H := example_platform) c (get_on 7 "/_api/cursor/7"))
                 "x-arango-allow-dirty-read" "true")
    /\ _queue (conn p) = [] /\ _activeTasks (conn p) = _activeTasks c.
Proof.
  intros c.
  apply (@request_without_transport_is_rejected example_platform c
           (get_on 7 "/_api/cursor/7")).
  - reflexivity.
  - vm_compute. reflexivity.
  - reflexivity.
Defined.

(** ** Retries and redirects, end to end *)

Section EndToEnd.
Context `{Platform}.

Lemma next_host_frame c c' x : _hosts c' = _hosts c -> next_host c' x = next_host c x.
Proof. intros Hh. unfold next_host. by rewrite Hh. Qed.

(** [_runQueue] on a single unpinned task with room: where it goes and
    where the cursors are afterwards. *)
Lemma runQueue_single_cursors fuel c t0 a d :
  _activeHost c = Num a -> _activeDirtyHost c = Num d ->
  in_range (length (_hosts c)) (Num a) -> in_range (length (_hosts c)) (Num d) ->
  _queue c = [t0] -> host t0 = None -> (_activeTasks c < _maxTasks c)%Z ->
  exists c' t,
    _runQueue fuel c
    = Some (c', Some (t, if allowDirtyRead t0 then Num d else Num a), [])
    /\ _queue c' = [] /\ _activeTasks c' = (_activeTasks c + 1)%Z
    /\ _hosts c' = _hosts c /\ _urls c' = _urls c /\ same_policy c c'
    /\ _activeDirtyHost c' = (if allowDirtyRead t0 then next_host c (Num d) else Num d)
    /\ _activeHost c'
       = (if allowDirtyRead t0 then Num a
          else if decide (_loadBalancingStrategy c = ROUND_ROBIN)
               then next_host c (Num a) else Num a)
    /\ host t = None /\ retries t = retries t0
    /\ allowDirtyRead t = allowDirtyRead t0.
Proof.
  intros Ha Hd Hra Hrd Hq Hpin Hcap.
  destruct (select c) as [[[c1 t] h]|] eqn:Hs; cycle 1.
  { apply select_None in Hs as [Hs|Hs]; [by rewrite Hq in Hs | lia]. }
  pose proof (select_policy _ _ _ _ Hs) as Hpol.
  apply select_inv in Hs as Hinv.
  destruct Hinv as (t0' & Hq0 & _ & Hact & Hhosts & Hurls & Hcase).
  rewrite Hq in Hq0. injection Hq0 as <- Hq1. rewrite Hpin, Ha, Hd in Hcase.
  exists c1, t.
  assert (h = (if allowDirtyRead t0 then Num d else Num a)) as Hh.
  { by destruct (allowDirtyRead t0); destruct Hcase as (_ & -> & _). }
  split.
  { rewrite <- Hh. apply runQueue_sends; [done|]. rewrite Hhosts, Hh.
    destruct (allowDirtyRead t0); by apply js_at_in_range. }
  destruct (allowDirtyRead t0) eqn:Hdirty; destruct Hcase as (-> & _ & Hah & Hdh);
    split_and!; done.
Qed.

Lemma callback_handle_failure_frame c t h err :
  _activeDirtyHost (callback_handle c t h (Failure err)).1 = _activeDirtyHost c
  /\ _hosts (callback_handle c t h (Failure err)).1 = _hosts c
  /\ _urls (callback_handle c t h (Failure err)).1 = _urls c.
Proof. unfold callback_handle. by repeat case_match. Qed.

(** The callback of a redirect, in full. *)
Lemma callback_handle_redirect c task h res u :
  leader_endpoint res = Some u ->
  exists (i : nat) c',
    callback_handle c task h (Success res) = (c', None)
    /\ _urls c' !! i = Some (sanitizeUrl u)
    /\ _queue c' = _queue c ++ [task_with_host task (Some (Num (Z.of_nat i)))]
    /\ _activeTasks c' = (_activeTasks c - 1)%Z.
Proof.
  intros Hl. set (c1 := set_activeTasks c (_activeTasks c - 1)).
  destruct (addToHostList_one c1 u) as (i & Hidx & Hi & _).
  unfold callback_handle. rewrite Hl. fold c1.
  destruct (addToHostList c1 [u]) as [c2 indices] eqn:Hadd. simpl in *. subst indices.
  simpl.
  assert (_queue c2 = _queue c /\ _activeTasks c2 = (_activeTasks c - 1)%Z) as (Hq & Hact).
  { unfold addToHostList in Hadd. by simplify_eq. }
  eexists i, _. split; [reflexivity|].
  destruct (js_strict_eq (_activeHost c2) h); simpl; rewrite Hq; by split_and!.
Qed.

(** The only request in flight is answered by a redirect: it is sent
    again, to the leader. *)
Lemma step_redirect p t h res u :
  inflight p = [(t, h)] -> _queue (conn p) = [] -> healthy (conn p) ->
  (_activeTasks (conn p) <= _maxTasks (conn p))%Z ->
  leader_endpoint res = Some u ->
  exists p' (i : nat) t',
    step p (Complete 0 (Success res)) = Some p'
    /\ inflight p' = [(t', Num (Z.of_nat i))]
    /\ sent p' = sent p ++ [(t', Num (Z.of_nat i))]
    /\ settled p' = settled p
    /\ _queue (conn p') = [] /\ healthy (conn p')
    /\ _activeTasks (conn p') = _activeTasks (conn p)
    /\ _maxTasks (conn p') = _maxTasks (conn p)
    /\ _urls (conn p') !! i = Some (sanitizeUrl u)
    /\ t' = task_with_host t (Some (Num (Z.of_nat i))).
Proof.
  intros Hin Hq Hhealthy Hcap Hl. simpl. rewrite Hin. simpl. unfold callback.
  pose proof (callback_handle_healthy (conn p) t h (Success res) Hhealthy) as Hh1.
  pose proof (callback_handle_policy (conn p) t h (Success res)) as (_ & _ & _ & _ & Hmax1).
  destruct (callback_handle_redirect (conn p) t h res u Hl)
    as (i & c1 & Hcb & Hi & Hq1 & Hact1).
  rewrite Hcb in *. simpl in Hh1, Hmax1. rewrite Hq in Hq1. simpl in Hq1.
  unfold runQueue. rewrite Hq1.
  destruct (select c1) as [[[c2 t2] h2]|] eqn:Hs; cycle 1.
  { apply select_None in Hs as [Hs|Hs]; [by rewrite Hq1 in Hs | lia]. }
  pose proof (select_policy _ _ _ _ Hs) as (_ & _ & _ & _ & Hmax2).
  pose proof (select_healthy _ _ _ _ Hh1 Hs) as Hh2.
  apply select_inv in Hs as Hinv.
  destruct Hinv as (t0 & Hq0 & _ & Hact2 & Hhosts & Hurls & Hcase).
  rewrite Hq1 in Hq0. injection Hq0 as <- Hq2. simpl in Hcase.
  destruct Hcase as (-> & -> & _).
  rewrite (runQueue_sends _ _ _ _ _ Hs).
  2:{ rewrite Hhosts. apply js_at_in_range, in_range_Num.
      apply lookup_lt_Some in Hi. destruct Hh1 as [_ Hlen]. lia. }
  eexists _, i, _. split; [reflexivity|]. simpl.
  split_and!; try done; try congruence; try lia. apply app_nil_r.
Qed.

(** Redirect after redirect. *)
Lemma redirects_run replies p t h :
  inflight p = [(t, h)] -> _queue (conn p) = [] -> healthy (conn p) ->
  (_activeTasks (conn p) <= _maxTasks (conn p))%Z ->
  Forall (fun r => is_Some (leader_endpoint r)) replies ->
  exists p' t' h' new,
    run p (map (fun r => Complete 0 (Success r)) replies) = Some p'
    /\ inflight p' = [(t', h')]
    /\ sent p' = sent p ++ new /\ length new = length replies
    /\ settled p' = settled p
    /\ _queue (conn p') = []
    /\ retries t' = retries t /\ options t' = options t
    /\ forall r u, last replies = Some r -> leader_endpoint r = Some u ->
         exists i : nat, h' = Num (Z.of_nat i) /\ host t' = Some (Num (Z.of_nat i))
                         /\ _urls (conn p') !! i = Some (sanitizeUrl u).
Proof.
  revert p t h. induction replies as [|r replies IH]; intros p t h Hin Hq Hh Hcap Hall.
  - exists p, t, h, []. simpl. rewrite app_nil_r. by split_and!.
  - apply Forall_cons in Hall as [[u Hu] Hall].
    destruct (step_redirect p t h r u Hin Hq Hh Hcap Hu)
      as (p1 & i & t1 & Hstep & Hin1 & Hsent1 & Hset1 & Hq1 & Hh1 & Hact1 & Hmax1 & Hi & Ht1).
    destruct (IH p1 t1 (Num (Z.of_nat i)) Hin1 Hq1 Hh1) as
      (p' & t' & h' & new & Hrun & Hin' & Hsent' & Hlen & Hset' & Hq' & Hret & Hopt & Hlast);
      [lia | done |].
    exists p', t', h', ((t1, Num (Z.of_nat i)) :: new).
    cbn [map run]. rewrite Hstep.
    split_and!; try done.
    + by rewrite Hsent', Hsent1, <- app_assoc.
    + simpl. by rewrite Hlen.
    + congruence.
    + by rewrite Hret, Ht1.
    + by rewrite Hopt, Ht1.
    + intros r' u' Hr' Hu'. destruct replies as [|r2 replies].
      * simpl in Hr', Hrun. simplify_eq. exists i.
        rewrite Hin1 in Hin'. by simplify_eq.
      * apply (Hlast r' u'); [|done]. by rewrite last_cons_cons in Hr'.
Qed.

End EndToEnd.

(** X26. Leader redirects are followed without limit and without touching
    the retry counter: a request on an idle connection that is answered by
    one 503 naming a leader after another is sent again each time, to the
    index of the leader just named, and its promise stays pending. *)
Theorem redirects_are_followed_without_limit `{Platform} (c : Connection)
    (o : RequestOptions) (replies : list (Response RawBody)) :
  healthy c -> _queue c = [] -> (_activeTasks c < _maxTasks c)%Z -> ro_host o = None ->
  Forall (fun r => is_Some (leader_endpoint r)) replies ->
  exists p t h,
    run (start c) (Submit o :: map (fun r => Complete 0 (Success r)) replies) = Some p
    /\ length (sent p) = S (length replies)
    /\ settled p = [] /\ inflight p = [(t, h)] /\ _queue (conn p) = []
    /\ retries t = 0%Z
    /\ forall r u, last replies = Some r -> leader_endpoint r = Some u ->
         exists i : nat, h = Num (Z.of_nat i) /\ host t = Some (Num (Z.of_nat i))
                         /\ _urls (conn p) !! i = Some (sanitizeUrl u).
Proof.
  intros Hh Hq Hcap Hpin Hall.
  destruct (step_submit_idle (start c) o)
    as (p1 & t1 & h1 & Hs1 & Hin1 & Hsent1 & Hset1 & Hq1 & Hact1 & _ & Hpol1 & _
        & _ & Hret1 & _); try done; [apply Hh|].
  simpl in Hin1, Hsent1, Hset1, Hact1, Hpol1.
  pose proof Hpol1 as (_ & _ & _ & _ & Hmax1).
  assert (healthy (conn p1)) as Hh1.
  { apply (reachable_healthy c); [done|].
    apply (run_reachable [Submit o] (start c) p1). by rewrite (run_cons _ _ _ _ Hs1). }
  destruct (redirects_run replies p1 t1 h1 Hin1 Hq1 Hh1)
    as (p' & t' & h' & new & Hrun & Hin' & Hsent' & Hlen & Hset' & Hq' & Hret & _ & Hlast);
    [lia | done |].
  exists p', t', h'. rewrite (run_cons _ _ _ _ Hs1).
  split_and!; try done; try congruence.
  rewrite Hsent', Hsent1, length_app. simpl. lia.
Qed.

Lemma redirects_are_followed_without_limit_witness :
  let c := new_Connection (H := example_platform) (example_config NONE three_hosts)
             no_draw no_draw in
  let replies := [redirect_reply "http://h4:8529"; redirect_reply "http://h2:8529";
                  redirect_reply "http://h4:8529"] in
  exists p t h,
    run (H := example_platform) (start c)
      (Submit (get "/_api/document/c")
       :: map (fun r => Complete 0 (Success r)) replies) = Some p
    /\ length (sent p) = S (length replies)
    /\ settled p = [] /\ inflight p = [(t, h)] /\ _queue (conn p) = []
    /\ retries t = 0%Z
    /\ forall r u, last replies = Some r -> leader_endpoint r = Some u ->
         exists i : nat, h = Num (Z.of_nat i) /\ host t = Some (Num (Z.of_nat i))
                         /\ _urls (conn p) !! i = Some u.
Proof.
  intros c replies.
  apply (@redirects_are_followed_without_limit example_platform c
           (get "/_api/document/c") replies).
  - split; [|reflexivity].
    split; exists 0%Z; split; [reflexivity | vm_compute; split; [discriminate | reflexivity]
                              | reflexivity | vm_compute; split; [discriminate | reflexivity]].
  - reflexivity.
  - vm_compute. reflexivity.
  - reflexivity.
  - repeat (apply Forall_cons_2 || apply Forall_nil_2); by eexists.
Defined.

(** X27. When the first attempt of an unpinned request on an idle
    connection fails with a refused connection and a retry is allowed, the
    second attempt goes to the host after the one tried first (cyclically),
    under every strategy and for dirty reads as well, and the promise is
    still pending. *)
Theorem retry_goes_to_the_next_host `{Platform} (c : Connection) (o : RequestOptions)
    (err : JsError) :
  cursors_valid c -> _queue c = [] -> (_activeTasks c < _maxTasks c)%Z ->
  ro_host o = None ->
  _useFailOver c = negb (bool_decide (_loadBalancingStrategy c = ROUND_ROBIN)) ->
  _shouldRetry c = true -> (0 < retry_limit c)%Z -> connection_refused err ->
  exists p t t' h,
    run (start c) [Submit o; Complete 0 (Failure err)] = Some p
    /\ h = (if default false (ro_allowDirtyRead o)
            then _activeDirtyHost c else _activeHost c)
    /\ sent p = [(t, h); (t', next_host c h)]
    /\ inflight p = [(t', next_host c h)]
    /\ settled p = []
    /\ retries t' = 1%Z.
Proof.
  intros [Hva Hvd] Hq Hcap Hpin Hfail Hsr Hlim Href.
  assert (exists a, _activeHost c = Num a /\ in_range (length (_hosts c)) (Num a))
    as (a & Ha & Hra).
  { destruct Hva as (a & Ha & Hra). exists a. split; [done|]. by exists a. }
  assert (exists d, _activeDirtyHost c = Num d /\ in_range (length (_hosts c)) (Num d))
    as (d & Hd & Hrd).
  { destruct Hvd as (d & Hd & Hrd). exists d. split; [done|]. by exists d. }
  pose proof (proj1 (in_range_Num _ _) Hra) as Hra'.
  set (t0 := request_task c o).
  assert (host t0 = None /\ retries t0 = 0%Z
          /\ allowDirtyRead t0 = default false (ro_allowDirtyRead o)) as (Hh0 & Hr0 & Hd0).
  { subst t0. unfold request_task. by destruct (content_of _ _). }
  set (c1 := set_queue c (_queue c ++ [t0])).
  destruct (runQueue_single_cursors (length (_queue c1)) c1 t0 a d)
    as (c2 & t & Hrun1 & Hq2 & Hact2 & Hhosts2 & _ & Hpol2 & Hdc2 & Hac2 & Hpin2 & Hret2
        & Hdirty2); try done.
  { subst c1. simpl. by rewrite Hq. }
  change (_hosts c1) with (_hosts c) in *.
  change (_loadBalancingStrategy c1) with (_loadBalancingStrategy c) in *.
  change (_activeTasks c1) with (_activeTasks c) in *.
  rewrite !(next_host_frame c c1) in * by done.
  rewrite Hd0 in *.
  set (h := if default false (ro_allowDirtyRead o) then Num d else Num a) in *.
  destruct Hpol2 as (Hstrat2 & Hfo2 & Hsr2 & Hmr2 & Hmax2). simpl in Hstrat2, Hfo2, Hsr2, Hmr2, Hmax2.
  (* the failure *)
  pose proof (callback_handle_failure_queue c2 t h err) as Hfq. cbv zeta in Hfq.
  pose proof (callback_handle_failure_cursor c2 t h err) as Hfc.
  pose proof (callback_handle_failure_frame c2 t h err) as (Hfd & Hfh & _).
  pose proof (callback_handle_count c2 t h (Failure err)) as (_ & Hfa & Hfm).
  pose proof (callback_handle_policy c2 t h (Failure err)) as (Hstrat3 & _).
  rewrite retry_eligible_spec in Hfq by (done || congruence).
  assert (retry_limit c2 = retry_limit c) as Hlim2.
  { unfold retry_limit. by rewrite Hmr2, Hhosts2. }
  replace (retries t <? retry_limit c2)%Z with true in Hfq
    by (symmetry; apply Z.ltb_lt; lia).
  destruct (callback_handle c2 t h (Failure err)) as [c3 call] eqn:Hcb.
  simpl in Hfq, Hfc, Hfd, Hfh, Hfa, Hfm, Hstrat3. destruct Hfq as [-> Hq3].
  rewrite Hq2 in Hq3. simpl in Hq3.
  assert (_activeHost c3 = (if default false (ro_allowDirtyRead o)
                            then Num a else next_host c (Num a))) as Hac3.
  { rewrite Hfc. unfold failover_applies. rewrite Hdirty2, Hfo2, Hfail, Hhosts2, Hac2.
    destruct (default false (ro_allowDirtyRead o)); simpl; [done|].
    subst h. rewrite (next_host_frame c c2) by done.
    case_decide as Hrr.
    - rewrite bool_decide_true by done. simpl. by rewrite andb_false_r.
    - rewrite bool_decide_false by done. simpl. rewrite Z.eqb_refl, !andb_true_r.
      destruct (1 <? Z.of_nat (length (_hosts c)))%Z eqn:Hn; [done|].
      apply Z.ltb_ge in Hn. assert (a = 0%Z) as -> by lia.
      unfold next_host, js_length. simpl.
      assert (Z.of_nat (length (_hosts c)) = 1%Z) as -> by lia. done. }
  destruct (next_host_in_range c a) as [Hna Hnra]; [done|].
  destruct (next_host_in_range c d) as [Hnd Hnrd]; [done|].
  set (a3 := if default false (ro_allowDirtyRead o)
             then a else ((a + 1) mod Z.of_nat (length (_hosts c)))%Z).
  set (d3 := if default false (ro_allowDirtyRead o)
             then ((d + 1) mod Z.of_nat (length (_hosts c)))%Z else d).
  destruct (runQueue_single_cursors (length (_queue c3)) c3
              (task_with_retries t (retries t + 1)) a3 d3)
    as (c4 & t' & Hrun2 & Hq4 & _ & _ & _ & _ & _ & _ & _ & Hret4 & _); try done.
  { rewrite Hac3. subst a3. destruct (default false (ro_allowDirtyRead o)); congruence. }
  { rewrite Hfd, Hdc2. subst d3. destruct (default false (ro_allowDirtyRead o)); congruence. }
  { rewrite Hfh, Hhosts2. subst a3.
    destruct (default false (ro_allowDirtyRead o)); [done|].
    by rewrite <- Hna. }
  { rewrite Hfh, Hhosts2. subst d3.
    destruct (default false (ro_allowDirtyRead o)); [|done].
    by rewrite <- Hnd. }
  { lia. }
  simpl in Hrun2, Hret4. rewrite Hdirty2 in Hrun2.
  assert ((if default false (ro_allowDirtyRead o) then Num d3 else Num a3)
          = next_host c h) as Hnext.
  { subst a3 d3 h. destruct (default false (ro_allowDirtyRead o)); congruence. }
  rewrite Hnext in Hrun2.
  exists (absorb (absorb (start c) [] (c2, Some (t, h), []))
                 (delete 0%nat [(t, h)]) (c4, Some (t', next_host c h), [])), t, t', h.
  split_and!.
  - assert (step (start c) (Submit o)
            = Some (absorb (start c) [] (c2, Some (t, h), []))) as Hs1.
    { unfold step. change (request (conn (start c)) o)
        with (_runQueue (length (_queue c1)) c1). by rewrite Hrun1. }
    rewrite (run_cons _ _ _ _ Hs1).
    assert (step (absorb (start c) [] (c2, Some (t, h), [])) (Complete 0 (Failure err))
            = Some (absorb (absorb (start c) [] (c2, Some (t, h), []))
                      (delete 0%nat [(t, h)]) (c4, Some (t', next_host c h), [])))
      as Hs2.
    { unfold step. change (inflight (absorb (start c) [] (c2, Some (t, h), [])))
        with [(t, h)]. change (conn (absorb (start c) [] (c2, Some (t, h), []))) with c2.
      cbn [lookup list_lookup]. unfold callback. rewrite Hcb. unfold runQueue.
      by rewrite Hrun2. }
    rewrite (run_cons _ _ _ _ Hs2). done.
  - subst h. rewrite Ha, Hd. done.
  - done.
  - done.
  - done.
  - rewrite Hret4, Hret2, Hr0. done.
Qed.

Lemma retry_goes_to_the_next_host_witness :
  let c := new_Connection (H := example_platform)
             (example_config ROUND_ROBIN three_hosts) no_draw no_draw in
  exists p t t' h,
    run (H := example_platform) (start c)
      [Submit (get "/_api/version"); Complete 0 (Failure refused)] = Some p
    /\ h = _activeHost c
    /\ sent p = [(t, h); (t', next_host c h)]
    /\ inflight p = [(t', next_host c h)]
    /\ settled p = []
    /\ retries t' = 1%Z.
Proof.
  intros c.
  apply (@retry_goes_to_the_next_host example_platform c (get "/_api/version") refused).
  - split; exists 0%Z; split; [reflexivity | vm_compute; split; [discriminate | reflexivity]
                              | reflexivity | vm_compute; split; [discriminate | reflexivity]].
  - reflexivity.
  - vm_compute. reflexivity.
  - reflexivity.
  - reflexivity.
  - reflexivity.
  - vm_compute. reflexivity.
  - by split_and!.
Defined.

Section Order.
Context `{Platform}.

(** What [request] reads of the connection when it builds a task. *)
Lemma request_task_frame c c' o :
  _headers c' = _headers c -> _arangoVersion c' = _arangoVersion c ->
  _transactionId c' = _transactionId c ->
  request_task c' o = request_task c o.
Proof. intros Hh Hv Ht. unfold request_task, extraHeaders. by rewrite Hh, Hv, Ht. Qed.

Lemma select_frame c c1 t h :
  select c = Some (c1, t, h) ->
  _headers c1 = _headers c /\ _arangoVersion c1 = _arangoVersion c
  /\ _transactionId c1 = _transactionId c.
Proof. unfold select. intros Hs. by repeat case_match; simplify_eq. Qed.

(** One call of [_runQueue] on a queue of unpinned tasks: the head of the
    queue leaves, dispatched, or nothing moves. *)
Lemma runQueue_order fuel c :
  cursors_valid c -> Forall (fun t => host t = None) (_queue c) ->
  exists c' s,
    _runQueue fuel c = Some (c', s, [])
    /\ cursors_valid c'
    /\ _headers c' = _headers c /\ _arangoVersion c' = _arangoVersion c
    /\ _transactionId c' = _transactionId c
    /\ match s with
       | None => _queue c' = _queue c
       | Some (t, h) => exists t0, _queue c = t0 :: _queue c' /\ t = dispatched t0
       end.
Proof.
  intros [Hva Hvd] Hq. destruct (select c) as [[[c1 t] h]|] eqn:Hs.
  - pose proof (select_frame _ _ _ _ Hs) as (Hh & Hv & Ht).
    destruct (select_inv _ _ _ _ Hs) as (t0 & Hq0 & _ & _ & Hhosts & _ & Hm).
    rewrite Hq0 in Hq. apply Forall_cons in Hq as [Hpin Hq]. rewrite Hpin in Hm.
    destruct Hva as (a & Ha & Hra). destruct Hvd as (d & Hd & Hrd).
    assert (in_range (length (_hosts c)) (Num a)) as Hra' by (by exists a).
    assert (in_range (length (_hosts c)) (Num d)) as Hrd' by (by exists d).
    destruct (next_host_in_range c a Hra') as [_ Hna].
    destruct (next_host_in_range c d Hrd') as [_ Hnd].
    assert (in_range (length (_hosts c1)) h /\ cursors_valid c1 /\ t = dispatched t0)
      as (Hh1 & Hv1 & Ht1).
    { rewrite Hhosts. unfold cursors_valid, dispatched. rewrite Hhosts.
      destruct (allowDirtyRead t0).
      - destruct Hm as (-> & -> & -> & ->). rewrite Ha, Hd. by split_and!.
      - destruct Hm as (-> & -> & -> & ->). rewrite Ha, Hd.
        case_decide; by split_and!. }
    exists c1, (Some (t, h)).
    rewrite (runQueue_sends fuel c c1 t h Hs (js_at_in_range _ _ Hh1)).
    split_and!; try done. by exists t0.
  - exists c, None. rewrite (runQueue_idle fuel c Hs). by split_and!.
Qed.

(** A quiet event keeps the requests in the order of their submission:
    those sent so far are the first ones submitted, those waiting are the
    rest. *)
Lemma quiet_step_order c p e pre post :
  cursors_valid (conn p) ->
  _headers (conn p) = _headers c -> _arangoVersion (conn p) = _arangoVersion c ->
  _transactionId (conn p) = _transactionId c ->
  map fst (sent p) = map (fun o => dispatched (request_task c o)) pre ->
  _queue (conn p) = map (request_task c) post ->
  Forall (fun o => ro_host o = None) post ->
  quiet true e ->
  exists p' pre' post',
    step p e = Some p'
    /\ cursors_valid (conn p')
    /\ _headers (conn p') = _headers c /\ _arangoVersion (conn p') = _arangoVersion c
    /\ _transactionId (conn p') = _transactionId c
    /\ map fst (sent p') = map (fun o => dispatched (request_task c o)) pre'
    /\ _queue (conn p') = map (request_task c) post'
    /\ Forall (fun o => ro_host o = None) post'
    /\ pre' ++ post' = pre ++ post ++ submissions [e].
Proof.
  intros Hv Hh Hver Htx Hsent Hq Hpost He.
  assert (forall c1 flying,
    cursors_valid c1 -> _headers c1 = _headers c -> _arangoVersion c1 = _arangoVersion c ->
    _transactionId c1 = _transactionId c ->
    forall post1, _queue c1 = map (request_task c) post1 ->
    Forall (fun o => ro_host o = None) post1 ->
    forall call, exists c' s pre' post',
      _runQueue (length (_queue c1)) c1 = Some (c', s, [])
      /\ cursors_valid c'
      /\ _headers c' = _headers c /\ _arangoVersion c' = _arangoVersion c
      /\ _transactionId c' = _transactionId c
      /\ map fst (sent (absorb p flying (c', s, call)))
         = map (fun o => dispatched (request_task c o)) pre'
      /\ _queue c' = map (request_task c) post'
      /\ Forall (fun o => ro_host o = None) post'
      /\ pre' ++ post' = pre ++ post1) as Hrun.
  { intros c1 flying Hv1 Hh1 Hver1 Htx1 post1 Hq1 Hpost1 call.
    destruct (runQueue_order (length (_queue c1)) c1 Hv1)
      as (c' & s & Hr & Hv' & Hh' & Hver' & Htx' & Hs).
    { rewrite Hq1. apply Forall_map. eapply Forall_impl; [exact Hpost1|].
      intros o Ho. simpl. unfold request_task. by destruct (content_of _ _). }
    destruct s as [[t h]|].
    - destruct Hs as (t0 & Hq0 & ->). rewrite Hq1 in Hq0.
      destruct post1 as [|o1 post1]; [done|]. simpl in Hq0.
      injection Hq0 as <- Hq0. apply Forall_cons in Hpost1 as [_ Hpost1].
      exists c', (Some (dispatched (request_task c o1), h)), (pre ++ [o1]), post1.
      split_and!; try done; try congruence.
      + simpl. rewrite !map_app, Hsent. done.
      + by rewrite <- app_assoc.
    - exists c', None, pre, post1. split_and!; try done; try congruence.
      simpl. by rewrite app_nil_r. }
  destruct e as [o|i [err|res]]; simpl in He.
  - destruct He as [Hpin _].
    set (c1 := set_queue (conn p) (_queue (conn p) ++ [request_task (conn p) o])).
    assert (_queue c1 = map (request_task c) (post ++ [o])) as Hq1.
    { subst c1. simpl. rewrite Hq, map_app. simpl.
      by rewrite (request_task_frame c (conn p)). }
    assert (Forall (fun o => ro_host o = None) (post ++ [o])) as Hpost1.
    { apply Forall_app. split; [done|]. by apply Forall_singleton. }
    destruct (Hrun c1 (inflight p) Hv Hh Hver Htx (post ++ [o]) Hq1 Hpost1 [])
      as (c' & s & pre' & post' & Hr & Hv' & Hh' & Hver' & Htx' & Hs' & Hq' & Hp' & Happ).
    exists (absorb p (inflight p) (c', s, [])), pre', post'.
    split_and!; try done.
    unfold step, request, runQueue. fold c1. by rewrite Hr.
  - done.
  - simpl. rewrite app_nil_r.
    destruct (inflight p !! i) as [[t h]|] eqn:Hi.
    + set (c1 := set_activeTasks (conn p) (_activeTasks (conn p) - 1)).
      destruct (Hrun c1 (delete i (inflight p)) Hv Hh Hver Htx post Hq Hpost
                  [(t, CallResolve (with_hostId res h))])
        as (c' & s & pre' & post' & Hr & Hv' & Hh' & Hver' & Htx' & Hs' & Hq' & Hp' & Happ).
      exists (absorb p (delete i (inflight p))
                (c', s, [(t, CallResolve (with_hostId res h))])), pre', post'.
      split_and!; try done.
      unfold callback. rewrite (callback_handle_resolve _ _ _ _ He). fold c1.
      unfold runQueue. by rewrite Hr.
    + exists p, pre, post. by split_and!.
Qed.

Lemma quiet_run_order c events p pre post :
  cursors_valid (conn p) ->
  _headers (conn p) = _headers c -> _arangoVersion (conn p) = _arangoVersion c ->
  _transactionId (conn p) = _transactionId c ->
  map fst (sent p) = map (fun o => dispatched (request_task c o)) pre ->
  _queue (conn p) = map (request_task c) post ->
  Forall (fun o => ro_host o = None) post ->
  Forall (quiet true) events ->
  exists p' pre' post',
    run p events = Some p'
    /\ map fst (sent p') = map (fun o => dispatched (request_task c o)) pre'
    /\ _queue (conn p') = map (request_task c) post'
    /\ pre' ++ post' = pre ++ post ++ submissions events.
Proof.
  revert p pre post. induction events as [|e es IH];
    intros p pre post Hv Hh Hver Htx Hsent Hq Hpost Hes.
  - exists p, pre, post. simpl. rewrite app_nil_r. by split_and!.
  - apply Forall_cons in Hes as [He Hes].
    destruct (quiet_step_order c p e pre post)
      as (p1 & pre1 & post1 & Hs & Hv1 & Hh1 & Hver1 & Htx1 & Hsent1 & Hq1 & Hpost1 & Happ1);
      try done.
    destruct (IH p1 pre1 post1) as (p2 & pre2 & post2 & Hr & Hsent2 & Hq2 & Happ2);
      try done.
    exists p2, pre2, post2. rewrite (run_cons _ _ _ _ Hs). split_and!; try done.
    rewrite Happ2, (app_assoc pre1), Happ1, <- !app_assoc.
    do 2 f_equal. by destruct e.
Qed.

End Order.

(** X28. Without transport errors, redirects and pinned hosts the
    connection is first in, first out: at every point of a run the requests
    handed to transports so far are, in order and each once, the first ones
    submitted, and the queue holds the remaining ones in order. *)
Theorem requests_are_sent_in_submission_order `{Platform} (c : Connection)
    (events : list Event) :
  cursors_valid c -> _queue c = [] -> Forall (quiet true) events ->
  exists p gone waiting,
    run (start c) events = Some p
    /\ submissions events = gone ++ waiting
    /\ map fst (sent p) = map (fun o => dispatched (request_task c o)) gone
    /\ _queue (conn p) = map (request_task c) waiting.
Proof.
  intros Hv Hq Hes.
  destruct (quiet_run_order c events (start c) [] [])
    as (p & pre & post & Hr & Hsent & Hq' & Happ); try done.
  by exists p, pre, post.
Qed.

Lemma requests_are_sent_in_submission_order_witness :
  let c := new_Connection (H := example_platform)
             (example_config ROUND_ROBIN three_hosts) no_draw no_draw in
  let events := [Submit (get "/a"); Submit (get_dirty "/b"); Submit (get "/c");
                 Complete 0 (Success (text_reply 200 "ok")); Submit (get "/d")] in
  exists p gone waiting,
    run (H := example_platform) (start c) events = Some p
    /\ submissions events = gone ++ waiting
    /\ map fst (sent p) = map (fun o => dispatched (request_task (H := example_platform) c o)) gone
    /\ _queue (conn p) = map (request_task (H := example_platform) c) waiting.
Proof.
  intros c events.
  apply (@requests_are_sent_in_submission_order example_platform c events).
  - split; exists 0%Z; split; [reflexivity | vm_compute; split; [discriminate | reflexivity]
                              | reflexivity | vm_compute; split; [discriminate | reflexivity]].
  - reflexivity.
  - repeat (apply Forall_cons_2 || apply Forall_nil_2); simpl; try done.
Defined.

(** ** The database cache *)

Lemma database_spares {D : Type} (m : gmap string D) name call :
  spares name call -> (database m call.1 call.2).1 !! name = m !! name.
Proof.
  destruct call as [n [| |d]]; simpl; intros [Hn|Hu]; try done.
  - by rewrite lookup_delete_ne.
  - by rewrite lookup_insert_ne.
Qed.

Lemma database_calls_spares {D : Type} (m : gmap string D) name calls :
  Forall (spares name) calls -> database_calls m calls !! name = m !! name.
Proof.
  revert m. induction calls as [|call calls IH]; intros m Hs; [done|].
  apply Forall_cons in Hs as [Hc Hs]. unfold database_calls. simpl.
  fold (database_calls (database m call.1 call.2).1 calls).
  by rewrite IH, database_spares.
Qed.

(** X29. The database cache: an instance stored under a name is what a
    fetch of that name returns, and after the name is cleared a fetch
    returns [undefined], whatever was fetched and whatever was stored or
    cleared under other names in between. *)
Theorem stored_database_is_fetched {D : Type} (cache : gmap string D) (name : string)
    (d : D) (calls : list (string * DatabaseArg D)) :
  Forall (spares name) calls ->
  (database (database_calls (database cache name (ArgDatabase d)).1 calls)
            name ArgUndefined).2 = Some d
  /\ (database (database_calls (database cache name ArgNull).1 calls)
               name ArgUndefined).2 = None.
Proof.
  intros Hs. simpl. rewrite !database_calls_spares by done.
  by rewrite lookup_insert_eq, lookup_delete_eq.
Qed.

Lemma stored_database_is_fetched_witness :
  let calls := [("other", ArgDatabase 7%nat); ("_system", ArgUndefined); ("other", ArgNull)] in
  (database (database_calls (database (∅ : gmap string nat) "_system" (ArgDatabase 3%nat)).1
                            calls) "_system" ArgUndefined).2 = Some 3%nat
  /\ (database (database_calls (database (∅ : gmap string nat) "_system" ArgNull).1 calls)
               "_system" ArgUndefined).2 = None.
Proof.
  intros calls. apply (stored_database_is_fetched ∅ "_system" 3%nat calls).
  repeat (apply Forall_cons_2 || apply Forall_nil_2); unfold spares; simpl;
    (by left) || (by right).
Defined.

(** ** Graph responses *)

Lemma get_field_app l1 l2 k :
  get_field (l1 ++ l2) k
  = match get_field l2 k with Some w => Some w | None => get_field l1 k end.
Proof.
  induction l1 as [|[k1 v1] l1 IH]; simpl.
  - by destruct (get_field l2 k).
  - rewrite IH. by destruct (get_field l2 k).
Qed.

Lemma get_field_filter (keep : string -> bool) l k :
  get_field (List.filter (fun kv => keep kv.1) l) k
  = if keep k then get_field l k else None.
Proof.
  induction l as [|[k1 v1] l IH]; simpl.
  - by destruct (keep k).
  - destruct (keep k1) eqn:Hk1; simpl; rewrite IH.
    + destruct (keep k) eqn:Hk; [done|].
      destruct (String.eqb_spec k1 k) as [->|]; [congruence|done].
    + destruct (keep k) eqn:Hk; [|done].
      destruct (get_field l k); [done|].
      destruct (String.eqb_spec k1 k) as [->|]; [congruence|done].
Qed.

Lemma existsb_eqb_elem (k : string) (l : list string) :
  existsb (String.eqb k) l = bool_decide (k ∈ l).
Proof.
  induction l as [|x l IH]; simpl.
  - done.
  - rewrite IH. destruct (String.eqb_spec k x) as [->|Hne]; simpl.
    + symmetry. apply bool_decide_eq_true_2. by left.
    + apply bool_decide_ext. rewrite elem_of_cons. tauto.
Qed.

(** X30. What [mungeGharialResponse] returns for a body that is not [null]
    or [undefined], attribute by attribute: [new] and [old] of the reply
    when the reply defines them, else the document's attribute of that name
    when it has one, else the reply's own attribute unless it is [new],
    [old] or the key the document was under. *)
Theorem munged_response_attributes (body : value) (prop : GharialProp) :
  body <> JUndefined -> body <> JNull ->
  exists fields,
    mungeGharialResponse body prop = Some (JObject fields)
    /\ forall k,
         get_field fields k
         = if bool_decide (k ∈ ["new"; "old"]) && is_defined (read_prop body k)
           then Some (read_prop body k)
           else match get_field (own_entries (read_prop body (prop_key prop))) k with
                | Some w => Some w
                | None =>
                    if bool_decide (k ∈ ["new"; "old"; prop_key prop]) then None
                    else get_field (own_entries body) k
                end.
Proof.
  intros Hu Hn.
  set (doc := read_prop body (prop_key prop)).
  set (meta := List.filter
                 (fun kv => negb (existsb (String.eqb kv.1) ["new"; "old"; prop_key prop]))
                 (own_entries body)).
  set (r1 := if is_defined (read_prop body "new")
             then (meta ++ own_entries doc) ++ [("new", read_prop body "new")]
             else meta ++ own_entries doc).
  set (r2 := if is_defined (read_prop body "old")
             then r1 ++ [("old", read_prop body "old")] else r1).
  exists r2. split; [by destruct body|].
  intros k.
  assert (get_field (meta ++ own_entries doc) k
          = match get_field (own_entries doc) k with
            | Some w => Some w
            | None => if bool_decide (k ∈ ["new"; "old"; prop_key prop]) then None
                      else get_field (own_entries body) k
            end) as Hbase.
  { rewrite get_field_app. destruct (get_field (own_entries doc) k); [done|].
    subst meta.
    rewrite (get_field_filter
               (fun k => negb (existsb (String.eqb k) ["new"; "old"; prop_key prop]))).
    rewrite existsb_eqb_elem. by destruct (bool_decide _). }
  assert (get_field r1 k
          = if bool_decide (k = "new") && is_defined (read_prop body "new")
            then Some (read_prop body "new")
            else get_field (meta ++ own_entries doc) k) as Hr1.
  { subst r1. destruct (is_defined (read_prop body "new")).
    - rewrite get_field_app. cbn [get_field].
      destruct (String.eqb_spec "new" k) as [<-|Hne].
      + by rewrite bool_decide_true.
      + rewrite bool_decide_false by congruence. by destruct (get_field _ k).
    - by rewrite andb_false_r. }
  assert (get_field r2 k
          = if bool_decide (k = "old") && is_defined (read_prop body "old")
            then Some (read_prop body "old") else get_field r1 k) as Hr2.
  { subst r2. destruct (is_defined (read_prop body "old")).
    - rewrite get_field_app. cbn [get_field].
      destruct (String.eqb_spec "old" k) as [<-|Hne].
      + by rewrite bool_decide_true.
      + rewrite bool_decide_false by congruence. by destruct (get_field r1 k).
    - by rewrite andb_false_r. }
  rewrite Hr2, Hr1, Hbase. clear Hr2 Hr1 Hbase.
  assert (k ∈ ["new"; "old"] <-> k = "new" \/ k = "old") as Hin.
  { rewrite !elem_of_cons, elem_of_nil. tauto. }
  destruct (decide (k = "old")) as [->|Hold].
  { rewrite (bool_decide_eq_true_2 ("old" ∈ ["new"; "old"])) by (apply Hin; by right).
    rewrite (bool_decide_eq_true_2 (_ = "old")) by done.
    rewrite (bool_decide_eq_false_2 (_ = "new")) by done. simpl.
    by destruct (is_defined (read_prop body "old")). }
  rewrite (bool_decide_eq_false_2 (k = "old")) by done. simpl.
  destruct (decide (k = "new")) as [->|Hnew].
  { rewrite (bool_decide_eq_true_2 ("new" ∈ ["new"; "old"])) by (apply Hin; by left).
    by rewrite (bool_decide_eq_true_2 (_ = "new")) by done. }
  rewrite (bool_decide_eq_false_2 (k = "new")) by done.
  rewrite (bool_decide_eq_false_2 (k ∈ ["new"; "old"])) by (rewrite Hin; tauto).
  done.
Qed.

Lemma munged_response_attributes_witness :
  exists fields,
    mungeGharialResponse updated_body PropVertex = Some (JObject fields)
    /\ forall k,
         get_field fields k
         = if bool_decide (k ∈ ["new"; "old"]) && is_defined (read_prop updated_body k)
           then Some (read_prop updated_body k)
           else match get_field (own_entries (read_prop updated_body (prop_key PropVertex))) k with
                | Some w => Some w
                | None =>
                    if bool_decide (k ∈ ["new"; "old"; prop_key PropVertex]) then None
                    else get_field (own_entries updated_body) k
                end.
Proof.
  apply (munged_response_attributes updated_body PropVertex); discriminate.
Defined.
